(** * PyCoulomb: the tensor engine of Elastic_stresses_py

    A shallow embedding of [PyCoulomb/conversion_math.py],
    [PyCoulomb/coulomb_collections.py] and [PyCoulomb/run_dc3d.py], and the
    properties of the strain/stress builders, the Coulomb resolver, the
    source evaluator, the subfault splitter and the aggregation loops.

    Conventions of the embedding:
    - a numpy [float64] is a real number of [R]: the rounding of values,
      infinities and NaN are outside the model, summation order is
      therefore immaterial;
    - the one place where rounding decides more than a value is the number
      of entries of [np.arange], which NumPy computes from a rounded
      quotient: that number is the interface [np.arange_float64], within
      one of the exact count;
    - a Python exception is a value [py.Raise e] of the error monad
      [py.result]; a function that returns normally yields [py.Ok v];
    - a 2-D [ndarray] is a list of rows, a 1-D [ndarray] or a Python list of
      floats is a list of reals; indexing out of range raises [IndexError];
    - a [namedtuple] is a record with the source's field names, one module per
      namedtuple so that [fault.top] reads [Faults_object.top fault];
    - the packages [okada_wrapper] and [Tectonic_Utils] are not part of the
      repository: they are the interfaces [okada_wrapper] and
      [fault_vector_functions], and everything is stated for every
      implementation of them.

    The helpers of [PyCoulomb/fault_slip_object/fault_slip_object.py] on
    fault dictionaries are embedded as well; the writers of GMT files are
    not. *)

From Stdlib Require Import String.
From Stdlib Require Import Reals Lra Lia ZArith List Bool.
Import ListNotations.
Open Scope R_scope.

(** ** Python values, exceptions and loops *)

Module py.

Inductive exn : Set :=
| AttributeError
| IndexError
| TypeError
| ValueError
| ZeroDivisionError.

Inductive result (A : Type) : Type :=
| Ok (a : A)
| Raise (e : exn).
Arguments Ok {A} a.
Arguments Raise {A} e.

Definition bind {A B : Type} (m : result A) (k : A -> result B) : result B :=
  match m with
  | Ok a => k a
  | Raise e => Raise e
  end.

(** The values a namedtuple field of this project can hold. [Tuple0] is
    the empty tuple [()]. *)
Inductive value : Type :=
| Float (r : R)
| Int (z : Z)
| Str (s : string)
| FloatList (l : list R)
| Tuple0.

(** [for x in xs: s = body(x, s)], stopping at the first exception. *)
Fixpoint for_each {A S : Type} (xs : list A) (s : S)
         (body : A -> S -> result S) : result S :=
  match xs with
  | [] => Ok s
  | x :: xs' => bind (body x s) (fun s' => for_each xs' s' body)
  end.

(** [[f(x) for x in xs]] for a fallible [f]. *)
Fixpoint mapM {A B : Type} (f : A -> result B) (xs : list A)
  : result (list B) :=
  match xs with
  | [] => Ok []
  | x :: xs' =>
      bind (f x) (fun y => bind (mapM f xs') (fun ys => Ok (y :: ys)))
  end.

(** [a / b] on Python numbers, one of them a float. *)
Definition div (a b : R) : result R :=
  if Req_dec_T b 0 then Raise ZeroDivisionError else Ok (a / b).

(** [range(n)]: empty when [n <= 0]. *)
Definition range (n : Z) : list nat := seq 0 (Z.to_nat n).

(** [l[i]] for [0 <= i]. *)
Definition getitem {A : Type} (l : list A) (i : nat) : result A :=
  match nth_error l i with
  | Some a => Ok a
  | None => Raise IndexError
  end.

(** [l[i] = v] for [0 <= i]. *)
Fixpoint setitem {A : Type} (l : list A) (i : nat) (v : A)
  : result (list A) :=
  match l, i with
  | [], _ => Raise IndexError
  | _ :: l', O => Ok (v :: l')
  | a :: l', S i' => bind (setitem l' i' v) (fun r => Ok (a :: r))
  end.

End py.

Import py.

Notation "x <- m ;; k" := (py.bind m (fun x => k))
(at level 61, m at next level, right associativity).
Notation "' p <- m ;; k" := (py.bind m (fun x => let 'p := x in k))
(at level 61, p pattern, m at next level, right associativity).

(** ** The part of numpy the engine uses *)

Module np.

Definition vector := list R.
Definition matrix := list (list R).

Definition deg2rad (x : R) : R := x * (PI / 180).

(** [np.shape] of a 2-D array. *)
Definition shape (M : matrix) : nat * nat :=
  (length M, length (hd [] M)).

Definition zeros (sh : nat * nat) : matrix :=
  repeat (repeat 0 (snd sh)) (fst sh).

(** [M[i][j]] *)
Definition getitem2 (M : matrix) (i j : nat) : result R :=
  row <- getitem M i ;; getitem row j.

(** [M[i][j] = v] *)
Definition setitem2 (M : matrix) (i j : nat) (v : R) : result matrix :=
  row <- getitem M i ;;
  row' <- setitem row j v ;;
  setitem M i row'.

(** [M.T] *)
Definition T (M : matrix) : matrix :=
  map (fun j => map (fun row => nth j row 0) M) (seq 0 (snd (shape M))).

(** [np.dot] of two 1-D arrays; numpy refuses operands of different
    lengths. *)
Definition dot_vv (a b : vector) : result R :=
  if Nat.eqb (length a) (length b)
  then Ok (fold_left (fun acc p => acc + fst p * snd p) (combine a b) 0)
  else Raise ValueError.

(** [np.dot] of a 2-D and a 1-D array. *)
Definition dot_mv (M : matrix) (v : vector) : result vector :=
  mapM (fun row => dot_vv row v) M.

(** [np.dot] of two 2-D arrays. *)
Definition dot_mm (A B : matrix) : result matrix :=
  mapM (fun row => if Nat.eqb (length row) (length B)
                   then mapM (fun col => dot_vv row col) (T B)
                   else Raise ValueError) A.

(** [np.trace] of a 2-D array: the sum of the entries [M[i][i]]. *)
Fixpoint trace_from (k : nat) (M : matrix) : R :=
  match M with
  | [] => 0
  | row :: M' => nth k row 0 + trace_from (S k) M'
  end.
Definition trace (M : matrix) : R := trace_from 0 M.

(** Broadcasting of one axis: equal lengths pair up, a length-1 operand
    is repeated, anything else is refused. *)
Definition broadcast {X Y : Type} (f : X -> X -> result Y)
           (a b : list X) : result (list Y) :=
  if Nat.eqb (length a) (length b)
  then mapM (fun p => f (fst p) (snd p)) (combine a b)
  else match a, b with
       | [x], _ => mapM (fun y => f x y) b
       | _, [y] => mapM (fun x => f x y) a
       | _, _ => Raise ValueError
       end.

(** [a + b] on 1-D arrays and [np.add] on 2-D arrays. *)
Definition add1 (a b : vector) : result vector :=
  broadcast (fun x y => Ok (x + y)) a b.
Definition add (A B : matrix) : result matrix :=
  broadcast add1 A B.

(** [M * c] for a scalar [c]. *)
Definition scale (M : matrix) (c : R) : matrix :=
  map (map (fun x => x * c)) M.

(** The ceiling of a real, from the integer part [up] of the library. *)
Definition ceil (r : R) : Z := (1 - up (- r))%Z.

(** The number of entries of [np.arange(start, stop, step)]. NumPy
    computes it in float64, as the ceiling of the rounded quotient
    [(stop - start) / step] of the rounded arguments. In exact arithmetic
    the count is [ceil((stop - start) / step)], or 0 if that is negative.
    When the exact quotient is an integer or next to one, as it is for
    [np.arange(a, b + (b - a) / n, (b - a) / n)], rounding moves the
    computed quotient across it: the array has one entry fewer or one entry
    more than the exact count ([n], [n + 1] or [n + 2] entries there).
    [arange_length] is the computed count and [arange_length_close] its
    distance from the exact one; nothing else is known of it. *)
Class arange_float64 : Type := {
  arange_length : R -> R -> R -> nat;
  arange_length_close : forall start stop step : R,
    step <> 0 ->
    (Z.max 0 (ceil ((stop - start) / step)) - 1
     <= Z.of_nat (arange_length start stop step)
     <= Z.max 0 (ceil ((stop - start) / step)) + 1)%Z }.

(** [np.arange(start, stop, step)]: [arange_length start stop step] values
    [start + i * step]. *)
Definition arange {f64 : arange_float64} (start stop step : R) : vector :=
  map (fun i => start + INR i * step)
      (seq 0 (arange_length start stop step)).

(** [np.linspace(start, stop, num)]: [num] evenly spaced values from
    [start] to [stop], both included; a negative [num] is refused. *)
Definition linspace (start stop : R) (num : Z) : result vector :=
  if Z.ltb num 0
  then Raise ValueError
  else Ok (map (fun i => start + INR i * ((stop - start) / IZR (num - 1)))
               (seq 0 (Z.to_nat num))).

(** [np.meshgrid(x, y)]: both arrays have [len(y)] rows and [len(x)]
    columns. *)
Definition meshgrid (x y : vector) : matrix * matrix :=
  (map (fun _ => x) y, map (fun yv => map (fun _ => yv) x) y).

(** [a.argmin()] of a 1-D array: the first index of the least value; an
    empty array is refused. *)
Fixpoint argmin_from (best_i : nat) (best : R) (i : nat) (l : vector) : nat :=
  match l with
  | [] => best_i
  | v :: l' =>
      if Rlt_dec v best
      then argmin_from i v (S i) l'
      else argmin_from best_i best (S i) l'
  end.
Definition argmin (l : vector) : result nat :=
  match l with
  | [] => Raise ValueError
  | v :: l' => Ok (argmin_from 0 v 1 l')
  end.

End np.

(** A scalar accumulator that numpy turns into an array: [u_disp] starts as
  the Python integer [0] and becomes a 1-D array after the first addition
  of a row of a column vector. *)
Inductive accumulator : Type :=
| Scalar (r : R)
| Array1 (v : np.vector).

(** [acc + row] *)
Definition accumulator_add (acc : accumulator) (row : np.vector)
: result accumulator :=
match acc with
| Scalar r => Ok (Array1 (map (fun x => r + x) row))
| Array1 v => v' <- np.add1 v row ;; Ok (Array1 v')
end.

(** [acc[0]]: a Python [int] is not subscriptable. *)
Definition accumulator_item0 (acc : accumulator) : result R :=
match acc with
| Scalar _ => Raise TypeError
| Array1 v => getitem v 0
end.

(** [int(r)] of a float: truncation towards zero. *)
Definition int_of_float (r : R) : Z :=
  if Rle_dec 0 r then (up r - 1)%Z else np.ceil r.

(** What is stored by [a[i][j] = acc]: a scalar, or the element of a
    one-element array; a longer array is refused. *)
Definition accumulator_scalar (acc : accumulator) : result R :=
  match acc with
  | Scalar r => Ok r
  | Array1 [a] => Ok a
  | Array1 _ => Raise ValueError
  end.

(** ** The exceptions of the drivers and of the fault-dictionary helpers

    Besides the built-in exceptions: the [Exception] a helper raises
    itself. *)

Module pyx.

Inductive exn : Set :=
| Builtin (e : py.exn)
| Exception (msg : string).

Inductive result (A : Type) : Type :=
| Ok (a : A)
| Raise (e : exn).
Arguments Ok {A} a.
Arguments Raise {A} e.

Definition bind {A B : Type} (m : result A) (k : A -> result B) : result B :=
  match m with
  | Ok a => k a
  | Raise e => Raise e
  end.

(** A computation of the tensor engine inside a driver. *)
Definition lift {A : Type} (m : py.result A) : result A :=
  match m with
  | py.Ok a => Ok a
  | py.Raise e => Raise (Builtin e)
  end.

(** [a / b] on Python floats. *)
Definition div (a b : R) : result R :=
  if Req_dec_T b 0 then Raise (Builtin ZeroDivisionError) else Ok (a / b).

Fixpoint for_each {A S : Type} (xs : list A) (s : S)
         (body : A -> S -> result S) : result S :=
  match xs with
  | [] => Ok s
  | x :: xs' => bind (body x s) (fun s' => for_each xs' s' body)
  end.

End pyx.

Notation "x <~ m ;; k" := (pyx.bind m (fun x => k))
  (at level 61, m at next level, right associativity).
Notation "' p <~ m ;; k" := (pyx.bind m (fun x => let 'p := x in k))
  (at level 61, p pattern, m at next level, right associativity).

(** ** coulomb_collections.py: the namedtuples *)

Module cc.

Module Params.
Record t : Type := mk {
  config_file : string;
  input_file : string;
  aftershocks : string;
  disp_points_file : string;
  strain_file : string;
  strike_num_receivers : Z;
  dip_num_receivers : Z;
  fixed_rake : value;
  mu : R;
  lame1 : R;
  B : R;
  alpha : R;
  outdir : string }.
End Params.

Module Faults_object.
Record t : Type := mk {
  xstart : R; xfinish : R;
  ystart : R; yfinish : R;
  Kode : Z; zerolon : R; zerolat : R;
  rtlat : R; reverse : R; tensile : R; potency : list R;
  strike : R; dipangle : R; rake : R;
  top : R; bottom : R; comment : string }.

(** The fields of the namedtuple with their values, in the order of the
    declaration. *)
Definition items (f : t) : list (string * value) :=
  [ ("xstart", Float (xstart f)); ("xfinish", Float (xfinish f));
    ("ystart", Float (ystart f)); ("yfinish", Float (yfinish f));
    ("Kode", Int (Kode f)); ("zerolon", Float (zerolon f));
    ("zerolat", Float (zerolat f));
    ("rtlat", Float (rtlat f)); ("reverse", Float (reverse f));
    ("tensile", Float (tensile f)); ("potency", FloatList (potency f));
    ("strike", Float (strike f)); ("dipangle", Float (dipangle f));
    ("rake", Float (rake f));
    ("top", Float (top f)); ("bottom", Float (bottom f));
    ("comment", Str (comment f)) ]%string.

(** [f.name] for a field name that is not known statically: a namedtuple
    has the attributes of its declaration and no other. *)
Definition getattr (f : t) (name : string) : result value :=
  match find (fun kv => String.eqb (fst kv) name) (items f) with
  | Some kv => Ok (snd kv)
  | None => Raise AttributeError
  end.
End Faults_object.

Module Input_object.
Record t : Type := mk {
  PR1 : R; FRIC : R; depth : R;
  start_gridx : R; finish_gridx : R;
  start_gridy : R; finish_gridy : R;
  xinc : R; yinc : R;
  minlon : R; maxlon : R;
  zerolon : R;
  minlat : R; maxlat : R;
  zerolat : R;
  source_object : list Faults_object.t;
  receiver_object : list Faults_object.t }.
End Input_object.

(** [Displacement_points]: one element of a list of displacement points. *)
Module Disp_Points.
Record t : Type := mk {
  lon : R; lat : R;
  dE_obs : value; dN_obs : value; dU_obs : value;
  Se_obs : value; Sn_obs : value; Su_obs : value;
  name : value }.
End Disp_Points.

Module Out_object.
Record t : Type := mk {
  x : np.vector; y : np.vector;
  x2d : np.matrix; y2d : np.matrix;
  u_disp : np.matrix; v_disp : np.matrix; w_disp : np.matrix;
  zerolon : R; zerolat : R;
  model_disp_points : list Disp_Points.t;
  strains : option (list np.matrix);
  source_object : list Faults_object.t;
  receiver_object : list Faults_object.t;
  receiver_normal : list R; receiver_shear : list R;
  receiver_coulomb : list R }.
End Out_object.

End cc.

Import cc.

(** What [compute_ll_strain] is handed as [strain_points]: a falsy value
    ([None], an empty list or tuple), or an object with parallel sequences
    [lon] and [lat]. *)
Inductive strain_points_arg : Type :=
| NoStrainPoints
| StrainPoints (lon lat : list R).

(** The number a float-valued attribute holds. *)
Definition as_float (v : value) : result R :=
  match v with
  | Float r => Ok r
  | Int z => Ok (IZR z)
  | _ => Raise TypeError
  end.

(** ** The external packages *)

Definition vec3 : Type := R * R * R.
Definition mat3 : Type := vec3 * vec3 * vec3.

(** A 3-vector and a 3x3 array of a library, as numpy arrays. *)
Definition array3 (v : vec3) : np.vector :=
  let '(a, b, c) := v in [a; b; c].
Definition array33 (m : mat3) : np.matrix :=
  let '(r0, r1, r2) := m in [array3 r0; array3 r1; array3 r2].

(** [Tectonic_Utils.geodesy.fault_vector_functions]: lengths, offsets, the
    flat-Earth projection and the unit vectors of a fault plane. *)
Class fault_vector_functions : Type := {
  get_strike_length : R -> R -> R -> R -> R;
  get_downdip_width : R -> R -> R -> R;
  add_vector_to_point : R -> R -> R -> R -> R * R;
  latlon2xy : R -> R -> R -> R -> R * R;
  get_strike_vector : R -> vec3;
  get_dip_vector : R -> R -> vec3;
  get_plane_normal : R -> R -> vec3 }.

(** [okada_wrapper]: the dislocation solvers. Both return
    [(success, u, grad_u)] with [u] a 3-vector and [grad_u] a 3x3 array.
    The position is the list [[xyz[0], xyz[1], xyz[2]]] of the rows of a
    column vector. *)
Class okada_wrapper : Type := {
  dc3dwrapper :
    R -> list np.vector -> R -> R -> list R -> list R -> list R
    -> Z * vec3 * mat3;
  dc3d0wrapper :
    R -> list np.vector -> R -> R -> list R -> Z * vec3 * mat3 }.

(** More of [Tectonic_Utils], for the fault-object helpers:
    [geodesy.fault_vector_functions] and [seismo.moment_calculations]. *)
Module Tectonic_Utils.

Class slip_functions : Type := {
  get_vector_magnitude : list R -> R;
  get_rtlat_dip_slip : R -> R -> R * R;
  get_total_slip : R -> R -> R;
  get_rake : R -> R -> R;
  xy2lonlat_single : R -> R -> R -> R -> R * R;
  xy2lonlat : list R -> list R -> R -> R -> list R * list R }.

Class moment_calculations : Type := {
  moment_from_muad : R -> R -> R -> R;
  mw_from_moment : R -> R }.

End Tectonic_Utils.

(** ** conversion_math.py *)

Module conversion_math.

Definition get_strain_tensor (dUidUj : np.matrix) : result np.matrix :=
  let '(rows, cols) := np.shape dUidUj in
  let strain_tensor := np.zeros (np.shape dUidUj) in
  for_each (seq 0 rows) strain_tensor (fun i strain_tensor =>
    for_each (seq 0 cols) strain_tensor (fun j strain_tensor =>
      a <- np.getitem2 dUidUj i j ;;
      b <- np.getitem2 dUidUj j i ;;
      np.setitem2 strain_tensor i j (0.5 * (a + b)))).

Definition get_stress_tensor (eij : np.matrix) (lamda mu : R)
  : result np.matrix :=
  let '(rows, cols) := np.shape eij in
  let stress_tensor := np.zeros (np.shape eij) in
  for_each (seq 0 rows) stress_tensor (fun i stress_tensor =>
    for_each (seq 0 cols) stress_tensor (fun j stress_tensor =>
      if Nat.eqb i j
      then e00 <- np.getitem2 eij 0 0 ;;
           e11 <- np.getitem2 eij 1 1 ;;
           e22 <- np.getitem2 eij 2 2 ;;
           eij_ <- np.getitem2 eij i j ;;
           np.setitem2 stress_tensor i j
             (lamda * (e00 + e11 + e22) + 2 * mu * eij_)
      else eij_ <- np.getitem2 eij i j ;;
           np.setitem2 stress_tensor i j (2 * mu * eij_))).

Definition get_coulomb_stresses_internal
           (tau : np.matrix) (rec_strike_vector : np.vector) (rake : R)
           (rec_dip_vector rec_plane_normal : np.vector) (friction B : R)
  : result (R * R * R) :=
  traction_vector <- np.dot_mv tau rec_plane_normal ;;
  dry_normal_stress <- np.dot_vv rec_plane_normal traction_vector ;;
  let effective_normal_stress :=
    dry_normal_stress - (np.trace tau / 3) * B in
  shear_rtlat <- np.dot_vv rec_strike_vector traction_vector ;;
  shear_reverse <- np.dot_vv rec_dip_vector traction_vector ;;
  let rake_rad := np.deg2rad rake in
  let R_ := [[cos rake_rad; - sin rake_rad]; [sin rake_rad; cos rake_rad]] in
  let shear_vector := [shear_rtlat; shear_reverse] in
  rotated_shear <- np.dot_mv R_ shear_vector ;;
  shear_in_rake_dir <- getitem rotated_shear 0 ;;
  let effective_normal_stress := effective_normal_stress / 1000 in
  let shear_stress := shear_in_rake_dir / 1000 in
  let coulomb_stress := shear_stress + friction * effective_normal_stress in
  Ok (effective_normal_stress, shear_stress, coulomb_stress).

(** The rotation by [strike - 90] degrees about the vertical, and the one
    by the opposite angle. *)
Definition get_R_from_strike (strike : R) : np.matrix * np.matrix :=
  let theta := strike - 90 in
  let theta := np.deg2rad theta in
  let R_ := [[cos theta; - sin theta; 0]; [sin theta; cos theta; 0];
             [0; 0; 1]] in
  let R2 := [[cos (- theta); - sin (- theta); 0];
             [sin (- theta); cos (- theta); 0]; [0; 0; 1]] in
  (R_, R2).

Section with_fault_vector_functions.
Context {fvf : fault_vector_functions}.

Definition get_coulomb_stresses
           (tau : np.matrix) (strike rake dip friction B : R)
  : result (R * R * R) :=
  let strike_unit_vector := array3 (get_strike_vector strike) in
  let dip_unit_vector := array3 (get_dip_vector strike dip) in
  let plane_normal := array3 (get_plane_normal strike dip) in
  get_coulomb_stresses_internal tau strike_unit_vector rake dip_unit_vector
                                plane_normal friction B.

(** [fault_object.W] is an attribute lookup: [Faults_object] declares no
    field [W]. *)
Definition get_fault_center (fault_object : Faults_object.t)
  : result np.vector :=
  let center_z :=
    (Faults_object.top fault_object + Faults_object.bottom fault_object) / 2 in
  let updip_center_x :=
    (Faults_object.xstart fault_object
     + Faults_object.xfinish fault_object) / 2 in
  let updip_center_y :=
    (Faults_object.ystart fault_object
     + Faults_object.yfinish fault_object) / 2 in
  W_ <- Faults_object.getattr fault_object "W" ;;
  W <- as_float W_ ;;
  let vector_mag :=
    W * cos (np.deg2rad (Faults_object.dipangle fault_object)) / 2 in
  let center_point :=
    add_vector_to_point updip_center_x updip_center_y vector_mag
                        (Faults_object.strike fault_object + 90) in
  let center := [fst center_point; snd center_point; center_z] in
  Ok center.

End with_fault_vector_functions.

(** [mu] and [lame1] are Python floats: a zero divisor raises. *)
Definition get_poissons_ratio_and_alpha (mu lame1 : R) : pyx.result (R * R) :=
  poissons_ratio <~ pyx.div lame1 (2 * (lame1 + mu)) ;;
  alpha <~ pyx.div (lame1 + mu) (lame1 + 2 * mu) ;;
  pyx.Ok (poissons_ratio, alpha).

(** [xprime, yprime = np.dot(rot_matrix, unprimed_vector)] unpacks the two
    rows of a column vector: each is a one-element array. *)
Definition rotate_points (x y degrees : R) : result (np.vector * np.vector) :=
  let rot_matrix :=
    [[cos (np.deg2rad degrees); - sin (np.deg2rad degrees)];
     [sin (np.deg2rad degrees); cos (np.deg2rad degrees)]] in
  let unprimed_vector := [[x]; [y]] in
  rotated <- np.dot_mm rot_matrix unprimed_vector ;;
  match rotated with
  | [xprime; yprime] => Ok (xprime, yprime)
  | _ => Raise ValueError
  end.

Definition rotate_list_of_points (xlist ylist : list R) (degrees : R)
  : result (list np.vector * list np.vector) :=
  for_each (combine xlist ylist) ([], [])
    (fun xy '(xprime_list, yprime_list) =>
     '(xprime, yprime) <- rotate_points (fst xy) (snd xy) degrees ;;
     Ok (xprime_list ++ [xprime], yprime_list ++ [yprime])).

Section with_fault_object_helpers.
Context {fvf : fault_vector_functions}
        {slip : Tectonic_Utils.slip_functions}
        {moment : Tectonic_Utils.moment_calculations}.

(** A point is the pair of its two coordinates. [fault_object.W] is an
    attribute lookup, as in [get_fault_center]. *)
Definition get_fault_four_corners
           (fault_object : Faults_object.t) (coords : string)
  : result (list R * list R * list R * list R) :=
  let updip_point0 :=
    (Faults_object.xstart fault_object, Faults_object.ystart fault_object) in
  let updip_point1 :=
    (Faults_object.xfinish fault_object,
     Faults_object.yfinish fault_object) in
  W_ <- Faults_object.getattr fault_object "W" ;;
  W <- as_float W_ ;;
  let vector_mag :=
    W * cos (np.deg2rad (Faults_object.dipangle fault_object)) in
  let downdip_point0 :=
    add_vector_to_point (Faults_object.xstart fault_object)
                        (Faults_object.ystart fault_object) vector_mag
                        (Faults_object.strike fault_object + 90) in
  let downdip_point1 :=
    add_vector_to_point (Faults_object.xfinish fault_object)
                        (Faults_object.yfinish fault_object) vector_mag
                        (Faults_object.strike fault_object + 90) in
  let to_lonlat (p : R * R) :=
    Tectonic_Utils.xy2lonlat_single
      (fst p) (snd p) (Faults_object.zerolon fault_object)
      (Faults_object.zerolat fault_object) in
  let geographic := String.eqb coords "geographic" in
  let updip_point0 :=
    if geographic then to_lonlat updip_point0 else updip_point0 in
  let updip_point1 :=
    if geographic then to_lonlat updip_point1 else updip_point1 in
  let downdip_point0 :=
    if geographic then to_lonlat downdip_point0 else downdip_point0 in
  let downdip_point1 :=
    if geographic then to_lonlat downdip_point1 else downdip_point1 in
  let x_total :=
    [fst updip_point0; fst updip_point1; fst downdip_point1;
     fst downdip_point0; fst updip_point0] in
  let y_total :=
    [snd updip_point0; snd updip_point1; snd downdip_point1;
     snd downdip_point0; snd updip_point0] in
  let x_updip := [fst updip_point0; fst updip_point1] in
  let y_updip := [snd updip_point0; snd updip_point1] in
  Ok (x_total, y_total, x_updip, y_updip).

(** The result is [(None, None)] or a pair of floats. [fault_object.L] and
    [fault_object.W] are attribute lookups. *)
Definition get_fault_slip_moment (fault_object : Faults_object.t) (mu : R)
  : result (option (R * R)) :=
  match Faults_object.potency fault_object with
  | _ :: _ => Ok None
  | [] =>
      L_ <- Faults_object.getattr fault_object "L" ;;
      L <- as_float L_ ;;
      W_ <- Faults_object.getattr fault_object "W" ;;
      W <- as_float W_ ;;
      let area := L * W * 1000 * 1000 in
      let slip :=
        Tectonic_Utils.get_vector_magnitude
          [Faults_object.rtlat fault_object;
           Faults_object.reverse fault_object] in
      let seismic_moment := mu * area * slip in
      let moment_magnitude := Tectonic_Utils.mw_from_moment seismic_moment in
      Ok (Some (seismic_moment, moment_magnitude))
  end.

End with_fault_object_helpers.

End conversion_math.

(** ** run_dc3d.py *)

Module run_dc3d.

(** The truth value of a Python list. *)
Definition truthy {A : Type} (l : list A) : bool :=
  match l with
  | [] => false
  | _ :: _ => true
  end.

(** [strike_split] is an [int]: dividing by it raises
    [ZeroDivisionError] when it is 0. *)
Definition get_split_x_y_arrays
           {f64 : np.arange_float64}
           (start_x_top finish_x_top start_y_top finish_y_top : R)
           (strike_split : Z) : result (np.vector * np.vector) :=
  xsplit_array <-
    (if Req_dec_T start_x_top finish_x_top
     then Ok (map (fun _j => start_x_top) (range (strike_split + 1)))
     else xincrement <- div (finish_x_top - start_x_top) (IZR strike_split) ;;
          Ok (np.arange start_x_top (finish_x_top + xincrement) xincrement)) ;;
  ysplit_array <-
    (if Req_dec_T start_y_top finish_y_top
     then Ok (map (fun _j => start_y_top) (range (strike_split + 1)))
     else yincrement <- div (finish_y_top - start_y_top) (IZR strike_split) ;;
          Ok (np.arange start_y_top (finish_y_top + yincrement) yincrement)) ;;
  Ok (xsplit_array, ysplit_array).

Definition get_split_z_array
           {f64 : np.arange_float64} (top bottom : R) (dip_split : Z)
  : result np.vector :=
  if Req_dec_T top bottom
  then Ok (map (fun _j => top) (range (dip_split + 1)))
  else zincrement <- div (Rabs (top - bottom)) (IZR dip_split) ;;
       Ok (np.arange top (bottom + zincrement) zincrement).

(** The matrices [R] and [R2] that the source evaluator builds from the
    strike of the source. *)
Definition source_rotations (source : Faults_object.t)
  : np.matrix * np.matrix :=
  let theta := Faults_object.strike source - 90 in
  let theta := np.deg2rad theta in
  let R_ := [[cos theta; - sin theta; 0]; [sin theta; cos theta; 0];
             [0; 0; 1]] in
  let R2 := [[cos (- theta); - sin (- theta); 0];
             [sin (- theta); cos (- theta); 0]; [0; 0; 1]] in
  (R_, R2).

Section with_externals.
Context {fvf : fault_vector_functions} {okada : okada_wrapper}
        {f64 : np.arange_float64}.

Definition split_subfault_receivers
           (params : Params.t) (inputs : Input_object.t)
  : result Input_object.t :=
  let strike_split := Params.strike_num_receivers params in
  let dip_split := Params.dip_num_receivers params in
  subfaulted_receivers <-
    (if Z.eqb strike_split 1 && Z.eqb dip_split 1
     then Ok (Input_object.receiver_object inputs)
     else
       for_each (Input_object.receiver_object inputs) []
         (fun fault subfaulted_receivers =>
          zsplit_array <-
            get_split_z_array (Faults_object.top fault)
                              (Faults_object.bottom fault) dip_split ;;
          for_each (range dip_split) subfaulted_receivers
            (fun j subfaulted_receivers =>
             zj <- getitem zsplit_array j ;;
             let W := get_downdip_width (Faults_object.top fault) zj
                                        (Faults_object.dipangle fault) in
             let vector_mag :=
               W * cos (np.deg2rad (Faults_object.dipangle fault)) in
             let '(start_x_top, start_y_top) :=
               add_vector_to_point (Faults_object.xstart fault)
                                   (Faults_object.ystart fault) vector_mag
                                   (Faults_object.strike fault + 90) in
             let '(finish_x_top, finish_y_top) :=
               add_vector_to_point (Faults_object.xfinish fault)
                                   (Faults_object.yfinish fault) vector_mag
                                   (Faults_object.strike fault + 90) in
             '(xsplit_array, ysplit_array) <-
               get_split_x_y_arrays start_x_top finish_x_top start_y_top
                                    finish_y_top strike_split ;;
             for_each (range strike_split) subfaulted_receivers
               (fun k subfaulted_receivers =>
                xk <- getitem xsplit_array k ;;
                xk1 <- getitem xsplit_array (k + 1) ;;
                yk <- getitem ysplit_array k ;;
                yk1 <- getitem ysplit_array (k + 1) ;;
                ztop <- getitem zsplit_array j ;;
                zbottom <- getitem zsplit_array (j + 1) ;;
                let single_subfaulted_receiver :=
                  {| Faults_object.xstart := xk;
                     Faults_object.xfinish := xk1;
                     Faults_object.ystart := yk;
                     Faults_object.yfinish := yk1;
                     Faults_object.Kode := Faults_object.Kode fault;
                     Faults_object.rtlat := 0;
                     Faults_object.reverse := 0;
                     Faults_object.tensile := 0;
                     Faults_object.potency := [];
                     Faults_object.strike := Faults_object.strike fault;
                     Faults_object.dipangle := Faults_object.dipangle fault;
                     Faults_object.zerolon := Input_object.zerolon inputs;
                     Faults_object.zerolat := Input_object.zerolat inputs;
                     Faults_object.rake := Faults_object.rake fault;
                     Faults_object.top := ztop;
                     Faults_object.bottom := zbottom;
                     Faults_object.comment := Faults_object.comment fault |}
                in
                Ok (subfaulted_receivers ++ [single_subfaulted_receiver])))))
    ;;
  Ok {| Input_object.PR1 := Input_object.PR1 inputs;
        Input_object.FRIC := Input_object.FRIC inputs;
        Input_object.depth := Input_object.depth inputs;
        Input_object.start_gridx := Input_object.start_gridx inputs;
        Input_object.finish_gridx := Input_object.finish_gridx inputs;
        Input_object.start_gridy := Input_object.start_gridy inputs;
        Input_object.finish_gridy := Input_object.finish_gridy inputs;
        Input_object.xinc := Input_object.xinc inputs;
        Input_object.yinc := Input_object.yinc inputs;
        Input_object.minlon := Input_object.minlon inputs;
        Input_object.maxlon := Input_object.maxlon inputs;
        Input_object.zerolon := Input_object.zerolon inputs;
        Input_object.minlat := Input_object.minlat inputs;
        Input_object.maxlat := Input_object.maxlat inputs;
        Input_object.zerolat := Input_object.zerolat inputs;
        Input_object.source_object := Input_object.source_object inputs;
        Input_object.receiver_object := subfaulted_receivers |}.

Definition compute_strains_stresses_from_one_fault
           (source : Faults_object.t) (x y z : R) (params : Params.t)
  : result (np.matrix * np.matrix) :=
  let L := get_strike_length (Faults_object.xstart source)
                             (Faults_object.xfinish source)
                             (Faults_object.ystart source)
                             (Faults_object.yfinish source) in
  let W := get_downdip_width (Faults_object.top source)
                             (Faults_object.bottom source)
                             (Faults_object.dipangle source) in
  let depth := Faults_object.top source in
  let dip := Faults_object.dipangle source in
  let strike_slip := Faults_object.rtlat source * -1 in
  let dip_slip := Faults_object.reverse source in
  let '(R_, R2) := source_rotations source in
  let translated_pos :=
    [[x - Faults_object.xstart source];
     [y - Faults_object.ystart source]; [- z]] in
  xyz <- np.dot_mm R_ translated_pos ;;
  xyz0 <- getitem xyz 0 ;;
  xyz1 <- getitem xyz 1 ;;
  xyz2 <- getitem xyz 2 ;;
  '(u, grad_u) <-
    (if truthy (Faults_object.potency source)
     then
       p0 <- getitem (Faults_object.potency source) 0 ;;
       p1 <- getitem (Faults_object.potency source) 1 ;;
       p2 <- getitem (Faults_object.potency source) 2 ;;
       p3 <- getitem (Faults_object.potency source) 3 ;;
       let '(success, u, grad_u) :=
         dc3d0wrapper (Params.alpha params) [xyz0; xyz1; xyz2] depth dip
                      [p0; p1; p2; p3] in
       let grad_u := np.scale (array33 grad_u) 1e-9 in
       let u := map (fun c => c * 1e-6) (array3 u) in
       Ok (u, grad_u)
     else
       let '(success, u, grad_u) :=
         dc3dwrapper (Params.alpha params) [xyz0; xyz1; xyz2] depth dip
                     [0; L] [- W; 0]
                     [strike_slip; dip_slip; Faults_object.tensile source] in
       let grad_u := np.scale (array33 grad_u) 1e-3 in
       Ok (array3 u, grad_u)) ;;
  rotated <- np.dot_mm grad_u (np.T R2) ;;
  desired_coords_grad_u <- np.dot_mm R2 rotated ;;
  u0 <- getitem u 0 ;;
  u1 <- getitem u 1 ;;
  u2 <- getitem u 2 ;;
  desired_coords_u <- np.dot_mm R2 [[u0]; [u1]; [u2]] ;;
  Ok (desired_coords_grad_u, desired_coords_u).

Definition compute_surface_disp_point
           (params : Params.t) (inputs : Input_object.t) (x y : R)
  : result (accumulator * accumulator * accumulator * np.matrix) :=
  let computation_depth := 0 in
  for_each (Input_object.source_object inputs)
    (Scalar 0, Scalar 0, Scalar 0, np.zeros (3%nat, 3%nat))
    (fun fault '(u_disp, v_disp, w_disp, strain_tensor_total) =>
     '(desired_coords_grad_u, desired_coords_u) <-
       compute_strains_stresses_from_one_fault fault x y computation_depth
                                               params ;;
     strain_tensor <- conversion_math.get_strain_tensor desired_coords_grad_u ;;
     strain_tensor_total <- np.add strain_tensor strain_tensor_total ;;
     du0 <- getitem desired_coords_u 0 ;;
     u_disp <- accumulator_add u_disp du0 ;;
     du1 <- getitem desired_coords_u 1 ;;
     v_disp <- accumulator_add v_disp du1 ;;
     du2 <- getitem desired_coords_u 2 ;;
     w_disp <- accumulator_add w_disp du2 ;;
     Ok (u_disp, v_disp, w_disp, strain_tensor_total)).

Definition compute_ll_strain
           (params : Params.t) (inputs : Input_object.t)
           (strain_points : strain_points_arg)
  : result (option (list np.matrix)) :=
  match strain_points with
  | NoStrainPoints => Ok None
  | StrainPoints lon lat =>
      '(x, y) <-
        for_each (range (Z.of_nat (length lon))) ([], [])
          (fun i '(x, y) =>
           loni <- getitem lon i ;;
           lati <- getitem lat i ;;
           let '(xi, yi) :=
             latlon2xy loni lati (Input_object.zerolon inputs)
                       (Input_object.zerolat inputs) in
           Ok (x ++ [xi], y ++ [yi])) ;;
      strain_tensor_results <-
        for_each (range (Z.of_nat (length x))) []
          (fun k strain_tensor_results =>
           xk <- getitem x k ;;
           yk <- getitem y k ;;
           '(_, _, _, strain_tensor) <-
             compute_surface_disp_point params inputs xk yk ;;
           Ok (strain_tensor_results ++ [strain_tensor])) ;;
      Ok (Some strain_tensor_results)
  end.

Definition compute_ll_def
           (params : Params.t) (inputs : Input_object.t)
           (disp_points : list Disp_Points.t)
  : result (list Disp_Points.t) :=
  for_each disp_points []
    (fun point model_disp_points =>
     let '(xi, yi) :=
       latlon2xy (Disp_Points.lon point) (Disp_Points.lat point)
                 (Input_object.zerolon inputs)
                 (Input_object.zerolat inputs) in
     '(u_disp, v_disp, w_disp, _) <-
       compute_surface_disp_point params inputs xi yi ;;
     dE <- accumulator_item0 u_disp ;;
     dN <- accumulator_item0 v_disp ;;
     dU <- accumulator_item0 w_disp ;;
     let model_point :=
       {| Disp_Points.lon := Disp_Points.lon point;
          Disp_Points.lat := Disp_Points.lat point;
          Disp_Points.dE_obs := Float dE;
          Disp_Points.dN_obs := Float dN;
          Disp_Points.dU_obs := Float dU;
          Disp_Points.Se_obs := Tuple0;
          Disp_Points.Sn_obs := Tuple0;
          Disp_Points.Su_obs := Tuple0;
          Disp_Points.name := Tuple0 |} in
     Ok (model_disp_points ++ [model_point])).

(** The inner loop of [compute_strains_stresses]: the sums over the
    sources for one receiver, once its centre is known. *)
Definition receiver_sums
           (params : Params.t) (inputs : Input_object.t)
           (receiver : Faults_object.t) (centercoords : np.vector)
  : result (R * R * R) :=
  for_each (Input_object.source_object inputs) (0, 0, 0)
    (fun source '(normal_sum, shear_sum, coulomb_sum) =>
     c0 <- getitem centercoords 0 ;;
     c1 <- getitem centercoords 1 ;;
     c2 <- getitem centercoords 2 ;;
     '(desired_coords_grad_u, _) <-
       compute_strains_stresses_from_one_fault source c0 c1 c2 params ;;
     strain_tensor <- conversion_math.get_strain_tensor desired_coords_grad_u ;;
     stress_tensor <-
       conversion_math.get_stress_tensor strain_tensor (Params.lame1 params)
                                         (Params.mu params) ;;
     '(normal, shear, coulomb) <-
       conversion_math.get_coulomb_stresses
         stress_tensor (Faults_object.strike receiver)
         (Faults_object.rake receiver) (Faults_object.dipangle receiver)
         (Input_object.FRIC inputs) (Params.B params) ;;
     Ok (normal_sum + normal, shear_sum + shear, coulomb_sum + coulomb)).

Definition compute_strains_stresses
           (params : Params.t) (inputs : Input_object.t)
  : result (list R * list R * list R) :=
  if negb (truthy (Input_object.receiver_object inputs))
  then Ok ([], [], [])
  else
    for_each (Input_object.receiver_object inputs) ([], [], [])
      (fun receiver '(receiver_normal, receiver_shear, receiver_coulomb) =>
       centercoords <- conversion_math.get_fault_center receiver ;;
       '(normal_sum, shear_sum, coulomb_sum) <-
         receiver_sums params inputs receiver centercoords ;;
       Ok (receiver_normal ++ [normal_sum],
           receiver_shear ++ [shear_sum],
           receiver_coulomb ++ [coulomb_sum])).

Definition compute_grid_def (params : Params.t) (inputs : Input_object.t)
  : pyx.result (np.vector * np.vector * np.matrix * np.matrix
                * np.matrix * np.matrix * np.matrix) :=
  qx <~ pyx.div (Input_object.finish_gridx inputs
                 - Input_object.start_gridx inputs)
                (Input_object.xinc inputs) ;;
  x <~ pyx.lift (np.linspace (Input_object.start_gridx inputs)
                             (Input_object.finish_gridx inputs)
                             (int_of_float qx)) ;;
  qy <~ pyx.div (Input_object.finish_gridy inputs
                 - Input_object.start_gridy inputs)
                (Input_object.yinc inputs) ;;
  y <~ pyx.lift (np.linspace (Input_object.start_gridy inputs)
                             (Input_object.finish_gridy inputs)
                             (int_of_float qy)) ;;
  let '(x2d, y2d) := np.meshgrid x y in
  let u_displacements := np.zeros (length y, length x) in
  let v_displacements := np.zeros (length y, length x) in
  let w_displacements := np.zeros (length y, length x) in
  let numrows := fst (np.shape u_displacements) in
  let numcols := snd (np.shape u_displacements) in
  '(u_displacements, v_displacements, w_displacements) <~
    pyx.lift
      (for_each (seq 0 numrows)
         (u_displacements, v_displacements, w_displacements)
         (fun ky displacements =>
          for_each (seq 0 numcols) displacements
            (fun kx '(u_displacements, v_displacements, w_displacements) =>
             xk <- np.getitem2 x2d ky kx ;;
             yk <- np.getitem2 y2d ky kx ;;
             '(u_disp, v_disp, w_disp, _) <-
               compute_surface_disp_point params inputs xk yk ;;
             u <- accumulator_scalar u_disp ;;
             u_displacements <- np.setitem2 u_displacements ky kx u ;;
             v <- accumulator_scalar v_disp ;;
             v_displacements <- np.setitem2 v_displacements ky kx v ;;
             w <- accumulator_scalar w_disp ;;
             w_displacements <- np.setitem2 w_displacements ky kx w ;;
             Ok (u_displacements, v_displacements, w_displacements)))) ;;
  pyx.Ok (x, y, x2d, y2d, u_displacements, v_displacements, w_displacements).

Definition do_stress_computation
           (params : Params.t) (inputs : Input_object.t)
           (disp_points : list Disp_Points.t)
           (strain_points : strain_points_arg)
  : pyx.result Out_object.t :=
  subfaulted_inputs <~ pyx.lift (split_subfault_receivers params inputs) ;;
  '(x, y, x2d, y2d, u_displacements, v_displacements, w_displacements) <~
    compute_grid_def params subfaulted_inputs ;;
  model_disp_points <~
    pyx.lift (compute_ll_def params subfaulted_inputs disp_points) ;;
  strain_tensor_results <~
    pyx.lift (compute_ll_strain params subfaulted_inputs strain_points) ;;
  '(receiver_normal, receiver_shear, receiver_coulomb) <~
    pyx.lift (compute_strains_stresses params subfaulted_inputs) ;;
  pyx.Ok
    {| Out_object.x := x; Out_object.y := y;
       Out_object.x2d := x2d; Out_object.y2d := y2d;
       Out_object.u_disp := u_displacements;
       Out_object.v_disp := v_displacements;
       Out_object.w_disp := w_displacements;
       Out_object.strains := strain_tensor_results;
       Out_object.model_disp_points := model_disp_points;
       Out_object.zerolon := Input_object.zerolon inputs;
       Out_object.zerolat := Input_object.zerolat inputs;
       Out_object.source_object := Input_object.source_object inputs;
       Out_object.receiver_object :=
         Input_object.receiver_object subfaulted_inputs;
       Out_object.receiver_normal := receiver_normal;
       Out_object.receiver_shear := receiver_shear;
       Out_object.receiver_coulomb := receiver_coulomb |}.

End with_externals.

End run_dc3d.

(** ** fault_slip_object/fault_slip_object.py

    A [FaultDict] is a [TypedDict]: a dictionary with exactly the declared
    keys, the floats of a rectangular patch and the integer [segment]. It
    is the record of its fields. The writers of GMT files are not
    embedded. *)

Module fault_slip_object.

Module FaultDict.
Record t : Type := mk {
  strike : R;
  dip : R;
  length : R;
  width : R;
  lon : R;
  lat : R;
  depth : R;
  rake : R;
  slip : R;
  tensile : R;
  segment : Z }.
End FaultDict.

(** [io_pycoulomb.fault_dict_to_coulomb_fault]: the conversion of fault
    dictionaries to PyCoulomb patches, with the optional origin of the
    coordinate system; it is not among the source files. *)
Class io_pycoulomb : Type := {
  fault_dict_to_coulomb_fault :
    list FaultDict.t -> option R -> option R
    -> pyx.result (list Faults_object.t) }.

Definition get_total_slip (one_fault_dict : FaultDict.t) : R :=
  FaultDict.slip one_fault_dict.

Definition get_total_slip_mm (one_fault_dict : FaultDict.t) : R :=
  FaultDict.slip one_fault_dict * 1000.

Definition get_fault_depth (one_fault_dict : FaultDict.t) : R :=
  FaultDict.depth one_fault_dict.

Definition get_fault_rake (one_fault_dict : FaultDict.t) : R :=
  FaultDict.rake one_fault_dict.

Definition get_blank_fault (_one_fault_dict : FaultDict.t) : string :=
  EmptyString.

Definition change_fault_slip
           (fault_dict_list : list FaultDict.t)
           (new_slip new_rake : option R) : list FaultDict.t :=
  map (fun item =>
         let desired_slip :=
           match new_slip with
           | None => FaultDict.slip item
           | Some s => s
           end in
         let desired_rake :=
           match new_rake with
           | None => FaultDict.rake item
           | Some r => r
           end in
         {| FaultDict.strike := FaultDict.strike item;
            FaultDict.dip := FaultDict.dip item;
            FaultDict.length := FaultDict.length item;
            FaultDict.width := FaultDict.width item;
            FaultDict.lon := FaultDict.lon item;
            FaultDict.lat := FaultDict.lat item;
            FaultDict.depth := FaultDict.depth item;
            FaultDict.tensile := FaultDict.tensile item;
            FaultDict.slip := desired_slip;
            FaultDict.rake := desired_rake;
            FaultDict.segment := FaultDict.segment item |})
      fault_dict_list.

(** [upper_depth <= item['depth'] <= lower_depth] *)
Definition filter_by_depth
           (fault_dict_list : list FaultDict.t) (upper_depth lower_depth : R)
  : list FaultDict.t :=
  filter (fun item =>
            if Rle_dec upper_depth (FaultDict.depth item)
            then if Rle_dec (FaultDict.depth item) lower_depth
                 then true else false
            else false)
         fault_dict_list.

(** [len(set(segments))] and [len(segments)] *)
Definition get_how_many_segments (fault_dict_list : list FaultDict.t)
  : nat * nat :=
  let segments := map FaultDict.segment fault_dict_list in
  let num_segments := List.length (nodup Z.eq_dec segments) in
  let num_patches := List.length segments in
  (num_segments, num_patches).

Definition filter_by_segment
           (fault_dict_list : list FaultDict.t) (segment_num : Z)
  : list FaultDict.t :=
  filter (fun item => Z.eqb (FaultDict.segment item) segment_num)
         fault_dict_list.

Section with_externals.
Context {fvf : fault_vector_functions}
        {slip : Tectonic_Utils.slip_functions}
        {moment : Tectonic_Utils.moment_calculations}
        {io : io_pycoulomb}.

Definition get_rtlat_slip (one_fault_dict : FaultDict.t) : R :=
  fst (Tectonic_Utils.get_rtlat_dip_slip (FaultDict.slip one_fault_dict)
                                         (FaultDict.rake one_fault_dict)).

Definition get_dip_slip (one_fault_dict : FaultDict.t) : R :=
  snd (Tectonic_Utils.get_rtlat_dip_slip (FaultDict.slip one_fault_dict)
                                         (FaultDict.rake one_fault_dict)).

(** [[source] = fault_dict_to_coulomb_fault(...)]: the list must hold one
    patch. *)
Definition unpack_one (sources : list Faults_object.t)
  : pyx.result Faults_object.t :=
  match sources with
  | [source] => pyx.Ok source
  | _ => pyx.Raise (pyx.Builtin ValueError)
  end.

Definition get_four_corners_lon_lat (fault_dict_object : FaultDict.t)
  : pyx.result (list R * list R) :=
  sources <~ fault_dict_to_coulomb_fault [fault_dict_object] None None ;;
  source <~ unpack_one sources ;;
  '(x_total, y_total, _, _) <~
    pyx.lift (conversion_math.get_fault_four_corners source "cartesian") ;;
  pyx.Ok (Tectonic_Utils.xy2lonlat x_total y_total
            (Faults_object.zerolon source) (Faults_object.zerolat source)).

Definition get_updip_corners_lon_lat (fault_dict_object : FaultDict.t)
  : pyx.result (list R * list R) :=
  sources <~ fault_dict_to_coulomb_fault [fault_dict_object] None None ;;
  source <~ unpack_one sources ;;
  '(_, _, x_updip, y_updip) <~
    pyx.lift (conversion_math.get_fault_four_corners source "cartesian") ;;
  pyx.Ok (Tectonic_Utils.xy2lonlat x_updip y_updip
            (Faults_object.zerolon source) (Faults_object.zerolat source)).

(** [mu] defaults to [30e9]. *)
Definition get_total_moment
           (fault_dict_object_list : list FaultDict.t) (mu : R) : R :=
  fold_left
    (fun total_moment item =>
       let A := FaultDict.width item * 1000 * FaultDict.length item * 1000 in
       let d := FaultDict.slip item in
       total_moment + Tectonic_Utils.moment_from_muad mu A d)
    fault_dict_object_list 0.

Definition get_total_moment_depth_dependent
           (fault_dict_object_list : list FaultDict.t)
           (depths mus : np.vector) : result R :=
  for_each fault_dict_object_list 0
    (fun item total_moment =>
     let depth := FaultDict.depth item in
     idx <- np.argmin (map (fun v => Rabs (v - depth)) depths) ;;
     G <- getitem mus idx ;;
     let A := FaultDict.width item * 1000 * FaultDict.length item * 1000 in
     let d := FaultDict.slip item in
     Ok (total_moment + Tectonic_Utils.moment_from_muad G A d)).

Definition add_two_fault_dict_lists (list1 list2 : list FaultDict.t)
  : pyx.result (list FaultDict.t) :=
  if negb (Nat.eqb (List.length list1) (List.length list2))
  then pyx.Raise
         (pyx.Exception "Error! Two fault_dict lists are not identical")
  else
    pyx.Ok
      (map (fun items =>
              let item1 := fst items in
              let item2 := snd items in
              let '(ss_1, ds_1) :=
                Tectonic_Utils.get_rtlat_dip_slip (FaultDict.slip item1)
                                                  (FaultDict.rake item1) in
              let '(ss_2, ds_2) :=
                Tectonic_Utils.get_rtlat_dip_slip (FaultDict.slip item2)
                                                  (FaultDict.rake item2) in
              let ss_total := ss_1 + ss_2 in
              let ds_total := ds_1 + ds_2 in
              let slip_total :=
                Tectonic_Utils.get_total_slip ss_total ds_total in
              let rake_total := Tectonic_Utils.get_rake ss_total ds_total in
              {| FaultDict.strike := FaultDict.strike item1;
                 FaultDict.dip := FaultDict.dip item1;
                 FaultDict.length := FaultDict.length item1;
                 FaultDict.width := FaultDict.width item1;
                 FaultDict.lon := FaultDict.lon item1;
                 FaultDict.lat := FaultDict.lat item1;
                 FaultDict.depth := FaultDict.depth item1;
                 FaultDict.tensile :=
                   FaultDict.tensile item1 + FaultDict.tensile item2;
                 FaultDict.slip := slip_total;
                 FaultDict.rake := rake_total;
                 FaultDict.segment := FaultDict.segment item1 |})
           (combine list1 list2)).

End with_externals.

End fault_slip_object.

(** ** Statement vocabulary *)

(** An array of [r] rows of [c] entries each. *)
Definition shaped (r c : nat) (M : np.matrix) : Prop :=
  length M = r /\ Forall (fun row => length row = c) M.

(** The entry [M[i][j]] of an array that has one. *)
Definition item (M : np.matrix) (i j : nat) : R := nth j (nth i M []) 0.

(** The rotation by the angle [theta] (radians) about the vertical axis. *)
Definition rotation_z (theta : R) : np.matrix :=
  [[cos theta; - sin theta; 0]; [sin theta; cos theta; 0]; [0; 0; 1]].

Definition identity3 : np.matrix := [[1; 0; 0]; [0; 1; 0]; [0; 0; 1]].

(** The scalar product of two 3-vectors and the product of a 3x3 array
    with a 3-vector, written out. *)
Definition dot3 (a b : vec3) : R :=
  let '(a0, a1, a2) := a in
  let '(b0, b1, b2) := b in
  a0 * b0 + a1 * b1 + a2 * b2.

Definition mat_vec3 (M : np.matrix) (v : vec3) : vec3 :=
  let '(v0, v1, v2) := v in
  (item M 0 0 * v0 + item M 0 1 * v1 + item M 0 2 * v2,
   item M 1 0 * v0 + item M 1 1 * v1 + item M 1 2 * v2,
   item M 2 0 * v0 + item M 2 1 * v1 + item M 2 2 * v2).

(** The rotation of a 2-vector by an angle in radians. *)
Definition rotate2 (angle : R) (v : R * R) : R * R :=
  (cos angle * fst v - sin angle * snd v,
   sin angle * fst v + cos angle * snd v).

(** The matrix product, for operands whose shapes agree. *)
Definition mmul (A B : np.matrix) : np.matrix :=
  map (fun row =>
         map (fun col => fold_left (fun acc p => acc + fst p * snd p)
                                   (combine row col) 0)
             (np.T B)) A.

(** ** The source evaluator in the words of the specification

    The source evaluator of section 4.4: translate the point relative to
    the start corner of the patch and rotate it by [R]; dispatch on the
    potency; scale; rotate the gradient back as [R2 . grad_u . R2^T] and the
    displacement as [R2 . u]. These definitions are compared with the code
    below. *)

Module spec.
Section with_externals.
Context {fvf : fault_vector_functions} {okada : okada_wrapper}.

Definition fault_frame_position (source : Faults_object.t) (x y z : R)
  : list np.vector :=
  mmul (rotation_z (np.deg2rad (Faults_object.strike source - 90)))
       [[x - Faults_object.xstart source];
        [y - Faults_object.ystart source]; [- z]].

Definition rotate_back (source : Faults_object.t)
           (u : np.vector) (grad_u : np.matrix) : np.matrix * np.matrix :=
  let R2 := rotation_z (- np.deg2rad (Faults_object.strike source - 90)) in
  (mmul R2 (mmul grad_u (np.T R2)), mmul R2 (map (fun c => [c]) u)).

Definition source_evaluator
           (source : Faults_object.t) (x y z : R) (params : Params.t)
  : np.matrix * np.matrix :=
  let position := fault_frame_position source x y z in
  let depth := Faults_object.top source in
  let dip := Faults_object.dipangle source in
  match Faults_object.potency source with
  | _ :: _ =>
      let '(_, u, grad_u) :=
        dc3d0wrapper (Params.alpha params) position depth dip
                     (firstn 4 (Faults_object.potency source)) in
      rotate_back source (map (fun c => c * 1e-6) (array3 u))
                  (np.scale (array33 grad_u) 1e-9)
  | [] =>
      let L := get_strike_length (Faults_object.xstart source)
                 (Faults_object.xfinish source) (Faults_object.ystart source)
                 (Faults_object.yfinish source) in
      let W := get_downdip_width (Faults_object.top source)
                 (Faults_object.bottom source)
                 (Faults_object.dipangle source) in
      let '(_, u, grad_u) :=
        dc3dwrapper (Params.alpha params) position depth dip
                    [0; L] [- W; 0]
                    [- Faults_object.rtlat source;
                     Faults_object.reverse source;
                     Faults_object.tensile source] in
      rotate_back source (array3 u) (np.scale (array33 grad_u) 1e-3)
  end.

(** Receiver-Coulomb mode of section 4.6 for one receiver whose centre is
    [centercoords]: the stress tensors of all sources are summed first, and
    the sum is resolved once. *)
Definition summed_stress
           (params : Params.t) (inputs : Input_object.t)
           (centercoords : np.vector) : result np.matrix :=
  for_each (Input_object.source_object inputs) (np.zeros (3%nat, 3%nat))
    (fun source total =>
     c0 <- getitem centercoords 0 ;;
     c1 <- getitem centercoords 1 ;;
     c2 <- getitem centercoords 2 ;;
     '(desired_coords_grad_u, _) <-
       run_dc3d.compute_strains_stresses_from_one_fault source c0 c1 c2
                                                        params ;;
     strain_tensor <- conversion_math.get_strain_tensor desired_coords_grad_u ;;
     stress_tensor <-
       conversion_math.get_stress_tensor strain_tensor (Params.lame1 params)
                                         (Params.mu params) ;;
     np.add stress_tensor total).

Definition resolve_once
           (params : Params.t) (inputs : Input_object.t)
           (receiver : Faults_object.t) (centercoords : np.vector)
  : result (R * R * R) :=
  tau <- summed_stress params inputs centercoords ;;
  conversion_math.get_coulomb_stresses
    tau (Faults_object.strike receiver) (Faults_object.rake receiver)
    (Faults_object.dipangle receiver) (Input_object.FRIC inputs)
    (Params.B params).

End with_externals.
End spec.

(** The potency of a patch is empty (a finite source) or holds the four
    components the point-source solver is given. *)
Definition potency_ok (source : Faults_object.t) : Prop :=
  (length (Faults_object.potency source) = 0
   \/ 4 <= length (Faults_object.potency source))%nat.

(** An accumulator that holds a one-element array, and what a
    displacement accumulator can be inside the loop over the sources. *)
Definition single (a : accumulator) : Prop := exists x, a = Array1 [x].

Definition acc_ok (a : accumulator) : Prop :=
  (exists r, a = Scalar r) \/ single a.

Definition state_ok (s : accumulator * accumulator * accumulator * np.matrix)
  : Prop :=
  let '(u, v, w, st) := s in acc_ok u /\ acc_ok v /\ acc_ok w /\ shaped 3 3 st.

Definition state_single
           (s : accumulator * accumulator * accumulator * np.matrix) : Prop :=
  let '(u, v, w, st) := s in single u /\ single v /\ single w.

(** A patch cut from the receiver [fault]: its orientation, code and
    comment are the parent's and it carries no slip. *)
Definition subpatch_of (fault patch : Faults_object.t) : Prop :=
  Faults_object.strike patch = Faults_object.strike fault
  /\ Faults_object.dipangle patch = Faults_object.dipangle fault
  /\ Faults_object.rake patch = Faults_object.rake fault
  /\ Faults_object.Kode patch = Faults_object.Kode fault
  /\ Faults_object.comment patch = Faults_object.comment fault
  /\ Faults_object.rtlat patch = 0
  /\ Faults_object.reverse patch = 0
  /\ Faults_object.tensile patch = 0
  /\ Faults_object.potency patch = [].

(** The two arrays along strike that the splitter builds for the row of
    patches of [fault] whose top edge is at depth [z]. *)
Definition row_arrays {fvf : fault_vector_functions}
           {f64 : np.arange_float64}
           (strike_split : Z) (fault : Faults_object.t) (z : R)
  : result (np.vector * np.vector) :=
  let W := get_downdip_width (Faults_object.top fault) z
                             (Faults_object.dipangle fault) in
  let vector_mag := W * cos (np.deg2rad (Faults_object.dipangle fault)) in
  let '(start_x_top, start_y_top) :=
    add_vector_to_point (Faults_object.xstart fault)
                        (Faults_object.ystart fault) vector_mag
                        (Faults_object.strike fault + 90) in
  let '(finish_x_top, finish_y_top) :=
    add_vector_to_point (Faults_object.xfinish fault)
                        (Faults_object.yfinish fault) vector_mag
                        (Faults_object.strike fault + 90) in
  run_dc3d.get_split_x_y_arrays start_x_top finish_x_top start_y_top
                                finish_y_top strike_split.

(** The body of the loop of the splitter over the receivers: the patches
    of [fault] are appended to [subfaulted_receivers]. *)
Definition split_receiver {fvf : fault_vector_functions}
           {f64 : np.arange_float64}
           (params : Params.t) (inputs : Input_object.t)
           (fault : Faults_object.t)
           (subfaulted_receivers : list Faults_object.t)
  : result (list Faults_object.t) :=
  let strike_split := Params.strike_num_receivers params in
  let dip_split := Params.dip_num_receivers params in
  zsplit_array <-
    run_dc3d.get_split_z_array (Faults_object.top fault)
                               (Faults_object.bottom fault) dip_split ;;
  for_each (range dip_split) subfaulted_receivers
    (fun j subfaulted_receivers =>
     zj <- getitem zsplit_array j ;;
     let W := get_downdip_width (Faults_object.top fault) zj
                                (Faults_object.dipangle fault) in
     let vector_mag :=
       W * cos (np.deg2rad (Faults_object.dipangle fault)) in
     let '(start_x_top, start_y_top) :=
       add_vector_to_point (Faults_object.xstart fault)
                           (Faults_object.ystart fault) vector_mag
                           (Faults_object.strike fault + 90) in
     let '(finish_x_top, finish_y_top) :=
       add_vector_to_point (Faults_object.xfinish fault)
                           (Faults_object.yfinish fault) vector_mag
                           (Faults_object.strike fault + 90) in
     '(xsplit_array, ysplit_array) <-
       run_dc3d.get_split_x_y_arrays start_x_top finish_x_top start_y_top
                                     finish_y_top strike_split ;;
     for_each (range strike_split) subfaulted_receivers
       (fun k subfaulted_receivers =>
        xk <- getitem xsplit_array k ;;
        xk1 <- getitem xsplit_array (k + 1) ;;
        yk <- getitem ysplit_array k ;;
        yk1 <- getitem ysplit_array (k + 1) ;;
        ztop <- getitem zsplit_array j ;;
        zbottom <- getitem zsplit_array (j + 1) ;;
        let single_subfaulted_receiver :=
          {| Faults_object.xstart := xk;
             Faults_object.xfinish := xk1;
             Faults_object.ystart := yk;
             Faults_object.yfinish := yk1;
             Faults_object.Kode := Faults_object.Kode fault;
             Faults_object.rtlat := 0;
             Faults_object.reverse := 0;
             Faults_object.tensile := 0;
             Faults_object.potency := [];
             Faults_object.strike := Faults_object.strike fault;
             Faults_object.dipangle := Faults_object.dipangle fault;
             Faults_object.zerolon := Input_object.zerolon inputs;
             Faults_object.zerolat := Input_object.zerolat inputs;
             Faults_object.rake := Faults_object.rake fault;
             Faults_object.top := ztop;
             Faults_object.bottom := zbottom;
             Faults_object.comment := Faults_object.comment fault |}
        in
        Ok (subfaulted_receivers ++ [single_subfaulted_receiver]))).

(** The arrays that the splitter builds for [fault] hold the entries its
    loops read: the array of depths has more than [dip_split] entries, and
    the two arrays along strike of each of the [dip_split] rows have more
    than [strike_split] entries. *)
Definition enough_entries {fvf : fault_vector_functions}
           {f64 : np.arange_float64}
           (params : Params.t) (fault : Faults_object.t) : Prop :=
  let strike_split := Params.strike_num_receivers params in
  let dip_split := Params.dip_num_receivers params in
  exists zsplit_array,
    run_dc3d.get_split_z_array (Faults_object.top fault)
                               (Faults_object.bottom fault) dip_split
    = Ok zsplit_array
    /\ (Z.to_nat dip_split < length zsplit_array)%nat
    /\ forall j, (j < Z.to_nat dip_split)%nat ->
         exists xsplit_array ysplit_array,
           row_arrays strike_split fault (nth j zsplit_array 0)
           = Ok (xsplit_array, ysplit_array)
           /\ (Z.to_nat strike_split < length xsplit_array)%nat
           /\ (Z.to_nat strike_split < length ysplit_array)%nat.

(** [inputs] with another receiver list. *)
Definition with_receivers (inputs : Input_object.t)
           (receivers : list Faults_object.t) : Input_object.t :=
  {| Input_object.PR1 := Input_object.PR1 inputs;
     Input_object.FRIC := Input_object.FRIC inputs;
     Input_object.depth := Input_object.depth inputs;
     Input_object.start_gridx := Input_object.start_gridx inputs;
     Input_object.finish_gridx := Input_object.finish_gridx inputs;
     Input_object.start_gridy := Input_object.start_gridy inputs;
     Input_object.finish_gridy := Input_object.finish_gridy inputs;
     Input_object.xinc := Input_object.xinc inputs;
     Input_object.yinc := Input_object.yinc inputs;
     Input_object.minlon := Input_object.minlon inputs;
     Input_object.maxlon := Input_object.maxlon inputs;
     Input_object.zerolon := Input_object.zerolon inputs;
     Input_object.minlat := Input_object.minlat inputs;
     Input_object.maxlat := Input_object.maxlat inputs;
     Input_object.zerolat := Input_object.zerolat inputs;
     Input_object.source_object := Input_object.source_object inputs;
     Input_object.receiver_object := receivers |}.

(** ** Concrete inputs and implementations, for the examples *)

(** The count of [np.arange] when no rounding occurs. *)
Definition exact_length (start stop step : R) : nat :=
  Z.to_nat (np.ceil ((stop - start) / step)).

Lemma exact_length_close (start stop step : R) :
  step <> 0 ->
  (Z.max 0 (np.ceil ((stop - start) / step)) - 1
   <= Z.of_nat (exact_length start stop step)
   <= Z.max 0 (np.ceil ((stop - start) / step)) + 1)%Z.
Proof. intros _. unfold exact_length. lia. Qed.

Module example.

(** [np.arange] on inputs for which float64 computes the exact count. *)
Definition exact_arange : np.arange_float64 := {|
  np.arange_length := exact_length;
  np.arange_length_close := exact_length_close |}.

(** A flat-Earth implementation of the geometry package. *)
Definition geometry : fault_vector_functions := {|
  get_strike_length := fun xstart xfinish ystart yfinish =>
    sqrt ((xfinish - xstart) * (xfinish - xstart)
          + (yfinish - ystart) * (yfinish - ystart));
  get_downdip_width := fun top bottom dip =>
    Rabs (top - bottom) / sin (np.deg2rad dip);
  add_vector_to_point := fun x0 y0 mag heading =>
    (x0 + mag * cos (np.deg2rad (90 - heading)),
     y0 + mag * sin (np.deg2rad (90 - heading)));
  latlon2xy := fun lon lat lon0 lat0 =>
    ((lon - lon0) * 111 * cos (np.deg2rad lat0), (lat - lat0) * 111);
  get_strike_vector := fun strike =>
    (cos (np.deg2rad (90 - strike)), sin (np.deg2rad (90 - strike)), 0);
  get_dip_vector := fun strike dip =>
    (cos (np.deg2rad dip) * cos (np.deg2rad (- strike)),
     cos (np.deg2rad dip) * sin (np.deg2rad (- strike)),
     sin (np.deg2rad dip));
  get_plane_normal := fun strike dip =>
    (sin (np.deg2rad dip) * cos (np.deg2rad (- strike)),
     sin (np.deg2rad dip) * sin (np.deg2rad (- strike)),
     - cos (np.deg2rad dip)) |}.

(** A solver that moves every point by the slip (or by the first three
    components of the potency) and strains nothing. *)
Definition solver : okada_wrapper := {|
  dc3dwrapper := fun _ _ _ _ _ _ slip =>
    (0%Z, (nth 0 slip 0, nth 1 slip 0, nth 2 slip 0),
     ((0, 0, 0), (0, 0, 0), (0, 0, 0)));
  dc3d0wrapper := fun _ _ _ _ potency =>
    (0%Z, (nth 0 potency 0, nth 1 potency 0, nth 2 potency 0),
     ((0, 0, 0), (0, 0, 0), (0, 0, 0))) |}.

Definition params : Params.t := {|
  Params.config_file := "config.txt";
  Params.input_file := "input.inp";
  Params.aftershocks := "aftershocks.txt";
  Params.disp_points_file := "disp_points.txt";
  Params.strain_file := "strain_points.txt";
  Params.strike_num_receivers := 2;
  Params.dip_num_receivers := 3;
  Params.fixed_rake := Tuple0;
  Params.mu := 30e9;
  Params.lame1 := 30e9;
  Params.B := 0;
  Params.alpha := 2 / 3;
  Params.outdir := "out/" |}.

(** A vertical right-lateral source striking north, 10 km long. *)
Definition source : Faults_object.t := {|
  Faults_object.xstart := 0; Faults_object.xfinish := 0;
  Faults_object.ystart := 0; Faults_object.yfinish := 10;
  Faults_object.Kode := 100;
  Faults_object.zerolon := -115; Faults_object.zerolat := 33;
  Faults_object.rtlat := 1; Faults_object.reverse := 0;
  Faults_object.tensile := 0; Faults_object.potency := [];
  Faults_object.strike := 0; Faults_object.dipangle := 90;
  Faults_object.rake := 180;
  Faults_object.top := 0; Faults_object.bottom := 10;
  Faults_object.comment := "source" |}.

(** A point source. *)
Definition point_source : Faults_object.t := {|
  Faults_object.xstart := 1; Faults_object.xfinish := 1;
  Faults_object.ystart := 2; Faults_object.yfinish := 2;
  Faults_object.Kode := 100;
  Faults_object.zerolon := -115; Faults_object.zerolat := 33;
  Faults_object.rtlat := 0; Faults_object.reverse := 0;
  Faults_object.tensile := 0; Faults_object.potency := [1; 0; 0; 0];
  Faults_object.strike := 0; Faults_object.dipangle := 90;
  Faults_object.rake := 0;
  Faults_object.top := 5; Faults_object.bottom := 5;
  Faults_object.comment := "point" |}.

(** A receiver east of the source, between 2 km and 8 km depth. *)
Definition receiver : Faults_object.t := {|
  Faults_object.xstart := 5; Faults_object.xfinish := 5;
  Faults_object.ystart := 0; Faults_object.yfinish := 4;
  Faults_object.Kode := 100;
  Faults_object.zerolon := -115; Faults_object.zerolat := 33;
  Faults_object.rtlat := 0; Faults_object.reverse := 0;
  Faults_object.tensile := 0; Faults_object.potency := [];
  Faults_object.strike := 0; Faults_object.dipangle := 90;
  Faults_object.rake := 180;
  Faults_object.top := 2; Faults_object.bottom := 8;
  Faults_object.comment := "receiver" |}.

Definition inputs (sources receivers : list Faults_object.t)
  : Input_object.t := {|
  Input_object.PR1 := 0.25; Input_object.FRIC := 0.4;
  Input_object.depth := 0;
  Input_object.start_gridx := -20; Input_object.finish_gridx := 20;
  Input_object.start_gridy := -20; Input_object.finish_gridy := 20;
  Input_object.xinc := 1; Input_object.yinc := 1;
  Input_object.minlon := -116; Input_object.maxlon := -114;
  Input_object.zerolon := -115;
  Input_object.minlat := 32; Input_object.maxlat := 34;
  Input_object.zerolat := 33;
  Input_object.source_object := sources;
  Input_object.receiver_object := receivers |}.

(** An observed displacement point with a name and uncertainties. *)
Definition station : Disp_Points.t := {|
  Disp_Points.lon := -115.5; Disp_Points.lat := 33.1;
  Disp_Points.dE_obs := Float 0.003; Disp_Points.dN_obs := Float 0.001;
  Disp_Points.dU_obs := Float 0;
  Disp_Points.Se_obs := Float 0.0005; Disp_Points.Sn_obs := Float 0.0005;
  Disp_Points.Su_obs := Float 0.002;
  Disp_Points.name := Str "P494" |}.

Definition gradient : np.matrix := [[1; 2; 3]; [4; 5; 6]; [7; 8; 10]].

End example.

(** ** More statement vocabulary *)

(** A 3x3 array equal to its transpose, and one opposite to it (the
    gradient of a small rigid rotation). *)
Definition symmetric3 (M : np.matrix) : Prop :=
  forall i j, (i < 3)%nat -> (j < 3)%nat -> item M i j = item M j i.

Definition antisymmetric3 (M : np.matrix) : Prop :=
  forall i j, (i < 3)%nat -> (j < 3)%nat -> item M i j = - item M j i.

(** The hydrostatic stress [p * I]. *)
Definition hydrostatic (p : R) : np.matrix :=
  [[p; 0; 0]; [0; p; 0]; [0; 0; p]].

(** The [j]-th of the [n + 1] evenly spaced values from [a] to [b]. *)
Definition evenly_spaced (a b : R) (n : Z) (j : nat) : R :=
  a + INR j * ((b - a) / IZR n).

(** Consecutive patches of a row share their corners along strike. *)
Definition chained (row : list Faults_object.t) : Prop :=
  forall k p q,
    nth_error row k = Some p -> nth_error row (S k) = Some q ->
    Faults_object.xfinish p = Faults_object.xstart q
    /\ Faults_object.yfinish p = Faults_object.ystart q.

(** A patch of the [j]-th of the [dip_split] depth slices of [fault]. *)
Definition depth_slice (inputs : Input_object.t) (fault : Faults_object.t)
           (dip_split : Z) (j : nat) (patch : Faults_object.t) : Prop :=
  Faults_object.top patch
  = evenly_spaced (Faults_object.top fault) (Faults_object.bottom fault)
                  dip_split j
  /\ Faults_object.bottom patch
     = evenly_spaced (Faults_object.top fault) (Faults_object.bottom fault)
                     dip_split (S j)
  /\ Faults_object.zerolon patch = Input_object.zerolon inputs
  /\ Faults_object.zerolat patch = Input_object.zerolat inputs.


(** The number that [a[i][j] = acc] stores in a float array for a
    displacement [acc]: the scalar, or the only entry of a one-entry
    array. *)
Definition stored (acc : accumulator) : R :=
  match accumulator_scalar acc with
  | Ok r => r
  | Raise _ => 0
  end.

Section grid_vocabulary.
Context {fvf : fault_vector_functions} {okada : okada_wrapper}.

(** The three displacement components stored at a grid node. *)
Definition grid_displacement
           (params : Params.t) (inputs : Input_object.t) (x y : R)
  : R * R * R :=
  match run_dc3d.compute_surface_disp_point params inputs x y with
  | Ok (u, v, w, _) => (stored u, stored v, stored w)
  | Raise _ => (0, 0, 0)
  end.

End grid_vocabulary.

(** Strain points with a latitude for every longitude. *)
Definition strain_points_ok (strain_points : strain_points_arg) : Prop :=
  match strain_points with
  | NoStrainPoints => True
  | StrainPoints lon lat => (length lon <= length lat)%nat
  end.

(** An optional new value over an optional earlier one. *)
Definition or_else (new old : option R) : option R :=
  match new with
  | Some _ => new
  | None => old
  end.

(** The geometry and segment of [new_item] are those of [item1]. *)
Definition same_geometry (item1 new_item : fault_slip_object.FaultDict.t)
  : Prop :=
  fault_slip_object.FaultDict.strike new_item
  = fault_slip_object.FaultDict.strike item1
  /\ fault_slip_object.FaultDict.dip new_item
     = fault_slip_object.FaultDict.dip item1
  /\ fault_slip_object.FaultDict.length new_item
     = fault_slip_object.FaultDict.length item1
  /\ fault_slip_object.FaultDict.width new_item
     = fault_slip_object.FaultDict.width item1
  /\ fault_slip_object.FaultDict.lon new_item
     = fault_slip_object.FaultDict.lon item1
  /\ fault_slip_object.FaultDict.lat new_item
     = fault_slip_object.FaultDict.lat item1
  /\ fault_slip_object.FaultDict.depth new_item
     = fault_slip_object.FaultDict.depth item1
  /\ fault_slip_object.FaultDict.segment new_item
     = fault_slip_object.FaultDict.segment item1.

(** ** More example data *)

Module examples.

(** The gradient of a small rigid rotation about the vertical axis. *)
Definition rotation : np.matrix := [[0; 1; 0]; [-1; 0; 0]; [0; 0; 0]].

(** A plane strain given as a 2x2 array. *)
Definition plane_strain : np.matrix := [[1; 0]; [0; 1]].

(** The receiver of [example.receiver] with top and bottom exchanged. *)
Definition inverted_receiver : Faults_object.t := {|
  Faults_object.xstart := 5; Faults_object.xfinish := 5;
  Faults_object.ystart := 0; Faults_object.yfinish := 4;
  Faults_object.Kode := 100;
  Faults_object.zerolon := -115; Faults_object.zerolat := 33;
  Faults_object.rtlat := 0; Faults_object.reverse := 0;
  Faults_object.tensile := 0; Faults_object.potency := [];
  Faults_object.strike := 0; Faults_object.dipangle := 90;
  Faults_object.rake := 180;
  Faults_object.top := 8; Faults_object.bottom := 2;
  Faults_object.comment := "inverted" |}.

(** An implementation of the moment calculations: [mu * A * d] and the
    moment magnitude of a moment in newton-meters. *)
Definition moment : Tectonic_Utils.moment_calculations := {|
  Tectonic_Utils.moment_from_muad := fun mu A d => mu * A * d;
  Tectonic_Utils.mw_from_moment := fun moment =>
    2 / 3 * (ln (moment * 10000000) / ln 10) - 107 / 10 |}.

(** A 10 km by 5 km vertical patch at the surface, and one below it that
    belongs to another segment. *)
Definition patch : fault_slip_object.FaultDict.t := {|
  fault_slip_object.FaultDict.strike := 0;
  fault_slip_object.FaultDict.dip := 90;
  fault_slip_object.FaultDict.length := 10;
  fault_slip_object.FaultDict.width := 5;
  fault_slip_object.FaultDict.lon := -115;
  fault_slip_object.FaultDict.lat := 33;
  fault_slip_object.FaultDict.depth := 0;
  fault_slip_object.FaultDict.rake := 180;
  fault_slip_object.FaultDict.slip := 1;
  fault_slip_object.FaultDict.tensile := 0;
  fault_slip_object.FaultDict.segment := 0 |}.

Definition deep_patch : fault_slip_object.FaultDict.t := {|
  fault_slip_object.FaultDict.strike := 0;
  fault_slip_object.FaultDict.dip := 90;
  fault_slip_object.FaultDict.length := 10;
  fault_slip_object.FaultDict.width := 5;
  fault_slip_object.FaultDict.lon := -115;
  fault_slip_object.FaultDict.lat := 33;
  fault_slip_object.FaultDict.depth := 5;
  fault_slip_object.FaultDict.rake := 90;
  fault_slip_object.FaultDict.slip := 2;
  fault_slip_object.FaultDict.tensile := 0;
  fault_slip_object.FaultDict.segment := 1 |}.

(** The parameters of [example.params] with a dip count of 0. *)
Definition params_no_dip : Params.t := {|
  Params.config_file := "config.txt";
  Params.input_file := "input.inp";
  Params.aftershocks := "aftershocks.txt";
  Params.disp_points_file := "disp_points.txt";
  Params.strain_file := "strain_points.txt";
  Params.strike_num_receivers := 2;
  Params.dip_num_receivers := 0;
  Params.fixed_rake := Tuple0;
  Params.mu := 30e9;
  Params.lame1 := 30e9;
  Params.B := 0;
  Params.alpha := 2 / 3;
  Params.outdir := "out/" |}.

(** Two strain points, and a modulus profile. *)
Definition strain_lon : list R := [-115.5; -115].
Definition strain_lat : list R := [33.1; 33].
Definition depths : np.vector := [0; 10].
Definition mus : np.vector := [30; 30; 30].

End examples.
(** ** Shapes and bounded indices *)

Lemma shaped_3_3_inv (M : np.matrix) :
  shaped 3 3 M ->
  exists a b c d e f g h i, M = [[a; b; c]; [d; e; f]; [g; h; i]].
Proof.
  intros [Hlen Hrows].
  destruct M as [|r0 [|r1 [|r2 [|r3 M]]]]; try discriminate Hlen.
  inversion Hrows as [|? ? H0 Hrows1]; subst.
  inversion Hrows1 as [|? ? H1 Hrows2]; subst.
  inversion Hrows2 as [|? ? H2 _]; subst.
  destruct r0 as [|a [|b [|c [|? ?]]]]; try discriminate H0.
  destruct r1 as [|d [|e [|f [|? ?]]]]; try discriminate H1.
  destruct r2 as [|g [|h [|i [|? ?]]]]; try discriminate H2.
  now exists a, b, c, d, e, f, g, h, i.
Qed.

Lemma shaped_3_3_intro (a b c d e f g h i : R) :
  shaped 3 3 [[a; b; c]; [d; e; f]; [g; h; i]].
Proof. split; [reflexivity | repeat constructor]. Qed.

(** Case analysis on an index below 3. *)
Ltac index3 i H :=
  destruct i as [|[|[|i]]]; [ | | | exfalso; lia ]; clear H.

(** A 3x3 array, entry by entry. *)
Ltac as_3_3 M H :=
  let a := fresh "m00" in let b := fresh "m01" in let c := fresh "m02" in
  let d := fresh "m10" in let e := fresh "m11" in let f := fresh "m12" in
  let g := fresh "m20" in let h := fresh "m21" in let i := fresh "m22" in
  destruct (shaped_3_3_inv M H) as (a & b & c & d & e & f & g & h & i & ->).

(** The result of a solver call, component by component. *)
Ltac split_solver_result :=
  match goal with
  | |- context [dc3dwrapper ?a ?b ?c ?d ?e ?f ?g] =>
      destruct (dc3dwrapper a b c d e f g)
        as [[? [[? ?] ?]] [[[[? ?] ?] [[? ?] ?]] [[? ?] ?]]]
  | |- context [dc3d0wrapper ?a ?b ?c ?d ?e] =>
      destruct (dc3d0wrapper a b c d e)
        as [[? [[? ?] ?]] [[[[? ?] ?] [[? ?] ?]] [[? ?] ?]]]
  end.

(** ** Loops that append to a list *)

Lemma for_each_groups {A B : Type} (Q : A -> list B -> Prop)
      (body : A -> list B -> result (list B)) (xs : list A) :
  (forall x acc, In x xs ->
                 exists bs, body x acc = Ok (acc ++ bs) /\ Q x bs) ->
  forall acc, exists groups,
      for_each xs acc body = Ok (acc ++ concat groups) /\ Forall2 Q xs groups.
Proof.
  induction xs as [|x xs IH]; intros Hbody acc.
  - exists []. cbn. rewrite app_nil_r. split; [reflexivity | constructor].
  - destruct (Hbody x acc (or_introl eq_refl)) as (bs & Hbs & HQ).
    destruct (IH (fun y a Hy => Hbody y a (or_intror Hy)) (acc ++ bs))
      as (groups & Hrun & HF).
    exists (bs :: groups). cbn. rewrite Hbs. cbn. rewrite Hrun.
    rewrite <- app_assoc. split; [reflexivity | now constructor].
Qed.

Lemma for_each_collect {A B : Type} (P : A -> B -> Prop)
      (body : A -> list B -> result (list B)) (xs : list A) :
  (forall x acc, In x xs -> exists b, body x acc = Ok (acc ++ [b]) /\ P x b) ->
  forall acc, exists bs,
      for_each xs acc body = Ok (acc ++ bs) /\ Forall2 P xs bs.
Proof.
  induction xs as [|x xs IH]; intros Hbody acc.
  - exists []. rewrite app_nil_r. split; [reflexivity | constructor].
  - destruct (Hbody x acc (or_introl eq_refl)) as (b & Hb & HP).
    destruct (IH (fun y a Hy => Hbody y a (or_intror Hy)) (acc ++ [b]))
      as (bs & Hbs & HF).
    exists (b :: bs). cbn. rewrite Hb. cbn. rewrite Hbs.
    rewrite <- app_assoc. split; [reflexivity | now constructor].
Qed.

Lemma concat_uniform_length {A B : Type} (Q : A -> list B -> Prop) (m : nat)
      (xs : list A) (groups : list (list B)) :
  Forall2 (fun x g => length g = m /\ Q x g) xs groups ->
  length (concat groups) = (length xs * m)%nat.
Proof.
  induction 1 as [|x g xs groups [Hlen _] _ IH]; cbn.
  - reflexivity.
  - now rewrite length_app, Hlen, IH.
Qed.

Lemma concat_Forall {A B : Type} (P : B -> Prop) (Q : list B -> Prop)
      (xs : list A) (groups : list (list B)) :
  Forall2 (fun _ g => Q g /\ Forall P g) xs groups ->
  Forall P (concat groups).
Proof.
  induction 1 as [|x g xs groups [_ HP] _ IH]; cbn.
  - constructor.
  - apply Forall_app. now split.
Qed.

Lemma getitem_in_range {A : Type} (l : list A) (i : nat) :
  (i < length l)%nat -> exists a, getitem l i = Ok a.
Proof.
  intros Hi. unfold getitem.
  destruct (nth_error l i) eqn:Hnth; [eauto|].
  apply nth_error_None in Hnth. lia.
Qed.

(** ** numpy: ranges and sums of 3x3 arrays *)

Lemma ceil_IZR (n : Z) : np.ceil (IZR n) = n.
Proof.
  unfold np.ceil.
  rewrite <- (tech_up (- IZR n) (- n + 1)).
  - lia.
  - rewrite plus_IZR, opp_IZR. lra.
  - rewrite plus_IZR, opp_IZR. lra.
Qed.

Lemma constant_length (v : R) (n : Z) :
  length (map (fun _ : nat => v) (range n)) = Z.to_nat n.
Proof. unfold range. now rewrite length_map, length_seq. Qed.

Lemma np_add_3_3 (A B : np.matrix) :
  shaped 3 3 A -> shaped 3 3 B ->
  exists C, np.add A B = Ok C /\ shaped 3 3 C.
Proof.
  intros HA HB. as_3_3 A HA. as_3_3 B HB. eexists. split; [reflexivity|].
  apply shaped_3_3_intro.
Qed.

Lemma accumulator_add_single (a : accumulator) (x : R) :
  acc_ok a -> exists a', accumulator_add a [x] = Ok a' /\ single a'.
Proof.
  intros [[r ->] | [y ->]]; cbn; eexists; (split; [reflexivity|]);
    eexists; reflexivity.
Qed.

(** ** Tensor math *)

Lemma get_strain_tensor_3_3 (G : np.matrix) :
  shaped 3 3 G ->
  exists S, conversion_math.get_strain_tensor G = Ok S /\ shaped 3 3 S.
Proof.
  intros HG. as_3_3 G HG. eexists. split; [reflexivity|].
  apply shaped_3_3_intro.
Qed.

Lemma get_stress_tensor_3_3 (e : np.matrix) (lamda mu : R) :
  shaped 3 3 e ->
  exists S, conversion_math.get_stress_tensor e lamda mu = Ok S
            /\ shaped 3 3 S.
Proof.
  intros He. as_3_3 e He. eexists. split; [reflexivity|].
  apply shaped_3_3_intro.
Qed.

(** C8. For a 3x3 displacement gradient [G], [get_strain_tensor] returns a
    3x3 array whose entry (i, j) is [0.5 * (G[i][j] + G[j][i])]; the array
    is therefore symmetric: entry (i, j) equals entry (j, i). *)
Theorem get_strain_tensor_symmetric (G : np.matrix) :
  shaped 3 3 G ->
  exists S,
    conversion_math.get_strain_tensor G = Ok S
    /\ shaped 3 3 S
    /\ (forall i j, (i < 3)%nat -> (j < 3)%nat ->
                    item S i j = 0.5 * (item G i j + item G j i))
    /\ (forall i j, (i < 3)%nat -> (j < 3)%nat -> item S i j = item S j i).
Proof.
  intros HG. as_3_3 G HG.
  eexists. split; [reflexivity|].
  split; [apply shaped_3_3_intro|].
  split; intros i j Hi Hj; index3 i Hi; index3 j Hj; cbn; lra.
Qed.

(** C7. For a 3x3 strain [e] and Lame parameters [lamda] and [mu],
    [get_stress_tensor] returns the 3x3 array whose diagonal entries are
    [lamda * (e[0][0] + e[1][1] + e[2][2]) + 2 * mu * e[i][i]] and whose
    other entries are [2 * mu * e[i][j]]: the stress is
    [lamda * tr(e) * I + 2 * mu * e]. *)
Theorem get_stress_tensor_isotropic (e : np.matrix) (lamda mu : R) :
  shaped 3 3 e ->
  exists S,
    conversion_math.get_stress_tensor e lamda mu = Ok S
    /\ shaped 3 3 S
    /\ (forall i j, (i < 3)%nat -> (j < 3)%nat ->
          item S i j
          = if Nat.eqb i j
            then lamda * (item e 0 0 + item e 1 1 + item e 2 2)
                 + 2 * mu * item e i j
            else 2 * mu * item e i j)
    /\ (forall i j, (i < 3)%nat -> (j < 3)%nat ->
          item S i j
          = lamda * np.trace e * item identity3 i j + 2 * mu * item e i j).
Proof.
  intros He. as_3_3 e He.
  eexists. split; [reflexivity|].
  split; [apply shaped_3_3_intro|].
  split; intros i j Hi Hj; index3 i Hi; index3 j Hj; cbn; lra.
Qed.

(** ** Rotations *)

Lemma rotation_z_neg_transpose (theta : R) :
  rotation_z (- theta) = np.T (rotation_z theta).
Proof.
  unfold rotation_z, np.T; cbn.
  rewrite cos_neg, sin_neg.
  repeat (f_equal; try lra).
Qed.

Lemma rotation_z_neg_inverse (theta : R) :
  np.dot_mm (rotation_z (- theta)) (rotation_z theta) = Ok identity3.
Proof.
  unfold rotation_z, identity3; cbn.
  rewrite cos_neg, sin_neg.
  pose proof (sin2_cos2 theta) as H; unfold Rsqr in H.
  repeat (f_equal; try nra).
Qed.

(** C6. [get_R_from_strike] builds [R] as the rotation by
    [theta = strike - 90] degrees and [R2] as the rotation by [- theta];
    [R2] is the transpose of [R] and [R2 . R] is the identity. The matrices
    that the source evaluator builds from the strike of the source satisfy
    the same relations. *)
Theorem rotation_inverse_is_transpose (strike : R) (source : Faults_object.t) :
  (let theta := np.deg2rad (strike - 90) in
   let R_ := fst (conversion_math.get_R_from_strike strike) in
   let R2 := snd (conversion_math.get_R_from_strike strike) in
   R_ = rotation_z theta /\ R2 = rotation_z (- theta)
   /\ R2 = np.T R_ /\ np.dot_mm R2 R_ = Ok identity3)
  /\
  (let theta := np.deg2rad (Faults_object.strike source - 90) in
   let R_ := fst (run_dc3d.source_rotations source) in
   let R2 := snd (run_dc3d.source_rotations source) in
   R_ = rotation_z theta /\ R2 = rotation_z (- theta)
   /\ R2 = np.T R_ /\ np.dot_mm R2 R_ = Ok identity3).
Proof.
  split; cbv zeta;
    (split; [reflexivity|]); (split; [reflexivity|]);
    (split; [apply rotation_z_neg_transpose | apply rotation_z_neg_inverse]).
Qed.

(** ** The Coulomb resolver *)

Lemma get_coulomb_stresses_internal_formula
      (tau : np.matrix) (s d n : vec3) (rake friction B : R) :
  shaped 3 3 tau ->
  let traction := mat_vec3 tau n in
  let effective_normal :=
    (dot3 n traction - ((item tau 0 0 + item tau 1 1 + item tau 2 2) / 3) * B)
    / 1000 in
  let shear :=
    fst (rotate2 (np.deg2rad rake) (dot3 s traction, dot3 d traction))
    / 1000 in
  conversion_math.get_coulomb_stresses_internal
    tau (array3 s) rake (array3 d) (array3 n) friction B
  = Ok (effective_normal, shear, shear + friction * effective_normal).
Proof.
  intros Htau. as_3_3 tau Htau.
  destruct s as [[s0 s1] s2], d as [[d0 d1] d2], n as [[n0 n1] n2].
  cbn. f_equal. repeat (f_equal; try field).
Qed.

(** The resolver is additive in the stress: resolving [A + B] gives the
    sums of what resolving [A] and [B] gives. *)
Lemma resolver_additive
      (A B : np.matrix) (s d n : vec3) (rake friction Bs : R) :
  shaped 3 3 A -> shaped 3 3 B ->
  exists C a b,
    np.add A B = Ok C /\ shaped 3 3 C
    /\ conversion_math.get_coulomb_stresses_internal
         A (array3 s) rake (array3 d) (array3 n) friction Bs = Ok a
    /\ conversion_math.get_coulomb_stresses_internal
         B (array3 s) rake (array3 d) (array3 n) friction Bs = Ok b
    /\ conversion_math.get_coulomb_stresses_internal
         C (array3 s) rake (array3 d) (array3 n) friction Bs
       = Ok (fst (fst b) + fst (fst a), snd (fst b) + snd (fst a),
             snd b + snd a).
Proof.
  intros HA HB. as_3_3 A HA. as_3_3 B HB.
  destruct s as [[s0 s1] s2], d as [[d0 d1] d2], n as [[n0 n1] n2].
  do 3 eexists.
  split; [reflexivity|]. split; [apply shaped_3_3_intro|].
  split; [reflexivity|]. split; [reflexivity|].
  cbn. f_equal. repeat (f_equal; try field).
Qed.

Lemma resolver_zero (s d n : vec3) (rake friction Bs : R) :
  conversion_math.get_coulomb_stresses_internal
    (np.zeros (3%nat, 3%nat)) (array3 s) rake (array3 d) (array3 n)
    friction Bs = Ok (0, 0, 0).
Proof.
  destruct s as [[s0 s1] s2], d as [[d0 d1] d2], n as [[n0 n1] n2].
  cbn. f_equal. repeat (f_equal; try field).
Qed.


Section properties.
Context {fvf : fault_vector_functions} {okada : okada_wrapper}.

(** C3. For a 3x3 stress [tau], with [n] the plane normal of the receiver
    and [traction = tau . n], the resolver returns
    [effectiveNormal = (n . traction - (trace(tau) / 3) * B) / 1000],
    [shear] = the first component of the rotation by the rake angle of
    [(strikeVector . traction, dipVector . traction)], divided by 1000, and
    [coulomb = shear + f * effectiveNormal]. *)
Theorem get_coulomb_stresses_formula
        (tau : np.matrix) (strike rake dip friction B : R) :
  shaped 3 3 tau ->
  let n := get_plane_normal strike dip in
  let traction := mat_vec3 tau n in
  let effective_normal :=
    (dot3 n traction - ((item tau 0 0 + item tau 1 1 + item tau 2 2) / 3) * B)
    / 1000 in
  let shear :=
    fst (rotate2 (np.deg2rad rake)
                 (dot3 (get_strike_vector strike) traction,
                  dot3 (get_dip_vector strike dip) traction))
    / 1000 in
  conversion_math.get_coulomb_stresses tau strike rake dip friction B
  = Ok (effective_normal, shear, shear + friction * effective_normal).
Proof.
  intros Htau. cbv zeta.
  unfold conversion_math.get_coulomb_stresses.
  now apply get_coulomb_stresses_internal_formula.
Qed.

(** ** The source evaluator *)

Lemma one_fault_refines_spec
      (source : Faults_object.t) (x y z : R) (params : Params.t) :
  potency_ok source ->
  run_dc3d.compute_strains_stresses_from_one_fault source x y z params
  = Ok (spec.source_evaluator source x y z params).
Proof.
  intros Hp. unfold potency_ok in Hp.
  unfold run_dc3d.compute_strains_stresses_from_one_fault,
    spec.source_evaluator, spec.rotate_back, spec.fault_frame_position,
    run_dc3d.source_rotations.
  replace (Faults_object.rtlat source * -1)
    with (- Faults_object.rtlat source) by ring.
  destruct (Faults_object.potency source) as [|p0 [|p1 [|p2 [|p3 rest]]]];
    cbn in Hp; try (exfalso; lia); cbn;
    split_solver_result; reflexivity.
Qed.

Lemma source_evaluator_shape
      (source : Faults_object.t) (x y z : R) (params : Params.t) :
  exists G a b c,
    spec.source_evaluator source x y z params = (G, [[a]; [b]; [c]])
    /\ shaped 3 3 G.
Proof.
  unfold spec.source_evaluator, spec.rotate_back.
  destruct (Faults_object.potency source); cbv zeta;
    split_solver_result; cbn;
    do 4 eexists; (split; [reflexivity | apply shaped_3_3_intro]).
Qed.

(** C2. For a patch whose potency is empty or holds its four components,
    the source evaluator returns what the specification describes: with a
    non-empty potency the point-source solver [dc3d0wrapper] is called and
    its gradient is scaled by 1e-9 and its displacement by 1e-6; otherwise
    the finite-source solver [dc3dwrapper] is called with the strike extent
    [[0, L]], the dip extent [[-W, 0]] and the slip
    [(- rtlat, reverse, tensile)], and its gradient is scaled by 1e-3. *)
Theorem source_evaluator_dispatch
        (source : Faults_object.t) (x y z : R) (params : Params.t) :
  potency_ok source ->
  run_dc3d.compute_strains_stresses_from_one_fault source x y z params
  = Ok (spec.source_evaluator source x y z params).
Proof. apply one_fault_refines_spec. Qed.

(** ** Empty inputs *)

(** C10. With no source, [compute_surface_disp_point] returns the
    displacement (0, 0, 0) and the 3x3 zero strain, at every point. *)
Theorem compute_surface_disp_point_no_source
        (params : Params.t) (inputs : Input_object.t) (x y : R) :
  Input_object.source_object inputs = [] ->
  run_dc3d.compute_surface_disp_point params inputs x y
  = Ok (Scalar 0, Scalar 0, Scalar 0, [[0; 0; 0]; [0; 0; 0]; [0; 0; 0]]).
Proof.
  intros Hsrc. unfold run_dc3d.compute_surface_disp_point.
  rewrite Hsrc. reflexivity.
Qed.

(** C9. With no receiver, [compute_strains_stresses] returns three empty
    sequences; with no strain points, [compute_ll_strain] returns no strain
    result ([None] for a falsy argument, the empty list for empty
    coordinate sequences). Neither raises. *)
Theorem empty_inputs_short_circuit
        (params : Params.t) (inputs : Input_object.t) :
  Input_object.receiver_object inputs = [] ->
  run_dc3d.compute_strains_stresses params inputs = Ok ([], [], [])
  /\ run_dc3d.compute_ll_strain params inputs NoStrainPoints = Ok None
  /\ run_dc3d.compute_ll_strain params inputs (StrainPoints [] [])
     = Ok (Some []).
Proof.
  intros Hrec. unfold run_dc3d.compute_strains_stresses.
  rewrite Hrec. repeat split; reflexivity.
Qed.

(** ** Point mode *)

(** One pass of the loop of [compute_surface_disp_point] over well-formed
    sources keeps the strain 3x3 and leaves one-element arrays in the
    displacement accumulators as soon as one source has been added. *)
Lemma surface_loop (params : Params.t) (x y : R)
      (sources : list Faults_object.t) :
  Forall potency_ok sources ->
  forall s, state_ok s ->
  exists s',
    for_each sources s
      (fun fault '(u_disp, v_disp, w_disp, strain_tensor_total) =>
       '(desired_coords_grad_u, desired_coords_u) <-
         run_dc3d.compute_strains_stresses_from_one_fault fault x y 0 params ;;
       strain_tensor <- conversion_math.get_strain_tensor desired_coords_grad_u ;;
       strain_tensor_total <- np.add strain_tensor strain_tensor_total ;;
       du0 <- getitem desired_coords_u 0 ;;
       u_disp <- accumulator_add u_disp du0 ;;
       du1 <- getitem desired_coords_u 1 ;;
       v_disp <- accumulator_add v_disp du1 ;;
       du2 <- getitem desired_coords_u 2 ;;
       w_disp <- accumulator_add w_disp du2 ;;
       Ok (u_disp, v_disp, w_disp, strain_tensor_total)) = Ok s'
    /\ state_ok s'
    /\ (sources <> [] \/ state_single s -> state_single s').
Proof.
  induction 1 as [|source sources Hsrc _ IH]; intros s Hs.
  - exists s. split; [reflexivity|]. split; [assumption|].
    intros [Hne | Hsingle]; [congruence | assumption].
  - destruct s as [[[u v] w] st]. destruct Hs as (Hu & Hv & Hw & Hst).
    cbn [for_each].
    rewrite (one_fault_refines_spec source x y 0 params Hsrc).
    destruct (source_evaluator_shape source x y 0 params)
      as (G & a & b & c & -> & HG).
    cbn [bind].
    destruct (get_strain_tensor_3_3 G HG) as (S & -> & HS). cbn [bind].
    destruct (np_add_3_3 S st HS Hst) as (St & -> & HSt). cbn [bind].
    cbn [getitem nth_error bind].
    destruct (accumulator_add_single u a Hu) as (u' & -> & Hu').
    destruct (accumulator_add_single v b Hv) as (v' & -> & Hv').
    destruct (accumulator_add_single w c Hw) as (w' & -> & Hw').
    cbn [bind].
    destruct (IH (u', v', w', St)) as (s' & Hs' & Hok & Hsingle).
    { unfold state_ok. split; [now right|]. split; [now right|].
      split; [now right | assumption]. }
    exists s'. split; [exact Hs'|]. split; [exact Hok|].
    intros _. apply Hsingle. right. unfold state_single. auto.
Qed.

Lemma compute_surface_disp_point_sources
      (params : Params.t) (inputs : Input_object.t) (x y : R) :
  Input_object.source_object inputs <> [] ->
  Forall potency_ok (Input_object.source_object inputs) ->
  exists u v w strain,
    run_dc3d.compute_surface_disp_point params inputs x y
    = Ok (Array1 [u], Array1 [v], Array1 [w], strain)
    /\ shaped 3 3 strain.
Proof.
  intros Hne Hwf. unfold run_dc3d.compute_surface_disp_point.
  destruct (surface_loop params x y _ Hwf
              (Scalar 0, Scalar 0, Scalar 0, np.zeros (3%nat, 3%nat)))
    as ([[[u v] w] st] & Hrun & (_ & _ & _ & Hst) & Hsingle).
  { unfold state_ok.
    split; [left; eexists; reflexivity|].
    split; [left; eexists; reflexivity|].
    split; [left; eexists; reflexivity|].
    apply shaped_3_3_intro. }
  destruct (Hsingle (or_introl Hne)) as ([u' ->] & [v' ->] & [w' ->]).
  exists u', v', w', st. split; [exact Hrun | exact Hst].
Qed.

(** C5, as the code has it. With at least one source, all of them
    well-formed, [compute_ll_def] returns one model point per input point,
    in order; a model point has the [lon] and [lat] of its input point, its
    fields [dE_obs], [dN_obs], [dU_obs] hold the displacement that
    [compute_surface_disp_point] sums over the sources at that point, and
    its fields [Se_obs], [Sn_obs], [Su_obs] and [name] are the empty tuple,
    whatever the input point held. *)
Theorem compute_ll_def_model_points
        (params : Params.t) (inputs : Input_object.t)
        (disp_points : list Disp_Points.t) :
  Input_object.source_object inputs <> [] ->
  Forall potency_ok (Input_object.source_object inputs) ->
  exists model_disp_points,
    run_dc3d.compute_ll_def params inputs disp_points = Ok model_disp_points
    /\ Forall2
         (fun point model =>
            Disp_Points.lon model = Disp_Points.lon point
            /\ Disp_Points.lat model = Disp_Points.lat point
            /\ Disp_Points.Se_obs model = Tuple0
            /\ Disp_Points.Sn_obs model = Tuple0
            /\ Disp_Points.Su_obs model = Tuple0
            /\ Disp_Points.name model = Tuple0
            /\ exists u v w strain,
                let xy := latlon2xy (Disp_Points.lon point)
                                    (Disp_Points.lat point)
                                    (Input_object.zerolon inputs)
                                    (Input_object.zerolat inputs) in
                run_dc3d.compute_surface_disp_point params inputs
                                                    (fst xy) (snd xy)
                = Ok (Array1 [u], Array1 [v], Array1 [w], strain)
                /\ Disp_Points.dE_obs model = Float u
                /\ Disp_Points.dN_obs model = Float v
                /\ Disp_Points.dU_obs model = Float w)
         disp_points model_disp_points.
Proof.
  intros Hne Hwf. unfold run_dc3d.compute_ll_def.
  match goal with
  | |- exists m, for_each _ _ ?body = _ /\ Forall2 ?P _ _ =>
      assert (Hbody : forall point acc, In point disp_points ->
                 exists b, body point acc = Ok (acc ++ [b]) /\ P point b);
      [ | destruct (for_each_collect P body disp_points Hbody [])
            as (out & Hout & HF) ]
  end.
  - intros point acc _.
    destruct (latlon2xy (Disp_Points.lon point) (Disp_Points.lat point)
                        (Input_object.zerolon inputs)
                        (Input_object.zerolat inputs)) as [xi yi] eqn:Hxy.
    destruct (compute_surface_disp_point_sources params inputs xi yi Hne Hwf)
      as (u & v & w & strain & Hrun & _).
    rewrite Hrun. cbn.
    eexists. split; [reflexivity|]. cbn.
    repeat (split; [reflexivity|]).
    exists u, v, w, strain. repeat split; try reflexivity. exact Hrun.
  - exists out. split; [exact Hout | exact HF].
Qed.

(** X2. With no source the accumulators of [compute_surface_disp_point]
    stay the integer 0, and [compute_ll_def] raises [TypeError] at
    [u_disp[0]] for the first displacement point. *)
Theorem compute_ll_def_no_source
        (params : Params.t) (inputs : Input_object.t)
        (point : Disp_Points.t) (disp_points : list Disp_Points.t) :
  Input_object.source_object inputs = [] ->
  run_dc3d.compute_ll_def params inputs (point :: disp_points)
  = Raise TypeError.
Proof.
  intros Hsrc.
  unfold run_dc3d.compute_ll_def, run_dc3d.compute_surface_disp_point.
  rewrite Hsrc. cbn.
  destruct (latlon2xy _ _ _ _). reflexivity.
Qed.

End properties.

(** ** The subfault splitter *)

(** *** Loops that can fail *)

Lemma for_each_raise_or {A S : Type} (P : A -> Prop) (e : exn)
      (body : A -> S -> result S) (xs : list A) :
  (forall x s, In x xs ->
               body x s = Raise e \/ (P x /\ exists s', body x s = Ok s')) ->
  forall s,
    for_each xs s body = Raise e
    \/ (Forall P xs /\ exists s', for_each xs s body = Ok s').
Proof.
  induction xs as [|x xs IH]; intros Hbody s.
  - right. split; [constructor | now exists s].
  - cbn [for_each].
    destruct (Hbody x s (or_introl eq_refl)) as [-> | (HP & s' & ->)];
      [now left|].
    cbn [bind].
    destruct (IH (fun y a Hy => Hbody y a (or_intror Hy)) s')
      as [-> | (HF & s'' & ->)]; [now left|].
    right. split; [now constructor | now exists s''].
Qed.

Lemma getitem_cases (l : list R) (i : nat) :
  ((i < length l)%nat /\ getitem l i = Ok (nth i l 0))
  \/ ((length l <= i)%nat /\ getitem l i = Raise IndexError).
Proof.
  unfold getitem. destruct (nth_error l i) eqn:Hnth.
  - left. split; [apply nth_error_Some; congruence|].
    now rewrite (nth_error_nth _ _ _ Hnth).
  - right. split; [now apply nth_error_None | reflexivity].
Qed.

Lemma getitem_nth (l : list R) (i : nat) :
  (i < length l)%nat -> getitem l i = Ok (nth i l 0).
Proof.
  intros Hi. destruct (getitem_cases l i) as [[_ H] | [H _]]; [exact H | lia].
Qed.

Lemma for_each_map {A B : Type} (g : A -> B)
      (body : A -> list B -> result (list B)) (xs : list A) :
  (forall x acc, In x xs -> body x acc = Ok (acc ++ [g x])) ->
  forall acc, for_each xs acc body = Ok (acc ++ map g xs).
Proof.
  induction xs as [|x xs IH]; intros Hbody acc.
  - cbn. now rewrite app_nil_r.
  - cbn. rewrite (Hbody x acc (or_introl eq_refl)). cbn.
    rewrite (IH (fun y a Hy => Hbody y a (or_intror Hy))).
    now rewrite <- app_assoc.
Qed.

Lemma nth_error_map_seq {B : Type} (g : nat -> B) (n k : nat) (p : B) :
  nth_error (map g (seq 0 n)) k = Some p -> p = g k /\ (k < n)%nat.
Proof.
  intros H.
  assert (Hk : (k < length (map g (seq 0 n)))%nat)
    by (apply nth_error_Some; congruence).
  rewrite length_map, length_seq in Hk.
  split; [|exact Hk].
  rewrite nth_error_map, nth_error_seq in H.
  destruct (Nat.ltb_spec k n); [|lia]. cbn in H. congruence.
Qed.


Lemma Forall2_concat_rows {A B : Type} (Q : A -> list (list B) -> Prop)
      (xs : list A) (groups : list (list B)) :
  Forall2 (fun x g => exists rows, g = concat rows /\ Q x rows) xs groups ->
  exists grids, groups = map (@concat B) grids /\ Forall2 Q xs grids.
Proof.
  induction 1 as [|x g xs groups (rows & -> & Hrows) _ (grids & -> & HG)].
  - exists []. split; [reflexivity | constructor].
  - exists (rows :: grids). split; [reflexivity | now constructor].
Qed.

(** *** The arrays *)

Lemma nth_map_seq (f : nat -> R) (len j : nat) :
  (j < len)%nat -> nth j (map f (seq 0 len)) 0 = f j.
Proof.
  intros Hj.
  rewrite (nth_indep _ 0 (f 0%nat)) by (rewrite length_map, length_seq; exact Hj).
  rewrite map_nth, seq_nth by exact Hj. reflexivity.
Qed.

Lemma arange_nth {f64 : np.arange_float64} (start stop step : R) (j : nat) :
  (j < length (np.arange start stop step))%nat ->
  nth j (np.arange start stop step) 0 = start + INR j * step.
Proof.
  unfold np.arange. rewrite length_map, length_seq. intros Hj.
  now rewrite nth_map_seq.
Qed.

Lemma constant_nth (v : R) (n : Z) (j : nat) :
  (j < length (map (fun _ : nat => v) (range n)))%nat ->
  nth j (map (fun _ : nat => v) (range n)) 0 = v.
Proof.
  unfold range. rewrite length_map, length_seq. intros Hj.
  now rewrite nth_map_seq.
Qed.

Lemma div_ok (a b : R) : b <> 0 -> div a b = Ok (a / b).
Proof. intros Hb. unfold div. destruct (Req_dec_T b 0); [contradiction|reflexivity]. Qed.

(** With a count other than 0 the arrays are built without an exception,
    and entry [j], when there is one, is [j] increments from the start. *)
Lemma get_split_z_array_ok {f64 : np.arange_float64}
      (top bottom : R) (dip_split : Z) :
  dip_split <> 0%Z ->
  exists zsplit_array,
    run_dc3d.get_split_z_array top bottom dip_split = Ok zsplit_array
    /\ forall j, (j < length zsplit_array)%nat ->
         nth j zsplit_array 0
         = top + INR j * (Rabs (top - bottom) / IZR dip_split).
Proof.
  intros Hn. unfold run_dc3d.get_split_z_array.
  destruct (Req_dec_T top bottom) as [Heq | Hne].
  - eexists. split; [reflexivity|]. intros j Hj.
    rewrite constant_nth by exact Hj. subst bottom.
    rewrite Rminus_diag, Rabs_R0. unfold Rdiv. ring.
  - rewrite div_ok by (apply not_0_IZR; exact Hn). cbn [bind].
    eexists. split; [reflexivity|]. intros j Hj. now apply arange_nth.
Qed.

Lemma get_split_x_y_arrays_ok {f64 : np.arange_float64}
      (start_x_top finish_x_top start_y_top finish_y_top : R)
      (strike_split : Z) :
  strike_split <> 0%Z ->
  exists xsplit_array ysplit_array,
    run_dc3d.get_split_x_y_arrays start_x_top finish_x_top start_y_top
                                  finish_y_top strike_split
    = Ok (xsplit_array, ysplit_array)
    /\ (forall k, (k < length xsplit_array)%nat ->
          nth k xsplit_array 0
          = start_x_top
            + INR k * ((finish_x_top - start_x_top) / IZR strike_split))
    /\ (forall k, (k < length ysplit_array)%nat ->
          nth k ysplit_array 0
          = start_y_top
            + INR k * ((finish_y_top - start_y_top) / IZR strike_split)).
Proof.
  intros Hn. unfold run_dc3d.get_split_x_y_arrays.
  assert (Hz : IZR strike_split <> 0) by (apply not_0_IZR; exact Hn).
  rewrite !div_ok by exact Hz.
  assert (Hconst : forall v w : R, forall k,
             (k < length (map (fun _ : nat => v) (range (strike_split + 1))))%nat ->
             nth k (map (fun _ : nat => v) (range (strike_split + 1))) 0
             = v + INR k * ((v - v) / IZR strike_split)).
  { intros v _ k Hk. rewrite constant_nth by exact Hk.
    rewrite Rminus_diag. unfold Rdiv. ring. }
  destruct (Req_dec_T start_x_top finish_x_top) as [Hx | Hx];
    destruct (Req_dec_T start_y_top finish_y_top) as [Hy | Hy];
    cbn [bind]; eexists; eexists; (split; [reflexivity|]); split; intros k Hk;
    try (now apply arange_nth);
    try (subst finish_x_top; now apply (Hconst start_x_top 0));
    try (subst finish_y_top; now apply (Hconst start_y_top 0)).
Qed.

Lemma row_arrays_ok {fvf : fault_vector_functions} {f64 : np.arange_float64}
      (strike_split : Z) (fault : Faults_object.t) (z : R) :
  strike_split <> 0%Z ->
  exists xsplit_array ysplit_array,
    row_arrays strike_split fault z = Ok (xsplit_array, ysplit_array).
Proof.
  intros Hn. unfold row_arrays.
  destruct (add_vector_to_point (Faults_object.xstart fault) _ _ _)
    as [start_x_top start_y_top].
  destruct (add_vector_to_point (Faults_object.xfinish fault) _ _ _)
    as [finish_x_top finish_y_top].
  destruct (get_split_x_y_arrays_ok start_x_top finish_x_top start_y_top
                                    finish_y_top strike_split Hn)
    as (x & y & H & _). now exists x, y.
Qed.

(** The array of depths of a receiver whose top is below its bottom has
    at most one entry. *)
Lemma z_inverted_short {f64 : np.arange_float64}
      (top bottom : R) (dip_split : Z) (zsplit_array : np.vector) :
  (1 <= dip_split)%Z -> bottom < top ->
  run_dc3d.get_split_z_array top bottom dip_split = Ok zsplit_array ->
  (length zsplit_array <= 1)%nat.
Proof.
  intros Hn Hlt. unfold run_dc3d.get_split_z_array.
  destruct (Req_dec_T top bottom) as [Heq | _]; [lra|].
  assert (Hz : 0 < IZR dip_split) by (apply IZR_lt; lia).
  rewrite div_ok by lra. cbn [bind]. intros [= <-].
  unfold np.arange. rewrite length_map, length_seq.
  rewrite Rabs_right by lra.
  pose proof (np.arange_length_close
                top (bottom + (top - bottom) / IZR dip_split)
                ((top - bottom) / IZR dip_split)) as Hclose.
  replace ((bottom + (top - bottom) / IZR dip_split - top)
           / ((top - bottom) / IZR dip_split))
    with (IZR (1 - dip_split)) in Hclose
    by (rewrite minus_IZR; field; split; lra).
  rewrite ceil_IZR in Hclose.
  assert (Hstep : (top - bottom) / IZR dip_split <> 0).
  { apply Rgt_not_eq. apply Rdiv_lt_0_compat; lra. }
  specialize (Hclose Hstep). lia.
Qed.

Section splitter.
Context {fvf : fault_vector_functions} {f64 : np.arange_float64}.

Lemma split_subfault_receivers_loop
      (params : Params.t) (inputs : Input_object.t) :
  run_dc3d.split_subfault_receivers params inputs
  = subfaulted_receivers <-
      (if Z.eqb (Params.strike_num_receivers params) 1
          && Z.eqb (Params.dip_num_receivers params) 1
       then Ok (Input_object.receiver_object inputs)
       else for_each (Input_object.receiver_object inputs) []
                     (split_receiver params inputs)) ;;
    Ok (with_receivers inputs subfaulted_receivers).
Proof. reflexivity. Qed.

Lemma enough_entries_upright (params : Params.t) (fault : Faults_object.t) :
  (1 <= Params.dip_num_receivers params)%Z ->
  enough_entries params fault ->
  Faults_object.top fault <= Faults_object.bottom fault.
Proof.
  intros Hd (z & Hz & Hlen & _).
  destruct (Rle_or_lt (Faults_object.top fault) (Faults_object.bottom fault))
    as [Hle | Hlt]; [exact Hle|].
  pose proof (z_inverted_short _ _ _ z Hd Hlt Hz). lia.
Qed.

(** A receiver whose arrays are long enough: its patches, row by row. *)
Lemma split_receiver_ok
      (params : Params.t) (inputs : Input_object.t)
      (fault : Faults_object.t) (acc : list Faults_object.t) :
  let strike_split := Params.strike_num_receivers params in
  let dip_split := Params.dip_num_receivers params in
  (1 <= strike_split)%Z -> (1 <= dip_split)%Z ->
  enough_entries params fault ->
  exists rows,
    split_receiver params inputs fault acc = Ok (acc ++ concat rows)
    /\ Forall2
         (fun j row =>
            length row = Z.to_nat strike_split
            /\ Forall (subpatch_of fault) row
            /\ Forall (depth_slice inputs fault dip_split j) row
            /\ chained row)
         (range dip_split) rows.
Proof.
  intros strike_split dip_split Hs Hd Henough.
  pose proof (enough_entries_upright params fault Hd Henough) as Hup.
  destruct Henough as (z & Hz & Hzlen & Hrows).
  fold strike_split in Hrows. fold dip_split in Hz, Hzlen, Hrows.
  destruct (get_split_z_array_ok (Faults_object.top fault)
                                 (Faults_object.bottom fault) dip_split)
    as (z' & Hz' & Hval); [lia|].
  rewrite Hz in Hz'. injection Hz' as <-.
  assert (Hslice : forall j, (j < length z)%nat ->
             nth j z 0
             = evenly_spaced (Faults_object.top fault)
                             (Faults_object.bottom fault) dip_split j).
  { intros j Hj. rewrite (Hval j Hj). unfold evenly_spaced.
    rewrite Rabs_left1 by lra. f_equal. f_equal. lra. }
  unfold split_receiver. fold strike_split dip_split.
  rewrite Hz. cbn [bind].
  apply for_each_groups.
  intros j accj Hj. apply in_seq in Hj.
  rewrite (getitem_nth z j) by lia. cbn [bind].
  destruct (Hrows j ltac:(lia)) as (x & y & Hxy & Hx & Hy).
  unfold row_arrays in Hxy.
  destruct (add_vector_to_point (Faults_object.xstart fault) _ _ _)
    as [start_x_top start_y_top].
  destruct (add_vector_to_point (Faults_object.xfinish fault) _ _ _)
    as [finish_x_top finish_y_top].
  rewrite Hxy. cbn [bind].
  eexists. split.
  - apply for_each_map with
      (g := fun k =>
              {| Faults_object.xstart := nth k x 0;
                 Faults_object.xfinish := nth (k + 1) x 0;
                 Faults_object.ystart := nth k y 0;
                 Faults_object.yfinish := nth (k + 1) y 0;
                 Faults_object.Kode := Faults_object.Kode fault;
                 Faults_object.rtlat := 0;
                 Faults_object.reverse := 0;
                 Faults_object.tensile := 0;
                 Faults_object.potency := [];
                 Faults_object.strike := Faults_object.strike fault;
                 Faults_object.dipangle := Faults_object.dipangle fault;
                 Faults_object.zerolon := Input_object.zerolon inputs;
                 Faults_object.zerolat := Input_object.zerolat inputs;
                 Faults_object.rake := Faults_object.rake fault;
                 Faults_object.top := nth j z 0;
                 Faults_object.bottom := nth (j + 1) z 0;
                 Faults_object.comment := Faults_object.comment fault |}).
    intros k acck Hk. apply in_seq in Hk.
    rewrite (getitem_nth x k), (getitem_nth x (k + 1)),
      (getitem_nth y k), (getitem_nth y (k + 1)),
      (getitem_nth z (j + 1)) by lia.
    reflexivity.
  - split; [unfold range; now rewrite length_map, length_seq|].
    split; [|split].
    + apply Forall_forall. intros p Hp. apply in_map_iff in Hp.
      destruct Hp as (k & <- & _). repeat split.
    + apply Forall_forall. intros p Hp. apply in_map_iff in Hp.
      destruct Hp as (k & <- & _). unfold depth_slice. cbn.
      rewrite !Hslice by lia. rewrite Nat.add_1_r. auto.
    + intros k p q Hp Hq. unfold range in Hp, Hq.
      apply nth_error_map_seq in Hp, Hq.
      destruct Hp as [-> _], Hq as [-> _]. cbn.
      rewrite Nat.add_1_r. auto.
Qed.

(** A receiver is split, or the splitter raises [IndexError]. *)
Lemma split_receiver_cases
      (params : Params.t) (inputs : Input_object.t)
      (fault : Faults_object.t) (acc : list Faults_object.t) :
  (1 <= Params.strike_num_receivers params)%Z ->
  (1 <= Params.dip_num_receivers params)%Z ->
  split_receiver params inputs fault acc = Raise IndexError
  \/ enough_entries params fault.
Proof.
  intros Hs Hd. unfold split_receiver, enough_entries.
  set (strike_split := Params.strike_num_receivers params) in *.
  set (dip_split := Params.dip_num_receivers params) in *.
  destruct (get_split_z_array_ok (Faults_object.top fault)
                                 (Faults_object.bottom fault) dip_split)
    as (z & Hz & _); [lia|].
  rewrite Hz. cbn [bind].
  match goal with
  | |- for_each _ _ ?body = _ \/ _ =>
      destruct (for_each_raise_or
                  (fun j =>
                     (j + 1 < length z)%nat
                     /\ exists x y,
                         row_arrays strike_split fault (nth j z 0) = Ok (x, y)
                         /\ (Z.to_nat strike_split < length x)%nat
                         /\ (Z.to_nat strike_split < length y)%nat)
                  IndexError body (range dip_split)) with (s := acc)
        as [Hraise | (HF & _)]
  end.
  - intros j accj Hj.
    destruct (getitem_cases z j) as [[Hjz ->] | [_ ->]]; [|now left].
    cbn [bind].
    destruct (row_arrays_ok strike_split fault (nth j z 0))
      as (x & y & Hxy); [lia|].
    pose proof Hxy as Hxy'. unfold row_arrays in Hxy.
    destruct (add_vector_to_point (Faults_object.xstart fault) _ _ _)
      as [start_x_top start_y_top].
    destruct (add_vector_to_point (Faults_object.xfinish fault) _ _ _)
      as [finish_x_top finish_y_top].
    rewrite Hxy. cbn [bind].
    match goal with
    | |- for_each _ _ ?body = _ \/ _ =>
        destruct (for_each_raise_or
                    (fun k =>
                       (k + 1 < length x)%nat /\ (k + 1 < length y)%nat
                       /\ (j + 1 < length z)%nat)
                    IndexError body (range strike_split)) with (s := accj)
          as [Hraise | (HF & acc' & Hok)]
    end.
    + intros k acck _.
      destruct (getitem_cases x k) as [[_ ->] | [_ ->]]; [|now left].
      cbn [bind].
      destruct (getitem_cases x (k + 1)) as [[Hx1 ->] | [_ ->]]; [|now left].
      cbn [bind].
      destruct (getitem_cases y k) as [[_ ->] | [_ ->]]; [|now left].
      cbn [bind].
      destruct (getitem_cases y (k + 1)) as [[Hy1 ->] | [_ ->]]; [|now left].
      cbn [bind].
      destruct (getitem_cases z (j + 1)) as [[Hz1 ->] | [_ ->]]; [|now left].
      cbn [bind]. right. split; [auto | eexists; reflexivity].
    + now left.
    + right. split; [|now exists acc'].
      rewrite Forall_forall in HF.
      destruct (HF (Z.to_nat strike_split - 1)%nat) as (Hx & Hy & Hz1).
      { unfold range. apply in_seq. lia. }
      split; [exact Hz1|]. exists x, y.
      split; [exact Hxy' | split; lia].
  - now left.
  - right. exists z. split; [reflexivity|].
    rewrite Forall_forall in HF. split.
    + destruct (HF (Z.to_nat dip_split - 1)%nat) as [Hlen _].
      { unfold range. apply in_seq. lia. }
      lia.
    + intros j Hj. destruct (HF j) as [_ Hrow]; [|exact Hrow].
      unfold range. apply in_seq. lia.
Qed.

(** The splitter on receivers whose arrays are long enough. *)
Lemma split_ok (params : Params.t) (inputs : Input_object.t) :
  let strike_split := Params.strike_num_receivers params in
  let dip_split := Params.dip_num_receivers params in
  (1 <= strike_split)%Z -> (1 <= dip_split)%Z ->
  ~ (strike_split = 1%Z /\ dip_split = 1%Z) ->
  Forall (enough_entries params) (Input_object.receiver_object inputs) ->
  exists grids : list (list (list Faults_object.t)),
    run_dc3d.split_subfault_receivers params inputs
    = Ok (with_receivers inputs (concat (map (@concat _) grids)))
    /\ Forall2
         (fun fault rows =>
            Forall2
              (fun j row =>
                 length row = Z.to_nat strike_split
                 /\ Forall (subpatch_of fault) row
                 /\ Forall (depth_slice inputs fault dip_split j) row
                 /\ chained row)
              (range dip_split) rows)
         (Input_object.receiver_object inputs) grids.
Proof.
  intros strike_split dip_split Hs Hd Hnot Hall.
  rewrite split_subfault_receivers_loop. fold strike_split dip_split.
  destruct (Z.eqb strike_split 1 && Z.eqb dip_split 1) eqn:Hone.
  { apply andb_true_iff in Hone. destruct Hone as [H1 H2].
    apply Z.eqb_eq in H1, H2. exfalso. apply Hnot. now split. }
  rewrite Forall_forall in Hall.
  destruct (for_each_groups
              (fun fault group =>
                 exists rows,
                   group = concat rows
                   /\ Forall2
                        (fun j row =>
                           length row = Z.to_nat strike_split
                           /\ Forall (subpatch_of fault) row
                           /\ Forall (depth_slice inputs fault dip_split j)
                                     row
                           /\ chained row)
                        (range dip_split) rows)
              (split_receiver params inputs)
              (Input_object.receiver_object inputs))
    with (acc := @nil Faults_object.t) as (groups & Hrun & HF).
  - intros fault acc Hin.
    destruct (split_receiver_ok params inputs fault acc Hs Hd (Hall fault Hin))
      as (rows & Hrows & HFrows).
    exists (concat rows). split; [exact Hrows|].
    exists rows. split; [reflexivity | exact HFrows].
  - destruct (Forall2_concat_rows _ _ _ HF) as (grids & -> & HG).
    exists grids. rewrite Hrun. cbn [bind app]. split; [reflexivity | exact HG].
Qed.

(** The splitter raises [IndexError], or every array is long enough. *)
Lemma split_cases (params : Params.t) (inputs : Input_object.t) :
  let strike_split := Params.strike_num_receivers params in
  let dip_split := Params.dip_num_receivers params in
  (1 <= strike_split)%Z -> (1 <= dip_split)%Z ->
  ~ (strike_split = 1%Z /\ dip_split = 1%Z) ->
  run_dc3d.split_subfault_receivers params inputs = Raise IndexError
  \/ Forall (enough_entries params) (Input_object.receiver_object inputs).
Proof.
  intros strike_split dip_split Hs Hd Hnot.
  rewrite split_subfault_receivers_loop. fold strike_split dip_split.
  destruct (Z.eqb strike_split 1 && Z.eqb dip_split 1) eqn:Hone.
  { apply andb_true_iff in Hone. destruct Hone as [H1 H2].
    apply Z.eqb_eq in H1, H2. exfalso. apply Hnot. now split. }
  destruct (for_each_raise_or
              (enough_entries params) IndexError
              (split_receiver params inputs)
              (Input_object.receiver_object inputs)) with (s := @nil Faults_object.t)
    as [-> | (HF & _)].
  - intros fault acc _.
    destruct (split_receiver_cases params inputs fault acc Hs Hd)
      as [Hraise | Henough]; [now left|].
    right. split; [exact Henough|].
    destruct (split_receiver_ok params inputs fault acc Hs Hd Henough)
      as (rows & Hrows & _). eexists. exact Hrows.
  - now left.
  - now right.
Qed.

Lemma split_inverted_raises
        (params : Params.t) (inputs : Input_object.t) :
  (1 <= Params.strike_num_receivers params)%Z ->
  (1 <= Params.dip_num_receivers params)%Z ->
  ~ (Params.strike_num_receivers params = 1%Z
     /\ Params.dip_num_receivers params = 1%Z) ->
  Exists (fun fault => Faults_object.bottom fault < Faults_object.top fault)
         (Input_object.receiver_object inputs) ->
  run_dc3d.split_subfault_receivers params inputs = Raise IndexError.
Proof.
  intros Hs Hd Hnot Hbad.
  destruct (split_cases params inputs Hs Hd Hnot) as [Hraise | Hall];
    [exact Hraise|].
  exfalso. apply Exists_exists in Hbad. destruct Hbad as (fault & Hin & Hlt).
  rewrite Forall_forall in Hall.
  pose proof (enough_entries_upright params fault Hd (Hall fault Hin)). lra.
Qed.

End splitter.

Section splitter_claim.
Context {fvf : fault_vector_functions} {f64 : np.arange_float64}.

Lemma rows_patches (inputs : Input_object.t) (fault : Faults_object.t)
      (strike_split dip_split : Z) (rows : list (list Faults_object.t)) :
  Forall2
    (fun j row =>
       length row = Z.to_nat strike_split
       /\ Forall (subpatch_of fault) row
       /\ Forall (depth_slice inputs fault dip_split j) row
       /\ chained row)
    (range dip_split) rows ->
  length (concat rows) = (Z.to_nat dip_split * Z.to_nat strike_split)%nat
  /\ Forall (subpatch_of fault) (concat rows).
Proof.
  intros HF. split.
  - rewrite (concat_uniform_length _ _ _ _ HF).
    unfold range. now rewrite length_seq.
  - apply (concat_Forall (subpatch_of fault)
                         (fun row => length row = Z.to_nat strike_split)
                         (range dip_split)).
    eapply Forall2_impl; [|exact HF]. cbn. tauto.
Qed.


(** The splitter never returns an empty list for a non-empty one. *)
Lemma split_receivers_nonempty
      (params : Params.t) (inputs sub : Input_object.t) :
  (1 <= Params.strike_num_receivers params)%Z ->
  (1 <= Params.dip_num_receivers params)%Z ->
  Input_object.receiver_object inputs <> [] ->
  run_dc3d.split_subfault_receivers params inputs = Ok sub ->
  Input_object.receiver_object sub <> [].
Proof.
  intros Hs Hd Hne Hsplit.
  destruct (Z.eq_dec (Params.strike_num_receivers params) 1) as [E1|N1];
    [destruct (Z.eq_dec (Params.dip_num_receivers params) 1) as [E2|N2]|].
  - rewrite split_subfault_receivers_loop, E1, E2 in Hsplit.
    cbn [Z.eqb Pos.eqb andb bind] in Hsplit.
    injection Hsplit as <-. exact Hne.
  - destruct (split_cases params inputs Hs Hd ltac:(tauto)) as [Hr | Hall];
      [rewrite Hr in Hsplit; discriminate Hsplit|].
    destruct (split_ok params inputs Hs Hd ltac:(tauto) Hall)
      as (grids & Hrun & HG).
    rewrite Hrun in Hsplit. injection Hsplit as <-. cbn.
    destruct HG as [|fault rows ? ? Hrows _]; [congruence|].
    destruct (rows_patches inputs fault _ _ rows Hrows) as [Hlen _].
    cbn [map concat]. intros Hnil.
    apply (f_equal (@length _)) in Hnil. rewrite length_app, Hlen in Hnil.
    cbn in Hnil. nia.
  - destruct (split_cases params inputs Hs Hd ltac:(tauto)) as [Hr | Hall];
      [rewrite Hr in Hsplit; discriminate Hsplit|].
    destruct (split_ok params inputs Hs Hd ltac:(tauto) Hall)
      as (grids & Hrun & HG).
    rewrite Hrun in Hsplit. injection Hsplit as <-. cbn.
    destruct HG as [|fault rows ? ? Hrows _]; [congruence|].
    destruct (rows_patches inputs fault _ _ rows Hrows) as [Hlen _].
    cbn [map concat]. intros Hnil.
    apply (f_equal (@length _)) in Hnil. rewrite length_app, Hlen in Hnil.
    cbn in Hnil. nia.
Qed.

(** With no row to cut, the loop over the receivers appends nothing. *)
Lemma split_no_rows_loop (params : Params.t) (inputs : Input_object.t)
      (receivers acc : list Faults_object.t) :
  (Params.dip_num_receivers params <= 0)%Z ->
  for_each receivers acc (split_receiver params inputs)
  = if Z.eqb (Params.dip_num_receivers params) 0
       && existsb (fun fault =>
                     if Req_dec_T (Faults_object.top fault)
                                  (Faults_object.bottom fault)
                     then false else true)
                  receivers
    then Raise ZeroDivisionError
    else Ok acc.
Proof.
  intros Hd. induction receivers as [|fault receivers IH].
  - cbn. now rewrite andb_false_r.
  - cbn [for_each existsb].
    assert (Hrange : range (Params.dip_num_receivers params) = []).
    { unfold range. now replace (Z.to_nat _) with 0%nat by lia. }
    unfold split_receiver at 1, run_dc3d.get_split_z_array.
    rewrite Hrange.
    destruct (Req_dec_T (Faults_object.top fault) (Faults_object.bottom fault))
      as [Heq | Hne]; cbn [bind for_each orb]; [exact IH|].
    unfold div.
    destruct (Z.eqb_spec (Params.dip_num_receivers params) 0) as [E0 | N0].
    + rewrite E0. destruct (Req_dec_T 0 0) as [_ | H]; [|contradiction].
      reflexivity.
    + destruct (Req_dec_T (IZR (Params.dip_num_receivers params)) 0)
        as [H | _]; [apply eq_IZR_R0 in H; contradiction|].
      cbn [bind for_each andb] in *. exact IH.
Qed.

End splitter_claim.

(** *** Exact counts *)

Lemma exact_arange_length (start finish : R) (n : Z) :
  (1 <= n)%Z -> start <> finish ->
  exact_length start (finish + (finish - start) / IZR n)
               ((finish - start) / IZR n)
  = Z.to_nat (n + 1).
Proof.
  intros Hn Hne. unfold exact_length.
  f_equal. rewrite <- (ceil_IZR (n + 1)). f_equal.
  rewrite plus_IZR.
  assert (IZR n <> 0) by (apply not_0_IZR; lia).
  field. split; [assumption | lra].
Qed.

Lemma exact_x_y_arrays
      (start_x_top finish_x_top start_y_top finish_y_top : R)
      (strike_split : Z) :
  (1 <= strike_split)%Z ->
  exists x y,
    run_dc3d.get_split_x_y_arrays (f64 := example.exact_arange)
      start_x_top finish_x_top start_y_top finish_y_top strike_split
    = Ok (x, y)
    /\ length x = Z.to_nat (strike_split + 1)
    /\ length y = Z.to_nat (strike_split + 1).
Proof.
  intros Hn. unfold run_dc3d.get_split_x_y_arrays.
  assert (Hz : IZR strike_split <> 0) by (apply not_0_IZR; lia).
  rewrite !div_ok by exact Hz.
  destruct (Req_dec_T start_x_top finish_x_top) as [Hx | Hx];
    destruct (Req_dec_T start_y_top finish_y_top) as [Hy | Hy];
    cbn [bind]; eexists; eexists; (split; [reflexivity|]); split;
    try apply constant_length;
    unfold np.arange; rewrite length_map, length_seq;
    now apply exact_arange_length.
Qed.

(** Without rounding, the arrays of an upright receiver are long enough. *)
Lemma exact_enough_entries {fvf : fault_vector_functions}
      (params : Params.t) (fault : Faults_object.t) :
  (1 <= Params.strike_num_receivers params)%Z ->
  (1 <= Params.dip_num_receivers params)%Z ->
  Faults_object.top fault <= Faults_object.bottom fault ->
  enough_entries (f64 := example.exact_arange) params fault.
Proof.
  intros Hs Hd Hle. unfold enough_entries.
  assert (Hz : exists z,
             run_dc3d.get_split_z_array (f64 := example.exact_arange)
               (Faults_object.top fault) (Faults_object.bottom fault)
               (Params.dip_num_receivers params) = Ok z
             /\ length z = Z.to_nat (Params.dip_num_receivers params + 1)).
  { unfold run_dc3d.get_split_z_array.
    destruct (Req_dec_T (Faults_object.top fault) (Faults_object.bottom fault))
      as [Heq | Hne].
    - eexists. split; [reflexivity | apply constant_length].
    - rewrite div_ok by (apply not_0_IZR; lia). cbn [bind].
      eexists. split; [reflexivity|].
      unfold np.arange. rewrite length_map, length_seq.
      rewrite Rabs_left1 by lra.
      replace (- (Faults_object.top fault - Faults_object.bottom fault))
        with (Faults_object.bottom fault - Faults_object.top fault) by lra.
      now apply exact_arange_length. }
  destruct Hz as (z & Hz & Hlen). exists z.
  split; [exact Hz|]. split; [lia|].
  intros j Hj. unfold row_arrays.
  destruct (add_vector_to_point (Faults_object.xstart fault) _ _ _)
    as [start_x_top start_y_top].
  destruct (add_vector_to_point (Faults_object.xfinish fault) _ _ _)
    as [finish_x_top finish_y_top].
  destruct (exact_x_y_arrays start_x_top finish_x_top start_y_top finish_y_top
                             (Params.strike_num_receivers params) Hs)
    as (x & y & Hxy & Hx & Hy).
  exists x, y. split; [exact Hxy|]. split; lia.
Qed.

(** ** Receiver-Coulomb mode *)

Section receiver_properties.
Context {fvf : fault_vector_functions} {okada : okada_wrapper}.

(** [Faults_object] has no attribute [W]. *)
Lemma get_fault_center_raises (fault_object : Faults_object.t) :
  conversion_math.get_fault_center fault_object = Raise AttributeError.
Proof. reflexivity. Qed.

(** C1, on the code as it is. For every non-empty receiver list
    [compute_strains_stresses] raises [AttributeError] at the first
    receiver, in [get_fault_center]: it returns no sequence at all, where
    the claim promises one entry per receiver. *)
Theorem compute_strains_stresses_raises
        (params : Params.t) (inputs : Input_object.t) :
  Input_object.receiver_object inputs <> [] ->
  run_dc3d.compute_strains_stresses params inputs = Raise AttributeError.
Proof.
  intros Hne. unfold run_dc3d.compute_strains_stresses.
  destruct (Input_object.receiver_object inputs) as [|receiver rest];
    [congruence|].
  reflexivity.
Qed.

(** X1. The sums of the inner loop of [compute_strains_stresses] for a
    receiver whose centre is given: resolving the stress of each source and
    adding the three results gives what the specification describes,
    resolving once the sum of the stresses of all sources. *)
Theorem receiver_sums_resolve_once
        (params : Params.t) (inputs : Input_object.t)
        (receiver : Faults_object.t) (c0 c1 c2 : R) :
  Forall potency_ok (Input_object.source_object inputs) ->
  exists normal shear coulomb,
    run_dc3d.receiver_sums params inputs receiver [c0; c1; c2]
    = Ok (normal, shear, coulomb)
    /\ spec.resolve_once params inputs receiver [c0; c1; c2]
       = Ok (normal, shear, coulomb).
Proof.
  intros Hwf.
  unfold run_dc3d.receiver_sums, spec.resolve_once, spec.summed_stress.
  assert (Hinit :
            conversion_math.get_coulomb_stresses
              (np.zeros (3%nat, 3%nat)) (Faults_object.strike receiver)
              (Faults_object.rake receiver) (Faults_object.dipangle receiver)
              (Input_object.FRIC inputs) (Params.B params) = Ok (0, 0, 0))
    by apply resolver_zero.
  assert (Hshape : shaped 3 3 (np.zeros (3%nat, 3%nat)))
    by apply shaped_3_3_intro.
  revert Hinit Hshape.
  generalize (np.zeros (3%nat, 3%nat)) as total.
  generalize (0, 0, 0) as sums.
  induction Hwf as [|source sources Hsrc _ IH]; intros sums total Hsums Htotal.
  - destruct sums as [[ns ss] cs]. exists ns, ss, cs. cbn. now split.
  - destruct sums as [[ns ss] cs]. cbn [for_each getitem nth_error bind].
    rewrite (one_fault_refines_spec source c0 c1 c2 params Hsrc).
    destruct (source_evaluator_shape source c0 c1 c2 params)
      as (G & a & b & c & -> & HG).
    cbn [bind].
    destruct (get_strain_tensor_3_3 G HG) as (S & -> & HS). cbn [bind].
    destruct (get_stress_tensor_3_3 S (Params.lame1 params) (Params.mu params)
                                    HS) as (T & -> & HT).
    cbn [bind].
    unfold conversion_math.get_coulomb_stresses in *.
    destruct (resolver_additive
                T total
                (get_strike_vector (Faults_object.strike receiver))
                (get_dip_vector (Faults_object.strike receiver)
                                (Faults_object.dipangle receiver))
                (get_plane_normal (Faults_object.strike receiver)
                                  (Faults_object.dipangle receiver))
                (Faults_object.rake receiver) (Input_object.FRIC inputs)
                (Params.B params) HT Htotal)
      as (C & [[n s] c'] & sums' & -> & HC & -> & Hsums' & Hadd).
    rewrite Hsums in Hsums'. injection Hsums' as <-.
    cbn [bind fst snd] in *.
    exact (IH (ns + n, ss + s, cs + c') C Hadd HC).
Qed.

End receiver_properties.

(** ** Examples *)

Lemma get_strain_tensor_symmetric_example :
  shaped 3 3 example.gradient
  /\ exists S,
      conversion_math.get_strain_tensor example.gradient = Ok S
      /\ shaped 3 3 S
      /\ (forall i j, (i < 3)%nat -> (j < 3)%nat ->
                      item S i j
                      = 0.5 * (item example.gradient i j
                               + item example.gradient j i))
      /\ (forall i j, (i < 3)%nat -> (j < 3)%nat -> item S i j = item S j i).
Proof.
  split.
  - apply shaped_3_3_intro.
  - apply (get_strain_tensor_symmetric example.gradient).
    apply shaped_3_3_intro.
Defined.

Lemma get_stress_tensor_isotropic_example :
  shaped 3 3 example.gradient
  /\ exists S,
      conversion_math.get_stress_tensor example.gradient 2 3 = Ok S
      /\ shaped 3 3 S
      /\ (forall i j, (i < 3)%nat -> (j < 3)%nat ->
            item S i j
            = if Nat.eqb i j
              then 2 * (item example.gradient 0 0 + item example.gradient 1 1
                        + item example.gradient 2 2)
                   + 2 * 3 * item example.gradient i j
              else 2 * 3 * item example.gradient i j)
      /\ (forall i j, (i < 3)%nat -> (j < 3)%nat ->
            item S i j
            = 2 * np.trace example.gradient * item identity3 i j
              + 2 * 3 * item example.gradient i j).
Proof.
  split.
  - apply shaped_3_3_intro.
  - apply (get_stress_tensor_isotropic example.gradient 2 3).
    apply shaped_3_3_intro.
Defined.

Lemma get_coulomb_stresses_formula_example :
  shaped 3 3 example.gradient
  /\ conversion_math.get_coulomb_stresses (fvf := example.geometry)
       example.gradient 0 180 90 0.4 0
     = Ok (let n := get_plane_normal
                      (fault_vector_functions := example.geometry) 0 90 in
           let traction := mat_vec3 example.gradient n in
           let effective_normal :=
             (dot3 n traction
              - ((item example.gradient 0 0 + item example.gradient 1 1
                  + item example.gradient 2 2) / 3) * 0) / 1000 in
           let shear :=
             fst (rotate2 (np.deg2rad 180)
                    (dot3 (get_strike_vector
                             (fault_vector_functions := example.geometry) 0)
                          traction,
                     dot3 (get_dip_vector
                             (fault_vector_functions := example.geometry)
                             0 90)
                          traction))
             / 1000 in
           (effective_normal, shear, shear + 0.4 * effective_normal)).
Proof.
  split.
  - apply shaped_3_3_intro.
  - apply (@get_coulomb_stresses_formula example.geometry
             example.gradient 0 180 90 0.4 0).
    apply shaped_3_3_intro.
Defined.

Lemma source_evaluator_dispatch_example :
  potency_ok example.point_source
  /\ run_dc3d.compute_strains_stresses_from_one_fault
       (fvf := example.geometry) (okada := example.solver)
       example.point_source 3 4 0 example.params
     = Ok (spec.source_evaluator
             (fvf := example.geometry) (okada := example.solver)
             example.point_source 3 4 0 example.params).
Proof.
  split.
  - right. cbn. lia.
  - apply (@source_evaluator_dispatch example.geometry example.solver
             example.point_source 3 4 0 example.params).
    right. cbn. lia.
Defined.

Lemma compute_surface_disp_point_no_source_example :
  Input_object.source_object (example.inputs [] [example.receiver]) = []
  /\ run_dc3d.compute_surface_disp_point
       (fvf := example.geometry) (okada := example.solver)
       example.params (example.inputs [] [example.receiver]) 3 4
     = Ok (Scalar 0, Scalar 0, Scalar 0, [[0; 0; 0]; [0; 0; 0]; [0; 0; 0]]).
Proof.
  split.
  - reflexivity.
  - apply (@compute_surface_disp_point_no_source example.geometry
             example.solver example.params
             (example.inputs [] [example.receiver]) 3 4).
    reflexivity.
Defined.

Lemma empty_inputs_short_circuit_example :
  Input_object.receiver_object (example.inputs [example.source] []) = []
  /\ run_dc3d.compute_strains_stresses
       (fvf := example.geometry) (okada := example.solver)
       example.params (example.inputs [example.source] []) = Ok ([], [], [])
  /\ run_dc3d.compute_ll_strain
       (fvf := example.geometry) (okada := example.solver)
       example.params (example.inputs [example.source] []) NoStrainPoints
     = Ok None
  /\ run_dc3d.compute_ll_strain
       (fvf := example.geometry) (okada := example.solver)
       example.params (example.inputs [example.source] []) (StrainPoints [] [])
     = Ok (Some []).
Proof.
  split.
  - reflexivity.
  - apply (@empty_inputs_short_circuit example.geometry example.solver
             example.params (example.inputs [example.source] [])).
    reflexivity.
Defined.

Lemma example_sources_ok :
  Forall potency_ok [example.source; example.point_source].
Proof.
  constructor; [left; reflexivity|].
  constructor; [right; cbn; lia | constructor].
Qed.

Lemma compute_ll_def_model_points_example :
  Input_object.source_object
    (example.inputs [example.source; example.point_source] []) <> []
  /\ Forall potency_ok
       (Input_object.source_object
          (example.inputs [example.source; example.point_source] []))
  /\ exists model_disp_points,
      run_dc3d.compute_ll_def
        (fvf := example.geometry) (okada := example.solver)
        example.params
        (example.inputs [example.source; example.point_source] [])
        [example.station]
      = Ok model_disp_points
      /\ Forall2
           (fun point model =>
              Disp_Points.lon model = Disp_Points.lon point
              /\ Disp_Points.lat model = Disp_Points.lat point
              /\ Disp_Points.Se_obs model = Tuple0
              /\ Disp_Points.Sn_obs model = Tuple0
              /\ Disp_Points.Su_obs model = Tuple0
              /\ Disp_Points.name model = Tuple0
              /\ exists u v w strain,
                  let xy := latlon2xy
                              (fault_vector_functions := example.geometry)
                              (Disp_Points.lon point) (Disp_Points.lat point)
                              (-115) 33 in
                  run_dc3d.compute_surface_disp_point
                    (fvf := example.geometry) (okada := example.solver)
                    example.params
                    (example.inputs [example.source; example.point_source] [])
                    (fst xy) (snd xy)
                  = Ok (Array1 [u], Array1 [v], Array1 [w], strain)
                  /\ Disp_Points.dE_obs model = Float u
                  /\ Disp_Points.dN_obs model = Float v
                  /\ Disp_Points.dU_obs model = Float w)
           [example.station] model_disp_points.
Proof.
  split; [discriminate|]. split; [exact example_sources_ok|].
  apply (@compute_ll_def_model_points example.geometry example.solver
           example.params
           (example.inputs [example.source; example.point_source] [])
           [example.station]).
  - discriminate.
  - exact example_sources_ok.
Defined.

(** C5, as the claim words it, fails: the station [P494] comes back
    without its name and without its uncertainty; the observed values do
    not pass through. *)
Lemma compute_ll_def_drops_observations :
  exists model,
    run_dc3d.compute_ll_def (fvf := example.geometry) (okada := example.solver)
      example.params (example.inputs [example.source] []) [example.station]
    = Ok [model]
    /\ Disp_Points.name model <> Disp_Points.name example.station
    /\ Disp_Points.Se_obs model <> Disp_Points.Se_obs example.station
    /\ Disp_Points.name example.station = Str "P494"
    /\ Disp_Points.name model = Tuple0
    /\ Disp_Points.Se_obs example.station = Float 0.0005
    /\ Disp_Points.Se_obs model = Tuple0.
Proof.
  eexists. split; [reflexivity|].
  split; [discriminate|]. split; [discriminate|]. repeat split.
Qed.

Lemma compute_ll_def_no_source_example :
  Input_object.source_object (example.inputs [] []) = []
  /\ run_dc3d.compute_ll_def
       (fvf := example.geometry) (okada := example.solver)
       example.params (example.inputs [] []) [example.station]
     = Raise TypeError.
Proof.
  split; [reflexivity|].
  apply (@compute_ll_def_no_source example.geometry example.solver
           example.params (example.inputs [] []) example.station []).
  reflexivity.
Defined.

Lemma example_receiver_enough :
  Forall (enough_entries (fvf := example.geometry)
                         (f64 := example.exact_arange) example.params)
         (Input_object.receiver_object
            (example.inputs [example.source] [example.receiver])).
Proof.
  constructor; [|constructor].
  apply exact_enough_entries; cbn; [lia | lia | lra].
Qed.

Lemma example_counts :
  (1 <= Params.strike_num_receivers example.params)%Z
  /\ (1 <= Params.dip_num_receivers example.params)%Z
  /\ ~ (Params.strike_num_receivers example.params = 1%Z
        /\ Params.dip_num_receivers example.params = 1%Z).
Proof. cbn. split; [lia|]. split; [lia|]. intros [H _]. discriminate H. Qed.



Lemma compute_strains_stresses_raises_example :
  Input_object.receiver_object
    (example.inputs [example.source] [example.receiver]) <> []
  /\ run_dc3d.compute_strains_stresses
       (fvf := example.geometry) (okada := example.solver)
       example.params (example.inputs [example.source] [example.receiver])
     = Raise AttributeError.
Proof.
  split; [discriminate|].
  apply (@compute_strains_stresses_raises example.geometry example.solver
           example.params
           (example.inputs [example.source] [example.receiver])).
  discriminate.
Defined.

Lemma receiver_sums_resolve_once_example :
  Forall potency_ok
    (Input_object.source_object
       (example.inputs [example.source; example.point_source]
                       [example.receiver]))
  /\ exists normal shear coulomb,
      run_dc3d.receiver_sums
        (fvf := example.geometry) (okada := example.solver)
        example.params
        (example.inputs [example.source; example.point_source]
                        [example.receiver])
        example.receiver [5; 2; 5]
      = Ok (normal, shear, coulomb)
      /\ spec.resolve_once
           (fvf := example.geometry) (okada := example.solver)
           example.params
           (example.inputs [example.source; example.point_source]
                           [example.receiver])
           example.receiver [5; 2; 5]
         = Ok (normal, shear, coulomb).
Proof.
  split; [exact example_sources_ok|].
  apply (@receiver_sums_resolve_once example.geometry example.solver
           example.params
           (example.inputs [example.source; example.point_source]
                           [example.receiver])
           example.receiver 5 2 5).
  exact example_sources_ok.
Defined.

(** * Further properties of the code *)

(** ** Elastic parameters *)

(** X3. For a positive shear modulus and a non-negative first Lame
    parameter, [get_poissons_ratio_and_alpha] returns a Poisson's ratio in
    [[0, 1/2)] and an [alpha] in [[1/2, 1)], related by
    [alpha = 1 / (2 * (1 - nu))]. *)
Theorem get_poissons_ratio_and_alpha_range (mu lame1 : R) :
  0 < mu -> 0 <= lame1 ->
  exists nu alpha,
    conversion_math.get_poissons_ratio_and_alpha mu lame1 = pyx.Ok (nu, alpha)
    /\ 0 <= nu < 1 / 2
    /\ 1 / 2 <= alpha < 1
    /\ alpha = 1 / (2 * (1 - nu)).
Proof.
  intros Hmu Hl.
  unfold conversion_math.get_poissons_ratio_and_alpha, pyx.div.
  destruct (Req_dec_T (2 * (lame1 + mu)) 0) as [H0 | H0]; [lra|].
  destruct (Req_dec_T (lame1 + 2 * mu) 0) as [H1 | H1]; [lra|].
  cbn. do 2 eexists. split; [reflexivity|].
  assert (Hnu : lame1 / (2 * (lame1 + mu)) * (2 * (lame1 + mu)) = lame1)
    by (field; lra).
  assert (Hal : (lame1 + mu) / (lame1 + 2 * mu) * (lame1 + 2 * mu)
                = lame1 + mu) by (field; lra).
  set (nu := lame1 / (2 * (lame1 + mu))) in *.
  set (alpha := (lame1 + mu) / (lame1 + 2 * mu)) in *.
  assert (Hnu0 : 0 <= nu) by (apply Rnot_lt_le; intro; nra).
  assert (Hnu1 : nu < 1 / 2) by (apply Rnot_le_lt; intro; nra).
  split; [lra|].
  split.
  - split; [apply Rnot_lt_le; intro; nra | apply Rnot_le_lt; intro; nra].
  - unfold alpha, nu. field. repeat split; lra.
Qed.

(** ** More tensor math *)

(** X4. The strain of an antisymmetric 3x3 displacement gradient (a rigid
    rotation) is the zero tensor. *)
Theorem get_strain_tensor_rigid_rotation (G : np.matrix) :
  shaped 3 3 G -> antisymmetric3 G ->
  conversion_math.get_strain_tensor G
  = Ok [[0; 0; 0]; [0; 0; 0]; [0; 0; 0]].
Proof.
  intros HG Hanti. as_3_3 G HG.
  assert (H00 := Hanti 0%nat 0%nat). assert (H01 := Hanti 0%nat 1%nat).
  assert (H02 := Hanti 0%nat 2%nat). assert (H11 := Hanti 1%nat 1%nat).
  assert (H12 := Hanti 1%nat 2%nat). assert (H22 := Hanti 2%nat 2%nat).
  cbn in H00, H01, H02, H11, H12, H22.
  specialize (H00 ltac:(lia) ltac:(lia)). specialize (H01 ltac:(lia) ltac:(lia)).
  specialize (H02 ltac:(lia) ltac:(lia)). specialize (H11 ltac:(lia) ltac:(lia)).
  specialize (H12 ltac:(lia) ltac:(lia)). specialize (H22 ltac:(lia) ltac:(lia)).
  cbn. repeat (f_equal; try lra).
Qed.

(** X5. [get_strain_tensor] is a projection on the symmetric 3x3 arrays:
    applied to its own result it returns it unchanged, and a symmetric
    gradient is its own strain. *)
Theorem get_strain_tensor_projection (G : np.matrix) :
  shaped 3 3 G ->
  exists S,
    conversion_math.get_strain_tensor G = Ok S
    /\ conversion_math.get_strain_tensor S = Ok S
    /\ (symmetric3 G -> S = G).
Proof.
  intros HG. as_3_3 G HG.
  eexists. split; [reflexivity|]. split.
  - cbn. repeat (f_equal; try lra).
  - intros Hsym.
    assert (H01 := Hsym 0%nat 1%nat ltac:(lia) ltac:(lia)).
    assert (H02 := Hsym 0%nat 2%nat ltac:(lia) ltac:(lia)).
    assert (H12 := Hsym 1%nat 2%nat ltac:(lia) ltac:(lia)).
    cbn in H01, H02, H12.
    repeat (f_equal; try lra).
Qed.

(** X6. The trace of [get_stress_tensor] is hard-wired to the entries
    [[0][0]], [[1][1]] and [[2][2]]: a 1x1 or a 2x2 strain raises
    [IndexError]. *)
Theorem get_stress_tensor_small (e : np.matrix) (n : nat) (lamda mu : R) :
  shaped n n e -> (1 <= n < 3)%nat ->
  conversion_math.get_stress_tensor e lamda mu = Raise IndexError.
Proof.
  intros [Hlen Hrows] Hn.
  assert (Hcases : n = 1%nat \/ n = 2%nat) by lia.
  destruct Hcases as [-> | ->].
  - destruct e as [|r0 [|r1 e]]; try discriminate Hlen.
    inversion Hrows as [|? ? H0 _]; subst.
    destruct r0 as [|a [|b r0]]; try discriminate H0.
    reflexivity.
  - destruct e as [|r0 [|r1 [|r2 e]]]; try discriminate Hlen.
    inversion Hrows as [|? ? H0 Hrows1]; subst.
    inversion Hrows1 as [|? ? H1 _]; subst.
    destruct r0 as [|a [|b [|c r0]]]; try discriminate H0.
    destruct r1 as [|d [|f [|g r1]]]; try discriminate H1.
    reflexivity.
Qed.

(** X7. Hooke's law can be inverted: for [mu <> 0] and
    [3 * lamda + 2 * mu <> 0] the strain is recovered from the stress that
    [get_stress_tensor] returns, as
    [(S - lamda / (3 * lamda + 2 * mu) * tr(S) * I) / (2 * mu)], and
    [tr(S) = (3 * lamda + 2 * mu) * tr(e)]. *)
Theorem get_stress_tensor_invertible (e : np.matrix) (lamda mu : R) :
  shaped 3 3 e -> mu <> 0 -> 3 * lamda + 2 * mu <> 0 ->
  exists S,
    conversion_math.get_stress_tensor e lamda mu = Ok S
    /\ np.trace S = (3 * lamda + 2 * mu) * np.trace e
    /\ forall i j, (i < 3)%nat -> (j < 3)%nat ->
         item e i j
         = (item S i j
            - lamda / (3 * lamda + 2 * mu) * np.trace S * item identity3 i j)
           / (2 * mu).
Proof.
  intros He Hmu Hk. as_3_3 e He.
  eexists. split; [reflexivity|]. split.
  - cbn. lra.
  - intros i j Hi Hj; index3 i Hi; index3 j Hj; cbn; field; split; assumption.
Qed.

(** X8. The stress computed from the strain of any 3x3 displacement
    gradient is a symmetric 3x3 array. *)
Theorem stress_of_gradient_symmetric (G : np.matrix) (lamda mu : R) :
  shaped 3 3 G ->
  exists S T,
    conversion_math.get_strain_tensor G = Ok S
    /\ conversion_math.get_stress_tensor S lamda mu = Ok T
    /\ shaped 3 3 T /\ symmetric3 T.
Proof.
  intros HG. as_3_3 G HG.
  do 2 eexists. split; [reflexivity|]. split; [reflexivity|].
  split; [apply shaped_3_3_intro|].
  intros i j Hi Hj; index3 i Hi; index3 j Hj; cbn; lra.
Qed.

(** ** More on the Coulomb resolver *)

(** X9. Sign convention: for a hydrostatic stress [p * I] and a receiver
    whose normal is a unit vector orthogonal to its strike and dip vectors,
    the resolver returns no shear, the effective normal stress
    [p * (1 - B) / 1000] (negative, clamping, for a compression [p < 0]
    and [B < 1]) and the Coulomb stress [friction * effectiveNormal]. *)
Theorem resolver_hydrostatic (p rake friction B : R) (s d n : vec3) :
  dot3 n n = 1 -> dot3 s n = 0 -> dot3 d n = 0 ->
  conversion_math.get_coulomb_stresses_internal
    (hydrostatic p) (array3 s) rake (array3 d) (array3 n) friction B
  = Ok (p * (1 - B) / 1000, 0, friction * (p * (1 - B) / 1000)).
Proof.
  intros Hn Hs Hd.
  rewrite (get_coulomb_stresses_internal_formula
             (hydrostatic p) s d n rake friction B
             (shaped_3_3_intro _ _ _ _ _ _ _ _ _)).
  destruct s as [[s0 s1] s2], d as [[d0 d1] d2], n as [[n0 n1] n2].
  cbn in *.
  assert (Hnormal : n0 * (p * n0 + 0 * n1 + 0 * n2)
                    + n1 * (0 * n0 + p * n1 + 0 * n2)
                    + n2 * (0 * n0 + 0 * n1 + p * n2) = p).
  { transitivity (p * (n0 * n0 + n1 * n1 + n2 * n2)); [ring|].
    rewrite Hn. ring. }
  assert (Hstrike : s0 * (p * n0 + 0 * n1 + 0 * n2)
                    + s1 * (0 * n0 + p * n1 + 0 * n2)
                    + s2 * (0 * n0 + 0 * n1 + p * n2) = 0).
  { transitivity (p * (s0 * n0 + s1 * n1 + s2 * n2)); [ring|].
    rewrite Hs. ring. }
  assert (Hdip : d0 * (p * n0 + 0 * n1 + 0 * n2)
                 + d1 * (0 * n0 + p * n1 + 0 * n2)
                 + d2 * (0 * n0 + 0 * n1 + p * n2) = 0).
  { transitivity (p * (d0 * n0 + d1 * n1 + d2 * n2)); [ring|].
    rewrite Hd. ring. }
  rewrite Hnormal, Hstrike, Hdip.
  f_equal. repeat (f_equal; try field).
Qed.

Lemma deg2rad_plus_180 (a : R) : np.deg2rad (a + 180) = np.deg2rad a + PI.
Proof. unfold np.deg2rad. field. Qed.

Lemma deg2rad_opp (a : R) : np.deg2rad (- a) = - np.deg2rad a.
Proof. unfold np.deg2rad. field. Qed.

Lemma deg2rad_plus (a b : R) :
  np.deg2rad (a + b) = np.deg2rad a + np.deg2rad b.
Proof. unfold np.deg2rad. field. Qed.

(** X10. Turning the rake by 180 degrees changes the sign of the resolved
    shear stress and leaves the effective normal stress unchanged. *)
Theorem resolver_opposite_rake {fvf : fault_vector_functions}
        (tau : np.matrix) (strike rake dip friction B : R) :
  shaped 3 3 tau ->
  exists normal shear,
    conversion_math.get_coulomb_stresses tau strike rake dip friction B
    = Ok (normal, shear, shear + friction * normal)
    /\ conversion_math.get_coulomb_stresses tau strike (rake + 180) dip
                                             friction B
       = Ok (normal, - shear, - shear + friction * normal).
Proof.
  intros Htau. unfold conversion_math.get_coulomb_stresses.
  rewrite !(get_coulomb_stresses_internal_formula tau _ _ _ _ friction B Htau).
  do 2 eexists. split; [reflexivity|].
  unfold rotate2. cbn [fst snd].
  rewrite deg2rad_plus_180, neg_cos, neg_sin.
  f_equal. repeat (f_equal; try field).
Qed.

(** ** Rotation of points *)

(** X11. Round trip: [rotate_points] by an angle and then by the opposite
    angle returns the point it started from, and the rotated point is as
    far from the origin as the original. *)
Theorem rotate_points_round_trip (x y degrees : R) :
  exists x' y',
    conversion_math.rotate_points x y degrees = Ok ([x'], [y'])
    /\ conversion_math.rotate_points x' y' (- degrees) = Ok ([x], [y])
    /\ x' * x' + y' * y' = x * x + y * y.
Proof.
  do 2 eexists. split; [reflexivity|].
  pose proof (sin2_cos2 (np.deg2rad degrees)) as H. unfold Rsqr in H.
  set (c := cos (np.deg2rad degrees)) in *.
  set (s := sin (np.deg2rad degrees)) in *.
  split.
  - unfold conversion_math.rotate_points.
    rewrite deg2rad_opp, cos_neg, sin_neg. fold c s. cbn.
    f_equal. f_equal; f_equal.
    + transitivity (x * (s * s + c * c)); [ring | rewrite H; ring].
    + transitivity (y * (s * s + c * c)); [ring | rewrite H; ring].
  - cbn. fold c s.
    transitivity ((x * x + y * y) * (s * s + c * c));
      [ring | rewrite H; ring].
Qed.

(** X12. Rotating by [a] and then by [b] degrees is rotating by [a + b]
    degrees. *)
Theorem rotate_points_compose (x y a b : R) :
  exists x' y',
    conversion_math.rotate_points x y a = Ok ([x'], [y'])
    /\ conversion_math.rotate_points x' y' b
       = conversion_math.rotate_points x y (a + b).
Proof.
  do 2 eexists. split; [reflexivity|].
  unfold conversion_math.rotate_points.
  rewrite deg2rad_plus, cos_plus, sin_plus. cbn.
  f_equal. f_equal; f_equal; ring.
Qed.

Lemma rotate_list_loop (degrees : R) (l : list (R * R)) :
  forall ax ay : list np.vector,
  exists bx by_,
    for_each l (ax, ay)
      (fun xy '(xprime_list, yprime_list) =>
       '(xprime, yprime) <-
         conversion_math.rotate_points (fst xy) (snd xy) degrees ;;
       Ok (xprime_list ++ [xprime], yprime_list ++ [yprime]))
    = Ok (ax ++ bx, ay ++ by_)
    /\ length bx = length l /\ length by_ = length l
    /\ Forall2 (fun xy p =>
                  conversion_math.rotate_points (fst xy) (snd xy) degrees
                  = Ok p)
               l (combine bx by_).
Proof.
  induction l as [|[x y] l IH]; intros ax ay.
  - exists [], []. rewrite !app_nil_r. repeat split; constructor.
  - cbn [for_each fst snd].
    destruct (conversion_math.rotate_points x y degrees) as [[x' y']|e] eqn:Hrot;
      [|discriminate Hrot].
    cbn [bind].
    destruct (IH (ax ++ [x']) (ay ++ [y'])) as (bx & by_ & Hrun & Hbx & Hby & HF).
    exists (x' :: bx), (y' :: by_).
    rewrite Hrun, <- !app_assoc. cbn.
    repeat split; try lia. constructor; assumption.
Qed.

(** X13. [rotate_list_of_points] pairs the two lists as [zip] does: it
    returns two lists as long as the shorter input, whose entries are
    what [rotate_points] returns for the paired coordinates, in order;
    what is left of the longer list is ignored. *)
Theorem rotate_list_of_points_zip (xlist ylist : list R) (degrees : R) :
  exists xprime_list yprime_list,
    conversion_math.rotate_list_of_points xlist ylist degrees
    = Ok (xprime_list, yprime_list)
    /\ length xprime_list = Nat.min (length xlist) (length ylist)
    /\ length yprime_list = Nat.min (length xlist) (length ylist)
    /\ Forall2 (fun xy p =>
                  conversion_math.rotate_points (fst xy) (snd xy) degrees
                  = Ok p)
               (combine xlist ylist) (combine xprime_list yprime_list).
Proof.
  unfold conversion_math.rotate_list_of_points.
  destruct (rotate_list_loop degrees (combine xlist ylist) [] [])
    as (bx & by_ & Hrun & Hbx & Hby & HF).
  exists bx, by_. rewrite Hrun. cbn [app].
  rewrite Hbx, Hby, length_combine. repeat split. exact HF.
Qed.

(** ** More on the subfault splitter *)

Section more_properties.
Context {fvf : fault_vector_functions} {f64 : np.arange_float64}.

(** X17. When the receivers are split (counts at least 1, not both 1) and
    one receiver has its top below its bottom, the splitter raises
    [IndexError]. *)
Theorem split_subfault_receivers_inverted
        (params : Params.t) (inputs : Input_object.t) :
  (1 <= Params.strike_num_receivers params)%Z ->
  (1 <= Params.dip_num_receivers params)%Z ->
  ~ (Params.strike_num_receivers params = 1%Z
     /\ Params.dip_num_receivers params = 1%Z) ->
  Exists (fun fault => Faults_object.bottom fault < Faults_object.top fault)
         (Input_object.receiver_object inputs) ->
  run_dc3d.split_subfault_receivers params inputs = Raise IndexError.
Proof. exact (split_inverted_raises params inputs). Qed.

(** X18. Tiling. When the receivers are split and all arrays hold the
    entries that the loops read, the patches of a receiver come in
    [dip_split] rows of [strike_split] patches; the patches of row [j]
    span the depths from [top + j * (bottom - top) / dip_split] to
    [top + (j + 1) * (bottom - top) / dip_split] (over the reals), carry
    the origin of the inputs, and each patch of a row starts where the
    patch before it finishes. *)
Theorem split_subfault_receivers_tiling
        (params : Params.t) (inputs : Input_object.t) :
  let strike_split := Params.strike_num_receivers params in
  let dip_split := Params.dip_num_receivers params in
  (1 <= strike_split)%Z -> (1 <= dip_split)%Z ->
  ~ (strike_split = 1%Z /\ dip_split = 1%Z) ->
  Forall (enough_entries params) (Input_object.receiver_object inputs) ->
  exists grids : list (list (list Faults_object.t)),
    run_dc3d.split_subfault_receivers params inputs
    = Ok (with_receivers inputs (concat (map (@concat _) grids)))
    /\ Forall2
         (fun fault rows =>
            Forall2
              (fun j row =>
                 length row = Z.to_nat strike_split
                 /\ Forall (depth_slice inputs fault dip_split j) row
                 /\ chained row)
              (range dip_split) rows)
         (Input_object.receiver_object inputs) grids.
Proof.
  intros strike_split dip_split Hs Hd Hnot Hall.
  destruct (split_ok params inputs Hs Hd Hnot Hall) as (grids & Hrun & HG).
  exists grids. split; [exact Hrun|].
  eapply Forall2_impl; [|exact HG]. cbn. intros fault rows Hrows.
  eapply Forall2_impl; [|exact Hrows]. cbn. tauto.
Qed.

(** X14. With a dip count of 0 or less no row is cut: the splitter
    returns an empty receiver list, whatever the receivers, except that
    with a dip count of 0 and a receiver whose top and bottom differ it
    raises [ZeroDivisionError]. *)
Theorem split_subfault_receivers_no_rows
        (params : Params.t) (inputs : Input_object.t) :
  (Params.dip_num_receivers params <= 0)%Z ->
  run_dc3d.split_subfault_receivers params inputs
  = if Z.eqb (Params.dip_num_receivers params) 0
       && existsb (fun fault =>
                     if Req_dec_T (Faults_object.top fault)
                                  (Faults_object.bottom fault)
                     then false else true)
                  (Input_object.receiver_object inputs)
    then Raise ZeroDivisionError
    else Ok (with_receivers inputs []).
Proof.
  intros Hd. rewrite split_subfault_receivers_loop.
  destruct (Z.eqb_spec (Params.dip_num_receivers params) 1) as [E | _];
    [lia|].
  rewrite andb_false_r.
  rewrite (split_no_rows_loop params inputs _ [] Hd).
  destruct (_ && _); reflexivity.
Qed.

End more_properties.
Lemma symmetric3_intro (a b c e f i : R) :
  symmetric3 [[a; b; c]; [b; e; f]; [c; f; i]].
Proof. intros k l Hk Hl; index3 k Hk; index3 l Hl; reflexivity. Qed.

Lemma symmetric3_inv (M : np.matrix) :
  shaped 3 3 M -> symmetric3 M ->
  exists a b c e f i, M = [[a; b; c]; [b; e; f]; [c; f; i]].
Proof.
  intros HM Hsym. as_3_3 M HM.
  assert (H01 := Hsym 0%nat 1%nat ltac:(lia) ltac:(lia)).
  assert (H02 := Hsym 0%nat 2%nat ltac:(lia) ltac:(lia)).
  assert (H12 := Hsym 1%nat 2%nat ltac:(lia) ltac:(lia)).
  cbn in H01, H02, H12. subst.
  now do 6 eexists.
Qed.

Lemma get_strain_tensor_3_3_sym (G : np.matrix) :
  shaped 3 3 G ->
  exists S, conversion_math.get_strain_tensor G = Ok S
            /\ shaped 3 3 S /\ symmetric3 S.
Proof.
  intros HG. as_3_3 G HG. eexists. split; [reflexivity|].
  split; [apply shaped_3_3_intro|].
  intros k l Hk Hl; index3 k Hk; index3 l Hl; cbn; lra.
Qed.

Lemma np_add_3_3_sym (A B : np.matrix) :
  shaped 3 3 A -> symmetric3 A -> shaped 3 3 B -> symmetric3 B ->
  exists C, np.add A B = Ok C /\ shaped 3 3 C /\ symmetric3 C.
Proof.
  intros HA SA HB SB.
  destruct (symmetric3_inv A HA SA) as (a & b & c & e & f & i & ->).
  destruct (symmetric3_inv B HB SB) as (a' & b' & c' & e' & f' & i' & ->).
  eexists. split; [reflexivity|].
  split; [apply shaped_3_3_intro | apply symmetric3_intro].
Qed.

Lemma for_each_app {A S : Type} (xs ys : list A) (s : S)
      (body : A -> S -> result S) :
  for_each (xs ++ ys) s body
  = bind (for_each xs s body) (fun s' => for_each ys s' body).
Proof.
  revert s. induction xs as [|x xs IH]; intros s; cbn; [reflexivity|].
  destruct (body x s); cbn; [apply IH | reflexivity].
Qed.

(** ** Strain at points *)

Section strain_mode.
Context {fvf : fault_vector_functions} {okada : okada_wrapper}.

Lemma compute_surface_disp_point_strain
      (params : Params.t) (inputs : Input_object.t) (x y : R) :
  Forall potency_ok (Input_object.source_object inputs) ->
  exists u v w strain,
    run_dc3d.compute_surface_disp_point params inputs x y
    = Ok (u, v, w, strain)
    /\ shaped 3 3 strain /\ symmetric3 strain
    /\ (Input_object.source_object inputs = [] ->
        strain = [[0; 0; 0]; [0; 0; 0]; [0; 0; 0]])
    /\ acc_ok u /\ acc_ok v /\ acc_ok w.
Proof.
  intros Hwf. unfold run_dc3d.compute_surface_disp_point.
  match goal with
  | |- exists u v w strain, for_each _ ?init ?body = _ /\ _ =>
      assert (Hloop : forall sources s,
                 Forall potency_ok sources -> state_ok s ->
                 symmetric3 (snd s) ->
                 exists s', for_each sources s body = Ok s'
                            /\ state_ok s' /\ symmetric3 (snd s'))
  end.
  { induction sources as [|source sources IH]; intros s Hsrcs Hs Hsym.
    - exists s. now split.
    - inversion Hsrcs as [|? ? Hsrc Hrest]; subst.
      destruct s as [[[u v] w] st]. destruct Hs as (Hu & Hv & Hw & Hst).
      cbn [snd] in Hsym. cbn [for_each].
      rewrite (one_fault_refines_spec source x y 0 params Hsrc).
      destruct (source_evaluator_shape source x y 0 params)
        as (G & a & b & c & -> & HG).
      cbn [bind].
      destruct (get_strain_tensor_3_3_sym G HG) as (S & -> & HS & SS).
      cbn [bind].
      destruct (np_add_3_3_sym S st HS SS Hst Hsym) as (St & -> & HSt & SSt).
      cbn [bind getitem nth_error].
      destruct (accumulator_add_single u a Hu) as (u' & -> & Hu').
      destruct (accumulator_add_single v b Hv) as (v' & -> & Hv').
      destruct (accumulator_add_single w c Hw) as (w' & -> & Hw').
      cbn [bind].
      apply IH; [exact Hrest | | exact SSt].
      unfold state_ok. split; [now right|]. split; [now right|].
      split; [now right | assumption]. }
  destruct (Hloop (Input_object.source_object inputs)
                  (Scalar 0, Scalar 0, Scalar 0, np.zeros (3%nat, 3%nat))
                  Hwf)
    as ([[[u v] w] st] & Hrun & (Hu & Hv & Hw & Hst) & Hsym).
  { unfold state_ok.
    split; [left; eexists; reflexivity|].
    split; [left; eexists; reflexivity|].
    split; [left; eexists; reflexivity|].
    apply shaped_3_3_intro. }
  { apply symmetric3_intro. }
  exists u, v, w, st. split; [exact Hrun|].
  split; [exact Hst|]. split; [exact Hsym|].
  split; [|auto].
  intros Hnil. rewrite Hnil in Hrun. cbn in Hrun. congruence.
Qed.

Lemma strain_points_loop (inputs : Input_object.t) (lon lat : list R)
      (idxs : list nat) :
  (forall i, In i idxs -> (i < length lon)%nat /\ (i < length lat)%nat) ->
  forall x y : list R,
  exists bx by_,
    for_each idxs (x, y)
      (fun i '(x, y) =>
       loni <- getitem lon i ;;
       lati <- getitem lat i ;;
       let '(xi, yi) :=
         latlon2xy loni lati (Input_object.zerolon inputs)
                   (Input_object.zerolat inputs) in
       Ok (x ++ [xi], y ++ [yi]))
    = Ok (x ++ bx, y ++ by_)
    /\ length bx = length idxs /\ length by_ = length idxs.
Proof.
  induction idxs as [|i idxs IH]; intros Hin x y.
  - exists [], []. rewrite !app_nil_r. now repeat split.
  - destruct (Hin i (or_introl eq_refl)) as [Hlon Hlat].
    cbn [for_each].
    destruct (getitem_in_range lon i Hlon) as (loni & ->).
    destruct (getitem_in_range lat i Hlat) as (lati & ->).
    cbn [bind].
    destruct (latlon2xy loni lati _ _) as [xi yi].
    cbn [bind].
    destruct (IH (fun k Hk => Hin k (or_intror Hk)) (x ++ [xi]) (y ++ [yi]))
      as (bx & by_ & Hrun & Hbx & Hby).
    exists (xi :: bx), (yi :: by_). rewrite Hrun, <- !app_assoc.
    cbn. repeat split; lia.
Qed.

Lemma compute_ll_strain_ok
        (params : Params.t) (inputs : Input_object.t) (lon lat : list R) :
  Forall potency_ok (Input_object.source_object inputs) ->
  (length lon <= length lat)%nat ->
  exists tensors,
    run_dc3d.compute_ll_strain params inputs (StrainPoints lon lat)
    = Ok (Some tensors)
    /\ length tensors = length lon
    /\ Forall (fun T => shaped 3 3 T /\ symmetric3 T) tensors
    /\ (Input_object.source_object inputs = [] ->
        Forall (eq [[0; 0; 0]; [0; 0; 0]; [0; 0; 0]]) tensors).
Proof.
  intros Hwf Hlen. unfold run_dc3d.compute_ll_strain.
  destruct (strain_points_loop inputs lon lat
              (range (Z.of_nat (length lon)))) with (x := @nil R) (y := @nil R)
    as (x & y & Hxy & Hx & Hy).
  { intros i Hi. unfold range in Hi. rewrite Nat2Z.id in Hi.
    apply in_seq in Hi. lia. }
  rewrite Hxy. cbn [bind app].
  unfold range in Hx, Hy. rewrite length_seq, Nat2Z.id in Hx, Hy.
  match goal with
  | |- exists t, bind (for_each _ _ ?body) _ = _ /\ _ =>
      destruct (for_each_collect
                  (fun (_ : nat) T =>
                     (shaped 3 3 T /\ symmetric3 T)
                     /\ (Input_object.source_object inputs = [] ->
                         [[0; 0; 0]; [0; 0; 0]; [0; 0; 0]] = T))
                  body (range (Z.of_nat (length x))))
        with (acc := @nil np.matrix) as (tensors & Hrun & HF)
  end.
  - intros k acc Hk. unfold range in Hk. rewrite Nat2Z.id in Hk.
    apply in_seq in Hk.
    destruct (getitem_in_range x k) as (xk & ->); [lia|].
    destruct (getitem_in_range y k) as (yk & ->); [lia|].
    cbn [bind].
    destruct (compute_surface_disp_point_strain params inputs xk yk Hwf)
      as (u & v & w & strain & -> & Hshape & Hsym & Hzero & _).
    cbn [bind]. eexists. split; [reflexivity|].
    split; [now split|]. intros Hnil. symmetry. now apply Hzero.
  - exists tensors. rewrite Hrun. cbn [bind app]. split; [reflexivity|].
    split.
    + apply Forall2_length in HF. unfold range in HF.
      rewrite length_seq, Nat2Z.id in HF. lia.
    + split.
      * clear Hrun. induction HF as [|? ? ? ? [HP _] _ IH]; constructor; auto.
      * intros Hnil. clear Hrun.
        induction HF as [|? ? ? ? [_ HP] _ IH]; constructor; auto.
Qed.

(** X19. Strain mode. With well-formed sources and a latitude for every
    longitude, [compute_ll_strain] returns one strain tensor per strain
    point, each a symmetric 3x3 array; with no source every tensor is the
    zero array. *)
Theorem compute_ll_strain_tensors
        (params : Params.t) (inputs : Input_object.t) (lon lat : list R) :
  Forall potency_ok (Input_object.source_object inputs) ->
  (length lon <= length lat)%nat ->
  exists tensors,
    run_dc3d.compute_ll_strain params inputs (StrainPoints lon lat)
    = Ok (Some tensors)
    /\ length tensors = length lon
    /\ Forall (fun T => shaped 3 3 T /\ symmetric3 T) tensors
    /\ (Input_object.source_object inputs = [] ->
        Forall (eq [[0; 0; 0]; [0; 0; 0]; [0; 0; 0]]) tensors).
Proof. exact (compute_ll_strain_ok params inputs lon lat). Qed.

(** X20. With fewer latitudes than longitudes, [compute_ll_strain] raises
    [IndexError], whatever the sources: the loop runs over the longitudes
    and subscripts the latitudes. *)
Theorem compute_ll_strain_short_lat
        (params : Params.t) (inputs : Input_object.t) (lon lat : list R) :
  (length lat < length lon)%nat ->
  run_dc3d.compute_ll_strain params inputs (StrainPoints lon lat)
  = Raise IndexError.
Proof.
  intros Hlen. unfold run_dc3d.compute_ll_strain.
  unfold range at 1. rewrite Nat2Z.id.
  replace (length lon) with (length lat + (length lon - length lat))%nat by lia.
  rewrite seq_app, for_each_app.
  destruct (strain_points_loop inputs lon lat (seq 0 (length lat)))
    with (x := @nil R) (y := @nil R) as (x & y & Hxy & _ & _).
  { intros i Hi. apply in_seq in Hi. lia. }
  match goal with
  | |- context [for_each (seq 0 (length lat)) _ ?body] =>
      change (for_each (seq 0 (length lat)) ([], []) body)
        with (for_each (seq 0 (length lat)) (@nil R, @nil R) body)
  end.
  rewrite Hxy. cbn [bind app Nat.add].
  destruct (length lon - length lat)%nat as [|n] eqn:Hn; [lia|].
  cbn [seq for_each].
  destruct (getitem_in_range lon (length lat)) as (loni & ->); [lia|].
  unfold getitem at 1.
  replace (nth_error lat (length lat)) with (@None R)
    by (symmetry; apply nth_error_None; lia).
  reflexivity.
Qed.
End strain_mode.

(** ** Displacements on the grid *)

Lemma setitem_spec {A : Type} (d : A) (l : list A) (j : nat) (v : A) :
  (j < length l)%nat ->
  exists l', setitem l j v = Ok l'
             /\ length l' = length l
             /\ forall k, nth k l' d = if Nat.eqb k j then v else nth k l d.
Proof.
  revert j. induction l as [|a l IH]; intros j Hj; [cbn in Hj; lia|].
  destruct j as [|j].
  - exists (v :: l). split; [reflexivity|]. split; [reflexivity|].
    intros [|k]; reflexivity.
  - destruct (IH j) as (l' & Hset & Hlen & Hnth); [cbn in Hj; lia|].
    exists (a :: l'). cbn. rewrite Hset. cbn.
    split; [reflexivity|]. split; [now rewrite Hlen|].
    intros [|k]; [reflexivity | apply Hnth].
Qed.

Lemma shaped_row (r c : nat) (M : np.matrix) (i : nat) :
  shaped r c M -> (i < r)%nat -> length (nth i M []) = c.
Proof.
  intros [Hlen Hrows] Hi. rewrite Forall_forall in Hrows.
  apply Hrows, nth_In. lia.
Qed.

Lemma setitem2_spec (r c : nat) (M : np.matrix) (i j : nat) (v : R) :
  shaped r c M -> (i < r)%nat -> (j < c)%nat ->
  exists M', np.setitem2 M i j v = Ok M'
             /\ shaped r c M'
             /\ forall i' j',
                 item M' i' j'
                 = if Nat.eqb i' i && Nat.eqb j' j then v else item M i' j'.
Proof.
  intros HM Hi Hj. pose proof HM as [Hlen Hrows].
  pose proof (shaped_row r c M i HM Hi) as Hrow.
  unfold np.setitem2, getitem.
  destruct (nth_error M i) as [row|] eqn:Hnth;
    [|apply nth_error_None in Hnth; lia].
  apply (nth_error_nth _ _ []) in Hnth. rewrite Hnth in Hrow. cbn [bind].
  destruct (setitem_spec 0 row j v) as (row' & -> & Hlen' & Hnth'); [lia|].
  cbn [bind].
  destruct (setitem_spec [] M i row') as (M' & -> & HlenM & HnthM); [lia|].
  exists M'. split; [reflexivity|]. split.
  - split; [lia|]. apply Forall_forall. intros x Hx.
    destruct (In_nth _ _ [] Hx) as (k & Hk & <-).
    rewrite HnthM. destruct (Nat.eqb k i); [lia|].
    rewrite Forall_forall in Hrows. apply Hrows, nth_In. lia.
  - intros i' j'. unfold item. rewrite HnthM.
    destruct (Nat.eqb_spec i' i) as [-> | Hne]; cbn [andb].
    + rewrite Hnth'. now rewrite Hnth.
    + reflexivity.
Qed.

Lemma for_each_seq_inv {S : Type} (Inv : nat -> S -> Prop)
      (body : nat -> S -> result S) (n : nat) :
  (forall k s, (k < n)%nat -> Inv k s ->
               exists s', body k s = Ok s' /\ Inv (Datatypes.S k) s') ->
  forall s, Inv 0%nat s ->
  exists s', for_each (seq 0 n) s body = Ok s' /\ Inv n s'.
Proof.
  intros Hstep.
  assert (H : forall m a s, (a + m = n)%nat -> Inv a s ->
              exists s', for_each (seq a m) s body = Ok s' /\ Inv n s').
  { induction m as [|m IH]; intros a s Ham Hs.
    - exists s. replace n with a by lia. now split.
    - destruct (Hstep a s ltac:(lia) Hs) as (s1 & Hs1 & Hinv).
      cbn [seq for_each]. rewrite Hs1. cbn [bind].
      apply IH; [lia | exact Hinv]. }
  intros s Hs. apply (H n 0%nat s); [lia | exact Hs].
Qed.

Lemma zeros_shaped (r c : nat) : shaped r c (np.zeros (r, c)).
Proof.
  unfold np.zeros, shaped. cbn [fst snd]. rewrite repeat_length.
  split; [reflexivity|]. apply Forall_forall. intros x Hx.
  apply repeat_spec in Hx. subst. apply repeat_length.
Qed.

Lemma nth_map_default {A B : Type} (f : A -> B) (l : list A) (k : nat)
      (dA : A) (dB : B) :
  (k < length l)%nat -> nth k (map f l) dB = f (nth k l dA).
Proof.
  intros Hk. rewrite (nth_indep _ dB (f dA)) by (now rewrite length_map).
  apply map_nth.
Qed.

Lemma getitem2_item (r c : nat) (M : np.matrix) (i j : nat) :
  shaped r c M -> (i < r)%nat -> (j < c)%nat ->
  np.getitem2 M i j = Ok (item M i j).
Proof.
  intros HM Hi Hj. pose proof HM as [Hlen _].
  pose proof (shaped_row r c M i HM Hi) as Hrow.
  unfold np.getitem2, getitem, item.
  destruct (nth_error M i) as [row|] eqn:Hnth;
    [|apply nth_error_None in Hnth; lia].
  rewrite (nth_error_nth _ _ [] Hnth) in *. cbn [bind].
  destruct (nth_error row j) as [v|] eqn:Hv;
    [|apply nth_error_None in Hv; lia].
  now rewrite (nth_error_nth _ _ 0 Hv).
Qed.

Lemma meshgrid_spec (x y : np.vector) :
  shaped (length y) (length x) (fst (np.meshgrid x y))
  /\ shaped (length y) (length x) (snd (np.meshgrid x y))
  /\ forall ky kx, (ky < length y)%nat -> (kx < length x)%nat ->
       item (fst (np.meshgrid x y)) ky kx = nth kx x 0
       /\ item (snd (np.meshgrid x y)) ky kx = nth ky y 0.
Proof.
  unfold np.meshgrid. cbn [fst snd]. split; [|split].
  - split; [apply length_map|]. apply Forall_forall. intros r Hr.
    apply in_map_iff in Hr. now destruct Hr as (? & <- & _).
  - split; [apply length_map|]. apply Forall_forall. intros r Hr.
    apply in_map_iff in Hr. destruct Hr as (? & <- & _). apply length_map.
  - intros ky kx Hky Hkx. unfold item, np.vector in *.
    rewrite (nth_map_default (fun _ : R => x) y ky 0 []) by exact Hky.
    rewrite (nth_map_default (fun yv : R => map (fun _ : R => yv) x) y ky 0 [])
      by exact Hky.
    split; [reflexivity|].
    now rewrite (nth_map_default _ x kx 0 0) by exact Hkx.
Qed.

Lemma int_of_float_nonneg (r : R) : 0 <= r -> (0 <= int_of_float r)%Z.
Proof.
  intros Hr. unfold int_of_float.
  destruct (Rle_dec 0 r) as [_ | Hn]; [|contradiction].
  destruct (archimed r) as [Hup _].
  assert (H : 0 < IZR (up r)) by lra.
  apply lt_IZR in H. lia.
Qed.

Lemma linspace_spec (start stop : R) (num : Z) :
  (0 <= num)%Z ->
  exists x, np.linspace start stop num = Ok x
            /\ length x = Z.to_nat num
            /\ forall k, (k < Z.to_nat num)%nat ->
                 nth k x 0
                 = start + INR k * ((stop - start) / IZR (num - 1)).
Proof.
  intros Hnum. unfold np.linspace.
  destruct (Z.ltb_spec num 0); [lia|].
  eexists. split; [reflexivity|].
  split; [now rewrite length_map, length_seq|].
  intros k Hk. now rewrite nth_map_seq.
Qed.

Lemma accumulator_scalar_ok (a : accumulator) :
  acc_ok a -> accumulator_scalar a = Ok (stored a).
Proof. intros [[r ->] | [x ->]]; reflexivity. Qed.

Section grid_mode.
Context {fvf : fault_vector_functions} {okada : okada_wrapper}.

Lemma compute_grid_def_ok
        (params : Params.t) (inputs : Input_object.t) :
  let qx := (Input_object.finish_gridx inputs
             - Input_object.start_gridx inputs) / Input_object.xinc inputs in
  let qy := (Input_object.finish_gridy inputs
             - Input_object.start_gridy inputs) / Input_object.yinc inputs in
  let nx := Z.to_nat (int_of_float qx) in
  let ny := Z.to_nat (int_of_float qy) in
  Input_object.xinc inputs <> 0 -> Input_object.yinc inputs <> 0 ->
  0 <= qx -> 0 <= qy ->
  Forall potency_ok (Input_object.source_object inputs) ->
  exists x y x2d y2d u v w,
    run_dc3d.compute_grid_def params inputs
    = pyx.Ok (x, y, x2d, y2d, u, v, w)
    /\ length x = nx /\ length y = ny
    /\ (forall kx, (kx < nx)%nat ->
          nth kx x 0
          = Input_object.start_gridx inputs
            + INR kx * ((Input_object.finish_gridx inputs
                         - Input_object.start_gridx inputs)
                        / IZR (int_of_float qx - 1)))
    /\ (forall ky, (ky < ny)%nat ->
          nth ky y 0
          = Input_object.start_gridy inputs
            + INR ky * ((Input_object.finish_gridy inputs
                         - Input_object.start_gridy inputs)
                        / IZR (int_of_float qy - 1)))
    /\ shaped ny nx x2d /\ shaped ny nx y2d
    /\ shaped ny nx u /\ shaped ny nx v /\ shaped ny nx w
    /\ forall ky kx, (ky < ny)%nat -> (kx < nx)%nat ->
         item x2d ky kx = nth kx x 0 /\ item y2d ky kx = nth ky y 0
         /\ (item u ky kx, item v ky kx, item w ky kx)
            = grid_displacement params inputs (nth kx x 0) (nth ky y 0).
Proof.
  intros qx qy nx ny Hxinc Hyinc Hqx Hqy Hwf.
  unfold run_dc3d.compute_grid_def, pyx.div.
  destruct (Req_dec_T (Input_object.xinc inputs) 0) as [|_]; [contradiction|].
  destruct (Req_dec_T (Input_object.yinc inputs) 0) as [|_]; [contradiction|].
  cbn [pyx.bind]. fold qx qy.
  destruct (linspace_spec (Input_object.start_gridx inputs)
                          (Input_object.finish_gridx inputs)
                          (int_of_float qx) (int_of_float_nonneg qx Hqx))
    as (x & -> & Hxlen & Hxnth).
  destruct (linspace_spec (Input_object.start_gridy inputs)
                          (Input_object.finish_gridy inputs)
                          (int_of_float qy) (int_of_float_nonneg qy Hqy))
    as (y & -> & Hylen & Hynth).
  cbn [pyx.lift pyx.bind]. fold nx in Hxlen, Hxnth. fold ny in Hylen, Hynth.
  destruct (meshgrid_spec x y) as (Hx2d & Hy2d & Hmesh).
  destruct (np.meshgrid x y) as [x2d y2d]. cbn [fst snd] in Hx2d, Hy2d, Hmesh.
  rewrite Hxlen, Hylen in *.
  set (Inv := fun (rows : nat)
                  (s : np.matrix * np.matrix * np.matrix) =>
                let '(u, v, w) := s in
                shaped ny nx u /\ shaped ny nx v /\ shaped ny nx w
                /\ forall ky kx, (ky < rows)%nat -> (kx < nx)%nat ->
                     (item u ky kx, item v ky kx, item w ky kx)
                     = grid_displacement params inputs (nth kx x 0)
                                         (nth ky y 0)).
  assert (Hrows : fst (np.shape (np.zeros (ny, nx))) = ny)
    by (cbn; apply repeat_length).
  assert (Hcols : (0 < ny)%nat -> snd (np.shape (np.zeros (ny, nx))) = nx).
  { intros Hny. cbn. destruct ny; [lia|]. cbn. apply repeat_length. }
  rewrite Hrows.
  match goal with
  | |- context [for_each (seq 0 ny) ?init ?body] =>
      destruct (for_each_seq_inv Inv body ny) with (s := init)
        as ([[u v] w] & Hrun & Hu & Hv & Hw & Hvals)
  end.
  - intros ky [[u v] w] Hky (Hu & Hv & Hw & Hvals).
    rewrite Hcols by lia.
    set (InvRow := fun (cols : nat)
                       (s : np.matrix * np.matrix * np.matrix) =>
                     let '(u, v, w) := s in
                     shaped ny nx u /\ shaped ny nx v /\ shaped ny nx w
                     /\ forall i j, (i < ny)%nat -> (j < nx)%nat ->
                          (i < ky \/ (i = ky /\ j < cols))%nat ->
                          (item u i j, item v i j, item w i j)
                          = grid_displacement params inputs (nth j x 0)
                                              (nth i y 0)).
    match goal with
    | |- exists s', for_each (seq 0 nx) ?init ?body = _ /\ _ =>
        destruct (for_each_seq_inv InvRow body nx) with (s := init)
          as ([[u' v'] w'] & Hrun & Hu' & Hv' & Hw' & Hvals')
    end.
    + intros kx [[u0 v0] w0] Hkx (Hu0 & Hv0 & Hw0 & Hvals0).
      rewrite (getitem2_item ny nx x2d ky kx Hx2d Hky Hkx).
      rewrite (getitem2_item ny nx y2d ky kx Hy2d Hky Hkx).
      destruct (Hmesh ky kx Hky Hkx) as [-> ->]. cbn [bind].
      pose proof (eq_refl (grid_displacement params inputs (nth kx x 0)
                                             (nth ky y 0))) as Hgd.
      unfold grid_displacement at 1 in Hgd.
      destruct (compute_surface_disp_point_strain
                  params inputs (nth kx x 0) (nth ky y 0) Hwf)
        as (ua & va & wa & strain & Hpoint & _ & _ & _ & Hua & Hva & Hwa).
      rewrite Hpoint in Hgd. rewrite Hpoint. cbn [bind].
      rewrite !accumulator_scalar_ok by assumption. cbn [bind].
      destruct (setitem2_spec ny nx u0 ky kx (stored ua) Hu0 Hky Hkx)
        as (u1 & -> & Hu1 & Eu).
      destruct (setitem2_spec ny nx v0 ky kx (stored va) Hv0 Hky Hkx)
        as (v1 & -> & Hv1 & Ev).
      destruct (setitem2_spec ny nx w0 ky kx (stored wa) Hw0 Hky Hkx)
        as (w1 & -> & Hw1 & Ew).
      cbn [bind]. eexists. split; [reflexivity|].
      unfold InvRow. repeat (split; [assumption|]).
      intros i j Hi Hj Hdone. rewrite Eu, Ev, Ew.
      destruct (Nat.eqb_spec i ky) as [-> | Hne];
        destruct (Nat.eqb_spec j kx) as [-> | Hne']; cbn [andb].
      * exact Hgd.
      * apply Hvals0; [assumption | assumption | lia].
      * apply Hvals0; [assumption | assumption | lia].
      * apply Hvals0; [assumption | assumption | lia].
    + unfold InvRow. repeat (split; [assumption|]).
      intros i j Hi Hj Hdone. apply Hvals; lia.
    + exists (u', v', w'). split; [exact Hrun|].
      unfold Inv. repeat (split; [assumption|]).
      intros i j Hi Hj. apply Hvals'; lia.
  - unfold Inv. repeat (split; [apply zeros_shaped|]).
    intros ky kx Hky. lia.
  - rewrite Hrun. cbn [pyx.lift pyx.bind].
    exists x, y, x2d, y2d, u, v, w. split; [reflexivity|].
    repeat (split; [assumption|]).
    intros ky kx Hky Hkx. destruct (Hmesh ky kx Hky Hkx) as [E1 E2].
    split; [exact E1|]. split; [exact E2|]. now apply Hvals.
Qed.

(** X21. Grid mode. With non-zero increments, non-negative quotients
    [(finish - start) / inc] and well-formed sources, [compute_grid_def]
    returns: an [x] axis of [int((finish_gridx - start_gridx) / xinc)]
    nodes and a [y] axis likewise, the nodes evenly spaced from start to
    finish inclusive (the spacing is the extent over the node count minus
    one, not the increment); five 2-D arrays with one row per [y] node and
    one column per [x] node; [x2d], [y2d] holding the node coordinates;
    and at row [ky], column [kx] the displacement that
    [compute_surface_disp_point] returns at [(x[kx], y[ky])]. *)
Theorem compute_grid_def_grid
        (params : Params.t) (inputs : Input_object.t) :
  let qx := (Input_object.finish_gridx inputs
             - Input_object.start_gridx inputs) / Input_object.xinc inputs in
  let qy := (Input_object.finish_gridy inputs
             - Input_object.start_gridy inputs) / Input_object.yinc inputs in
  let nx := Z.to_nat (int_of_float qx) in
  let ny := Z.to_nat (int_of_float qy) in
  Input_object.xinc inputs <> 0 -> Input_object.yinc inputs <> 0 ->
  0 <= qx -> 0 <= qy ->
  Forall potency_ok (Input_object.source_object inputs) ->
  exists x y x2d y2d u v w,
    run_dc3d.compute_grid_def params inputs
    = pyx.Ok (x, y, x2d, y2d, u, v, w)
    /\ length x = nx /\ length y = ny
    /\ (forall kx, (kx < nx)%nat ->
          nth kx x 0
          = Input_object.start_gridx inputs
            + INR kx * ((Input_object.finish_gridx inputs
                         - Input_object.start_gridx inputs)
                        / IZR (int_of_float qx - 1)))
    /\ (forall ky, (ky < ny)%nat ->
          nth ky y 0
          = Input_object.start_gridy inputs
            + INR ky * ((Input_object.finish_gridy inputs
                         - Input_object.start_gridy inputs)
                        / IZR (int_of_float qy - 1)))
    /\ shaped ny nx x2d /\ shaped ny nx y2d
    /\ shaped ny nx u /\ shaped ny nx v /\ shaped ny nx w
    /\ forall ky kx, (ky < ny)%nat -> (kx < nx)%nat ->
         item x2d ky kx = nth kx x 0 /\ item y2d ky kx = nth ky y 0
         /\ (item u ky kx, item v ky kx, item w ky kx)
            = grid_displacement params inputs (nth kx x 0) (nth ky y 0).
Proof. exact (compute_grid_def_ok params inputs). Qed.
End grid_mode.

(** ** The driver *)

Section driver.
Context {fvf : fault_vector_functions} {okada : okada_wrapper}
        {f64 : np.arange_float64}.

Lemma compute_strains_stresses_receiver
      (params : Params.t) (inputs : Input_object.t) :
  Input_object.receiver_object inputs <> [] ->
  run_dc3d.compute_strains_stresses params inputs = Raise AttributeError.
Proof.
  intros Hne. unfold run_dc3d.compute_strains_stresses.
  destruct (Input_object.receiver_object inputs); [congruence | reflexivity].
Qed.

(** X22. With at least one receiver and split counts of at least 1,
    [do_stress_computation] never returns an [Out_object]: it raises,
    in the splitter, in one of the displacement modes, or at the latest
    with [AttributeError] in [compute_strains_stresses]. *)
Theorem do_stress_computation_receivers
        (params : Params.t) (inputs : Input_object.t)
        (disp_points : list Disp_Points.t)
        (strain_points : strain_points_arg) :
  (1 <= Params.strike_num_receivers params)%Z ->
  (1 <= Params.dip_num_receivers params)%Z ->
  Input_object.receiver_object inputs <> [] ->
  exists e,
    run_dc3d.do_stress_computation params inputs disp_points strain_points
    = pyx.Raise e.
Proof.
  intros Hs Hd Hne. unfold run_dc3d.do_stress_computation.
  destruct (run_dc3d.split_subfault_receivers params inputs) as [sub|e]
    eqn:Hsplit; [|eexists; reflexivity].
  pose proof (split_receivers_nonempty params inputs sub Hs Hd Hne Hsplit)
    as Hsub.
  cbn [pyx.lift pyx.bind].
  destruct (run_dc3d.compute_grid_def params sub)
    as [[[[[[[x y] x2d] y2d] u] v] w]|e]; [|eexists; reflexivity].
  cbn [pyx.bind].
  destruct (run_dc3d.compute_ll_def params sub disp_points) as [points|e];
    [|eexists; reflexivity].
  cbn [pyx.lift pyx.bind].
  destruct (run_dc3d.compute_ll_strain params sub strain_points)
    as [strains|e]; [|eexists; reflexivity].
  cbn [pyx.lift pyx.bind].
  rewrite (compute_strains_stresses_receiver params sub Hsub).
  eexists. reflexivity.
Qed.

Lemma compute_ll_def_ok
      (params : Params.t) (inputs : Input_object.t)
      (disp_points : list Disp_Points.t) :
  Forall potency_ok (Input_object.source_object inputs) ->
  disp_points = [] \/ Input_object.source_object inputs <> [] ->
  exists model_disp_points,
    run_dc3d.compute_ll_def params inputs disp_points = Ok model_disp_points
    /\ Forall2 (fun point model =>
                  Disp_Points.lon model = Disp_Points.lon point
                  /\ Disp_Points.lat model = Disp_Points.lat point)
               disp_points model_disp_points.
Proof.
  intros Hwf [-> | Hne]; [exists []; split; [reflexivity | constructor]|].
  unfold run_dc3d.compute_ll_def.
  match goal with
  | |- exists m, for_each _ _ ?body = _ /\ Forall2 ?P _ _ =>
      assert (Hbody : forall point acc, In point disp_points ->
                 exists b, body point acc = Ok (acc ++ [b]) /\ P point b);
      [ | destruct (for_each_collect P body disp_points Hbody [])
            as (out & Hout & HF) ]
  end.
  - intros point acc _.
    destruct (latlon2xy _ _ _ _) as [xi yi].
    destruct (compute_surface_disp_point_sources params inputs xi yi Hne Hwf)
      as (u & v & w & strain & Hrun & _).
    rewrite Hrun. cbn.
    eexists. split; [reflexivity|]. cbn. now split.
  - exists out. split; [exact Hout | exact HF].
Qed.

Lemma with_receivers_id (inputs : Input_object.t) :
  Input_object.receiver_object inputs = [] ->
  with_receivers inputs [] = inputs.
Proof. destruct inputs. cbn. intros ->. reflexivity. Qed.

Lemma split_no_receiver (params : Params.t) (inputs : Input_object.t) :
  Input_object.receiver_object inputs = [] ->
  run_dc3d.split_subfault_receivers params inputs = Ok inputs.
Proof.
  intros Hnil. unfold run_dc3d.split_subfault_receivers.
  destruct (_ && _); rewrite Hnil; cbn;
    change (Ok (with_receivers inputs []) = Ok inputs);
    now rewrite with_receivers_id.
Qed.

(** X23. Without receivers, with a valid grid, well-formed sources, at
    least one source if there are displacement points, and a latitude for
    every strain longitude, [do_stress_computation] returns an
    [Out_object]: no receiver and empty stress lists, the sources and the
    origin of the inputs, displacement arrays with one row per [y] node
    and one column per [x] node, one modelled point per displacement
    point, and one strain tensor per strain point (no strain result for a
    falsy [strain_points]). *)
Theorem do_stress_computation_no_receiver
        (params : Params.t) (inputs : Input_object.t)
        (disp_points : list Disp_Points.t)
        (strain_points : strain_points_arg) :
  let qx := (Input_object.finish_gridx inputs
             - Input_object.start_gridx inputs) / Input_object.xinc inputs in
  let qy := (Input_object.finish_gridy inputs
             - Input_object.start_gridy inputs) / Input_object.yinc inputs in
  Input_object.receiver_object inputs = [] ->
  Input_object.xinc inputs <> 0 -> Input_object.yinc inputs <> 0 ->
  0 <= qx -> 0 <= qy ->
  Forall potency_ok (Input_object.source_object inputs) ->
  disp_points = [] \/ Input_object.source_object inputs <> [] ->
  strain_points_ok strain_points ->
  exists out,
    run_dc3d.do_stress_computation params inputs disp_points strain_points
    = pyx.Ok out
    /\ Out_object.receiver_object out = []
    /\ Out_object.receiver_normal out = []
    /\ Out_object.receiver_shear out = []
    /\ Out_object.receiver_coulomb out = []
    /\ Out_object.source_object out = Input_object.source_object inputs
    /\ Out_object.zerolon out = Input_object.zerolon inputs
    /\ Out_object.zerolat out = Input_object.zerolat inputs
    /\ length (Out_object.x out) = Z.to_nat (int_of_float qx)
    /\ length (Out_object.y out) = Z.to_nat (int_of_float qy)
    /\ shaped (length (Out_object.y out)) (length (Out_object.x out))
              (Out_object.u_disp out)
    /\ shaped (length (Out_object.y out)) (length (Out_object.x out))
              (Out_object.v_disp out)
    /\ shaped (length (Out_object.y out)) (length (Out_object.x out))
              (Out_object.w_disp out)
    /\ length (Out_object.model_disp_points out) = length disp_points
    /\ match strain_points with
       | NoStrainPoints => Out_object.strains out = None
       | StrainPoints lon _ =>
           exists tensors, Out_object.strains out = Some tensors
                           /\ length tensors = length lon
       end.
Proof.
  intros qx qy Hnil Hxinc Hyinc Hqx Hqy Hwf Hpoints Hstrain.
  unfold run_dc3d.do_stress_computation.
  rewrite (split_no_receiver params inputs Hnil). cbn [pyx.lift pyx.bind].
  destruct (compute_grid_def_ok params inputs Hxinc Hyinc Hqx Hqy Hwf)
    as (x & y & x2d & y2d & u & v & w & -> & Hx & Hy & _ & _ & _ & _
        & Hu & Hv & Hw & _).
  cbn [pyx.bind].
  destruct (compute_ll_def_ok params inputs disp_points Hwf Hpoints)
    as (model & -> & Hmodel).
  cbn [pyx.lift pyx.bind].
  assert (Hs : exists strains,
             run_dc3d.compute_ll_strain params inputs strain_points
             = Ok strains
             /\ match strain_points with
                | NoStrainPoints => strains = None
                | StrainPoints lon _ =>
                    exists tensors, strains = Some tensors
                                    /\ length tensors = length lon
                end).
  { destruct strain_points as [|lon lat].
    - exists None. split; reflexivity.
    - destruct (compute_ll_strain_ok params inputs lon lat Hwf Hstrain)
        as (tensors & Hrun & Hlen & _).
      exists (Some tensors). split; [exact Hrun|]. now exists tensors. }
  destruct Hs as (strains & -> & Hstrains).
  cbn [pyx.lift pyx.bind].
  unfold run_dc3d.compute_strains_stresses. rewrite Hnil.
  cbn [pyx.lift pyx.bind].
  eexists. split; [reflexivity|]. cbn.
  rewrite Hx, Hy. fold qx qy.
  repeat (split; [first [reflexivity | assumption
                         | symmetry; eapply Forall2_length; eassumption]|]).
  exact Hstrains.
Qed.
End driver.

(** ** Fault dictionaries *)

Import fault_slip_object.

Lemma filter_by_depth_cons (item : FaultDict.t) (l : list FaultDict.t)
      (upper lower : R) :
  filter_by_depth (item :: l) upper lower
  = if Rle_dec upper (FaultDict.depth item)
    then if Rle_dec (FaultDict.depth item) lower
         then item :: filter_by_depth l upper lower
         else filter_by_depth l upper lower
    else filter_by_depth l upper lower.
Proof.
  unfold filter_by_depth. cbn [filter].
  destruct (Rle_dec upper _); [destruct (Rle_dec _ lower)|]; reflexivity.
Qed.

Lemma filter_by_depth_In (fault_dict_list : list FaultDict.t)
      (upper lower : R) (item : FaultDict.t) :
  In item (filter_by_depth fault_dict_list upper lower)
  <-> In item fault_dict_list
      /\ upper <= FaultDict.depth item <= lower.
Proof.
  unfold filter_by_depth. rewrite filter_In.
  destruct (Rle_dec upper (FaultDict.depth item));
    [destruct (Rle_dec (FaultDict.depth item) lower)|];
    intuition (try discriminate; lra).
Qed.

(** X24. [filter_by_depth] keeps exactly the patches whose depth lies in
    the closed range from [upper_depth] to [lower_depth]: both ends are
    included. When a range is cut at [middle], a patch at depth [middle]
    is therefore in both halves, and the two halves hold as many patches
    as the whole range plus those at depth [middle]. *)
Theorem filter_by_depth_split
        (fault_dict_list : list FaultDict.t) (upper middle lower : R) :
  upper <= middle -> middle <= lower ->
  (forall item,
     In item (filter_by_depth fault_dict_list upper lower)
     <-> In item fault_dict_list
         /\ upper <= FaultDict.depth item <= lower)
  /\ (forall item,
        In item fault_dict_list -> FaultDict.depth item = middle ->
        In item (filter_by_depth fault_dict_list upper middle)
        /\ In item (filter_by_depth fault_dict_list middle lower))
  /\ (List.length (filter_by_depth fault_dict_list upper middle)
      + List.length (filter_by_depth fault_dict_list middle lower)
      = List.length (filter_by_depth fault_dict_list upper lower)
        + List.length (filter_by_depth fault_dict_list middle middle))%nat.
Proof.
  intros Hum Hml. split; [|split].
  - intros item. apply filter_by_depth_In.
  - intros item Hin Hdepth. rewrite !filter_by_depth_In. split; (split; [exact Hin | lra]).
  - induction fault_dict_list as [|item l IH]; [reflexivity|].
    rewrite !filter_by_depth_cons.
    destruct (Rle_dec upper (FaultDict.depth item));
      destruct (Rle_dec (FaultDict.depth item) middle);
      destruct (Rle_dec middle (FaultDict.depth item));
      destruct (Rle_dec (FaultDict.depth item) lower);
      cbn [List.length]; try lia; exfalso; lra.
Qed.

Lemma change_fault_slip_cons (item : FaultDict.t) (l : list FaultDict.t)
      (new_slip new_rake : option R) :
  change_fault_slip (item :: l) new_slip new_rake
  = change_fault_slip [item] new_slip new_rake
    ++ change_fault_slip l new_slip new_rake.
Proof. reflexivity. Qed.

(** X25. [change_fault_slip] with neither a new slip nor a new rake returns
    the list as it is; applied twice it is one change, the later value
    over the earlier; it commutes with [filter_by_depth] and with
    [filter_by_segment], and leaves the segment and patch counts
    unchanged. *)
Theorem change_fault_slip_frame
        (fault_dict_list : list FaultDict.t)
        (new_slip new_rake : option R) :
  change_fault_slip fault_dict_list None None = fault_dict_list
  /\ (forall slip' rake',
        change_fault_slip (change_fault_slip fault_dict_list new_slip new_rake)
                          slip' rake'
        = change_fault_slip fault_dict_list (or_else slip' new_slip)
                            (or_else rake' new_rake))
  /\ (forall upper lower,
        filter_by_depth (change_fault_slip fault_dict_list new_slip new_rake)
                        upper lower
        = change_fault_slip (filter_by_depth fault_dict_list upper lower)
                            new_slip new_rake)
  /\ (forall segment_num,
        filter_by_segment (change_fault_slip fault_dict_list new_slip new_rake)
                          segment_num
        = change_fault_slip (filter_by_segment fault_dict_list segment_num)
                            new_slip new_rake)
  /\ get_how_many_segments
       (change_fault_slip fault_dict_list new_slip new_rake)
     = get_how_many_segments fault_dict_list.
Proof.
  split; [|split; [|split; [|split]]].
  - unfold change_fault_slip.
    induction fault_dict_list as [|[] l IH]; [reflexivity|].
    cbn [map]. now rewrite IH.
  - intros slip' rake'. unfold change_fault_slip. rewrite map_map.
    apply map_ext. intros item.
    destruct slip', rake', new_slip, new_rake; reflexivity.
  - intros upper lower.
    induction fault_dict_list as [|item l IH]; [reflexivity|].
    rewrite change_fault_slip_cons. cbn [change_fault_slip map app].
    rewrite !filter_by_depth_cons. cbn [FaultDict.depth].
    fold (change_fault_slip l new_slip new_rake). rewrite IH.
    destruct (Rle_dec upper _); [destruct (Rle_dec _ lower)|]; reflexivity.
  - intros segment_num. unfold filter_by_segment.
    induction fault_dict_list as [|item l IH]; [reflexivity|].
    cbn [change_fault_slip map filter FaultDict.segment].
    fold (change_fault_slip l new_slip new_rake). rewrite IH.
    destruct (Z.eqb _ _); reflexivity.
  - unfold get_how_many_segments, change_fault_slip. rewrite map_map.
    cbn [FaultDict.segment]. reflexivity.
Qed.

(** *** Segments *)

Lemma list_sum_map_cons {A : Type} (f : A -> nat) (a : A) (l : list A) :
  list_sum (map f (a :: l)) = (f a + list_sum (map f l))%nat.
Proof. reflexivity. Qed.

Lemma count_once (segs : list Z) (s : Z) :
  NoDup segs -> In s segs ->
  list_sum (map (fun s' => if Z.eqb s s' then 1%nat else 0%nat) segs) = 1%nat.
Proof.
  induction 1 as [|s' segs Hnotin Hnodup IH]; [contradiction|].
  intros [-> | Hin]; rewrite list_sum_map_cons; cbv beta.
  - rewrite Z.eqb_refl.
    assert (Hz : list_sum (map (fun s' => if Z.eqb s s' then 1%nat else 0%nat)
                               segs) = 0%nat).
    { clear IH Hnodup. induction segs as [|a segs IH]; [reflexivity|].
      rewrite list_sum_map_cons.
      destruct (Z.eqb_spec s a) as [->|_];
        [exfalso; apply Hnotin; now left|].
      rewrite IH; [reflexivity|]. intros Hin. apply Hnotin. now right. }
    rewrite Hz. reflexivity.
  - destruct (Z.eqb_spec s s') as [->|_]; [contradiction|].
    cbn [Nat.add]. now apply IH.
Qed.

Lemma segment_counts (l : list FaultDict.t) (segs : list Z) :
  NoDup segs ->
  (forall item, In item l -> In (FaultDict.segment item) segs) ->
  list_sum (map (fun s => List.length (filter_by_segment l s)) segs)
  = List.length l.
Proof.
  intros Hnodup. induction l as [|item l IH]; intros Hall.
  - clear. induction segs; [reflexivity | exact IHsegs].
  - assert (Hsplit :
        forall segs',
          list_sum (map (fun s => List.length (filter_by_segment (item :: l) s))
                        segs')
          = (list_sum (map (fun s' => if Z.eqb (FaultDict.segment item) s'
                                      then 1%nat else 0%nat) segs')
             + list_sum (map (fun s => List.length (filter_by_segment l s))
                             segs'))%nat).
    { induction segs' as [|s segs' IH']; [reflexivity|].
      rewrite !list_sum_map_cons, IH'.
      unfold filter_by_segment at 1. cbn [filter].
      fold (filter_by_segment l s).
      destruct (Z.eqb _ s); cbn [List.length]; lia. }
    rewrite Hsplit, count_once, IH; [reflexivity | | assumption |].
    + intros x Hx. apply Hall. now right.
    + apply Hall. now left.
Qed.

(** X26. [get_how_many_segments] counts at most as many segments as
    patches; a list filtered by segment has at most one segment; and the
    segments partition the list: there is a duplicate-free list of
    [num_segments] segment numbers, exactly those for which
    [filter_by_segment] is not empty, and the sizes of their filtered
    lists add up to [num_patches]. *)
Theorem filter_by_segment_partition (fault_dict_list : list FaultDict.t) :
  let '(num_segments, num_patches) :=
    get_how_many_segments fault_dict_list in
  (num_segments <= num_patches)%nat
  /\ (forall segment_num,
        fst (get_how_many_segments
               (filter_by_segment fault_dict_list segment_num)) <= 1)%nat
  /\ exists segments,
       NoDup segments
       /\ List.length segments = num_segments
       /\ (forall s, In s segments
                     <-> filter_by_segment fault_dict_list s <> [])
       /\ list_sum (map (fun s =>
                           List.length (filter_by_segment fault_dict_list s))
                        segments)
          = num_patches.
Proof.
  unfold get_how_many_segments.
  split; [|split].
  - apply NoDup_incl_length; [apply NoDup_nodup|].
    intros s Hs. now apply nodup_In in Hs.
  - intros segment_num. cbn [fst].
    assert (Hincl : incl (nodup Z.eq_dec
                            (map FaultDict.segment
                               (filter_by_segment fault_dict_list
                                                  segment_num)))
                         [segment_num]).
    { intros s Hs. apply nodup_In, in_map_iff in Hs.
      destruct Hs as (item & <- & Hitem).
      unfold filter_by_segment in Hitem. apply filter_In in Hitem.
      destruct Hitem as [_ Heq]. apply Z.eqb_eq in Heq. now left. }
    apply (NoDup_incl_length (NoDup_nodup _ _)) in Hincl. exact Hincl.
  - exists (nodup Z.eq_dec (map FaultDict.segment fault_dict_list)).
    split; [apply NoDup_nodup|]. split; [reflexivity|]. split.
    + intros s. rewrite nodup_In, in_map_iff. split.
      * intros (item & <- & Hitem) Hnil.
        assert (Hin : In item (filter_by_segment fault_dict_list
                                                 (FaultDict.segment item))).
        { unfold filter_by_segment. apply filter_In. split; [assumption|].
          apply Z.eqb_refl. }
        rewrite Hnil in Hin. contradiction.
      * intros Hne.
        destruct (filter_by_segment fault_dict_list s) as [|item rest] eqn:Hf;
          [congruence|].
        assert (Hin : In item (filter_by_segment fault_dict_list s))
          by (rewrite Hf; now left).
        unfold filter_by_segment in Hin. apply filter_In in Hin.
        destruct Hin as [Hin Heq]. apply Z.eqb_eq in Heq.
        exists item. now split.
    + rewrite length_map. apply segment_counts; [apply NoDup_nodup|].
      intros item Hitem. apply nodup_In, in_map. exact Hitem.
Qed.

Lemma argmin_from_bound (l : np.vector) (best_i i : nat) (best : R) :
  (best_i < i)%nat ->
  (np.argmin_from best_i best i l < i + List.length l)%nat.
Proof.
  revert best_i i best.
  induction l as [|v l IH]; intros best_i i best Hlt; cbn [np.argmin_from].
  - cbn. lia.
  - cbn [List.length].
    destruct (Rlt_dec v best).
    + specialize (IH i (S i) v). lia.
    + specialize (IH best_i (S i) best). lia.
Qed.

Lemma argmin_bound (l : np.vector) :
  l <> [] ->
  exists idx, np.argmin l = Ok idx /\ (idx < List.length l)%nat.
Proof.
  destruct l as [|v l]; [congruence|]. intros _.
  exists (np.argmin_from 0 v 1 l). split; [reflexivity|].
  pose proof (argmin_from_bound l 0 1 v). cbn [List.length]. lia.
Qed.

Lemma getitem_uniform (mus : np.vector) (mu : R) (idx : nat) :
  Forall (eq mu) mus -> (idx < List.length mus)%nat ->
  getitem mus idx = Ok mu.
Proof.
  intros Hall Hidx. unfold getitem.
  destruct (nth_error mus idx) as [G|] eqn:HG.
  - rewrite Forall_forall in Hall.
    now rewrite (Hall G (nth_error_In _ _ HG)).
  - apply nth_error_None in HG. lia.
Qed.

Section moments.
Context {fvf : fault_vector_functions}
        {slip : Tectonic_Utils.slip_functions}
        {moment : Tectonic_Utils.moment_calculations}
        {io : io_pycoulomb}.

Lemma total_moment_from (l : list FaultDict.t) (mu start : R) :
  fold_left
    (fun total_moment item =>
       total_moment
       + Tectonic_Utils.moment_from_muad
           mu (FaultDict.width item * 1000 * FaultDict.length item * 1000)
           (FaultDict.slip item))
    l start
  = start + get_total_moment l mu.
Proof.
  unfold get_total_moment. revert start.
  induction l as [|item l IH]; intros start; cbn [fold_left]; [lra|].
  rewrite IH, (IH (0 + _)). lra.
Qed.

Lemma get_total_moment_app (list1 list2 : list FaultDict.t) (mu : R) :
  get_total_moment (list1 ++ list2) mu
  = get_total_moment list1 mu + get_total_moment list2 mu.
Proof.
  unfold get_total_moment at 1. rewrite fold_left_app.
  fold (get_total_moment list1 mu). apply total_moment_from.
Qed.

(** X27. With a uniform modulus profile (every entry of [mus] equal to
    [mu]), at least one depth and at least as many moduli as depths,
    [get_total_moment_depth_dependent] returns what [get_total_moment]
    returns for [mu], for every implementation of [moment_from_muad]. *)
Theorem get_total_moment_depth_dependent_uniform
        (fault_dict_object_list : list FaultDict.t)
        (depths mus : np.vector) (mu : R) :
  depths <> [] ->
  (List.length depths <= List.length mus)%nat ->
  Forall (eq mu) mus ->
  get_total_moment_depth_dependent fault_dict_object_list depths mus
  = Ok (get_total_moment fault_dict_object_list mu).
Proof.
  intros Hne Hlen Hall.
  unfold get_total_moment_depth_dependent, get_total_moment.
  generalize 0.
  induction fault_dict_object_list as [|item l IH]; intros start;
    [reflexivity|].
  cbn [for_each fold_left].
  destruct (argmin_bound (map (fun v => Rabs (v - FaultDict.depth item))
                              depths)) as (idx & -> & Hidx).
  { destruct depths; [congruence | discriminate]. }
  rewrite length_map in Hidx. cbn [bind].
  rewrite (getitem_uniform mus mu idx Hall) by lia. cbn [bind].
  apply IH.
Qed.

(** X28. [add_two_fault_dict_lists] checks the lengths and nothing else:
    it raises [Exception] exactly when the lengths differ; otherwise it
    returns one patch per pair, with the geometry and segment of the
    patch of the first list (whatever the geometry of the second) and
    the sum of the two tensile components. *)
Theorem add_two_fault_dict_lists_lengths (list1 list2 : list FaultDict.t) :
  match add_two_fault_dict_lists list1 list2 with
  | pyx.Ok new_list =>
      List.length list1 = List.length list2
      /\ List.length new_list = List.length list1
      /\ Forall2 (fun items new_item =>
                    same_geometry (fst items) new_item
                    /\ FaultDict.tensile new_item
                       = FaultDict.tensile (fst items)
                         + FaultDict.tensile (snd items))
                 (combine list1 list2) new_list
  | pyx.Raise e =>
      List.length list1 <> List.length list2
      /\ e = pyx.Exception "Error! Two fault_dict lists are not identical"
  end.
Proof.
  unfold add_two_fault_dict_lists.
  destruct (Nat.eqb_spec (List.length list1) (List.length list2))
    as [Heq | Hneq]; cbn [negb].
  - split; [exact Heq|]. split.
    + rewrite length_map, length_combine. lia.
    + clear Heq. generalize (combine list1 list2). intros l.
      induction l as [|[item1 item2] l IH]; cbn [map]; constructor;
        [|exact IH].
      cbn [fst snd].
      destruct (Tectonic_Utils.get_rtlat_dip_slip _ _).
      destruct (Tectonic_Utils.get_rtlat_dip_slip _ _).
      unfold same_geometry. cbn. repeat split; reflexivity.
  - now split.
Qed.

(** X29. [get_fault_four_corners] raises [AttributeError] for every
    [Faults_object] and both coordinate systems, and
    [get_fault_slip_moment] returns [(None, None)] for a point source and
    raises [AttributeError] for a finite source: the namedtuple declares
    neither [W] nor [L]. *)
Theorem fault_width_attribute
        (fault_object : Faults_object.t) (coords : string) (mu : R) :
  conversion_math.get_fault_four_corners fault_object coords
  = Raise AttributeError
  /\ conversion_math.get_fault_slip_moment fault_object mu
     = if run_dc3d.truthy (Faults_object.potency fault_object)
       then Ok None
       else Raise AttributeError.
Proof.
  split.
  - reflexivity.
  - unfold conversion_math.get_fault_slip_moment.
    destruct (Faults_object.potency fault_object); reflexivity.
Qed.

Lemma four_corners_raise (source : Faults_object.t) (coords : string) :
  conversion_math.get_fault_four_corners source coords = Raise AttributeError.
Proof. reflexivity. Qed.

(** X30. For every implementation of [fault_dict_to_coulomb_fault] that
    returns [Faults_object] namedtuples, [get_four_corners_lon_lat] and
    [get_updip_corners_lon_lat] never return: when the conversion yields
    one patch, they raise [AttributeError]. *)
Theorem corners_lon_lat_never_return (fault_dict_object : FaultDict.t) :
  (exists e, get_four_corners_lon_lat fault_dict_object = pyx.Raise e)
  /\ (exists e, get_updip_corners_lon_lat fault_dict_object = pyx.Raise e)
  /\ forall source,
       fault_dict_to_coulomb_fault [fault_dict_object] None None
       = pyx.Ok [source] ->
       get_four_corners_lon_lat fault_dict_object
       = pyx.Raise (pyx.Builtin AttributeError)
       /\ get_updip_corners_lon_lat fault_dict_object
          = pyx.Raise (pyx.Builtin AttributeError).
Proof.
  unfold get_four_corners_lon_lat, get_updip_corners_lon_lat.
  destruct (fault_dict_to_coulomb_fault [fault_dict_object] None None)
    as [sources|e]; cbn [pyx.bind].
  - destruct sources as [|source [|second rest]];
      cbn [unpack_one pyx.bind].
    + split; [|split]; [eexists; reflexivity.. | discriminate].
    + rewrite four_corners_raise. cbn [pyx.lift pyx.bind].
      split; [|split]; [eexists; reflexivity.. |].
      intros source' _. split; reflexivity.
    + split; [|split]; [eexists; reflexivity.. | discriminate].
  - split; [|split]; [eexists; reflexivity.. | discriminate].
Qed.
End moments.

(** ** More examples *)

Lemma get_poissons_ratio_and_alpha_range_example :
  0 < 3 /\ 0 <= 3
  /\ exists nu alpha,
      conversion_math.get_poissons_ratio_and_alpha 3 3 = pyx.Ok (nu, alpha)
      /\ 0 <= nu < 1 / 2
      /\ 1 / 2 <= alpha < 1
      /\ alpha = 1 / (2 * (1 - nu)).
Proof.
  split; [lra|]. split; [lra|].
  apply (get_poissons_ratio_and_alpha_range 3 3); lra.
Defined.

Lemma examples_rotation_antisymmetric : antisymmetric3 examples.rotation.
Proof.
  intros i j Hi Hj. index3 i Hi; index3 j Hj; cbn; lra.
Qed.

Lemma get_strain_tensor_rigid_rotation_example :
  shaped 3 3 examples.rotation /\ antisymmetric3 examples.rotation
  /\ conversion_math.get_strain_tensor examples.rotation
     = Ok [[0; 0; 0]; [0; 0; 0]; [0; 0; 0]].
Proof.
  split; [apply shaped_3_3_intro|].
  split; [exact examples_rotation_antisymmetric|].
  apply (get_strain_tensor_rigid_rotation examples.rotation).
  - apply shaped_3_3_intro.
  - exact examples_rotation_antisymmetric.
Defined.

Lemma get_strain_tensor_projection_example :
  shaped 3 3 example.gradient
  /\ exists S,
      conversion_math.get_strain_tensor example.gradient = Ok S
      /\ conversion_math.get_strain_tensor S = Ok S
      /\ (symmetric3 example.gradient -> S = example.gradient).
Proof.
  split; [apply shaped_3_3_intro|].
  apply (get_strain_tensor_projection example.gradient).
  apply shaped_3_3_intro.
Defined.

Lemma examples_plane_strain_shaped : shaped 2 2 examples.plane_strain.
Proof. split; [reflexivity | repeat constructor]. Qed.

Lemma get_stress_tensor_small_example :
  shaped 2 2 examples.plane_strain /\ (1 <= 2 < 3)%nat
  /\ conversion_math.get_stress_tensor examples.plane_strain 2 3
     = Raise IndexError.
Proof.
  split; [exact examples_plane_strain_shaped|]. split; [lia|].
  apply (get_stress_tensor_small examples.plane_strain 2 2 3).
  - exact examples_plane_strain_shaped.
  - lia.
Defined.

Lemma get_stress_tensor_invertible_example :
  shaped 3 3 example.gradient /\ 3 <> 0 /\ 3 * 2 + 2 * 3 <> 0
  /\ exists S,
      conversion_math.get_stress_tensor example.gradient 2 3 = Ok S
      /\ np.trace S = (3 * 2 + 2 * 3) * np.trace example.gradient
      /\ forall i j, (i < 3)%nat -> (j < 3)%nat ->
           item example.gradient i j
           = (item S i j
              - 2 / (3 * 2 + 2 * 3) * np.trace S * item identity3 i j)
             / (2 * 3).
Proof.
  split; [apply shaped_3_3_intro|]. split; [lra|]. split; [lra|].
  apply (get_stress_tensor_invertible example.gradient 2 3);
    [apply shaped_3_3_intro | lra | lra].
Defined.

Lemma stress_of_gradient_symmetric_example :
  shaped 3 3 example.gradient
  /\ exists S T,
      conversion_math.get_strain_tensor example.gradient = Ok S
      /\ conversion_math.get_stress_tensor S 2 3 = Ok T
      /\ shaped 3 3 T /\ symmetric3 T.
Proof.
  split; [apply shaped_3_3_intro|].
  apply (stress_of_gradient_symmetric example.gradient 2 3).
  apply shaped_3_3_intro.
Defined.

Lemma resolver_hydrostatic_example :
  dot3 (0, 0, 1) (0, 0, 1) = 1 /\ dot3 (1, 0, 0) (0, 0, 1) = 0
  /\ dot3 (0, 1, 0) (0, 0, 1) = 0
  /\ conversion_math.get_coulomb_stresses_internal
       (hydrostatic (-5)) (array3 (1, 0, 0)) 180 (array3 (0, 1, 0))
       (array3 (0, 0, 1)) 0.4 0
     = Ok (-5 * (1 - 0) / 1000, 0, 0.4 * (-5 * (1 - 0) / 1000)).
Proof.
  split; [cbn; lra|]. split; [cbn; lra|]. split; [cbn; lra|].
  apply (resolver_hydrostatic (-5) 180 0.4 0 (1, 0, 0) (0, 1, 0) (0, 0, 1));
    cbn; lra.
Defined.

Lemma resolver_opposite_rake_example :
  shaped 3 3 example.gradient
  /\ exists normal shear,
      conversion_math.get_coulomb_stresses (fvf := example.geometry)
        example.gradient 0 0 90 0.4 0
      = Ok (normal, shear, shear + 0.4 * normal)
      /\ conversion_math.get_coulomb_stresses (fvf := example.geometry)
           example.gradient 0 (0 + 180) 90 0.4 0
         = Ok (normal, - shear, - shear + 0.4 * normal).
Proof.
  split; [apply shaped_3_3_intro|].
  apply (@resolver_opposite_rake example.geometry example.gradient
           0 0 90 0.4 0).
  apply shaped_3_3_intro.
Defined.

Lemma examples_inverted :
  Exists (fun fault => Faults_object.bottom fault < Faults_object.top fault)
         (Input_object.receiver_object
            (example.inputs [example.source]
                            [example.receiver; examples.inverted_receiver])).
Proof. right. left. cbn. lra. Qed.

Lemma split_subfault_receivers_inverted_example :
  (1 <= Params.strike_num_receivers example.params)%Z
  /\ (1 <= Params.dip_num_receivers example.params)%Z
  /\ ~ (Params.strike_num_receivers example.params = 1%Z
        /\ Params.dip_num_receivers example.params = 1%Z)
  /\ Exists (fun fault => Faults_object.bottom fault < Faults_object.top fault)
            (Input_object.receiver_object
               (example.inputs [example.source]
                               [example.receiver; examples.inverted_receiver]))
  /\ run_dc3d.split_subfault_receivers
       (fvf := example.geometry) (f64 := example.exact_arange) example.params
       (example.inputs [example.source]
                       [example.receiver; examples.inverted_receiver])
     = Raise IndexError.
Proof.
  destruct example_counts as (Hs & Hd & Hnot).
  split; [exact Hs|]. split; [exact Hd|]. split; [exact Hnot|].
  split; [exact examples_inverted|].
  exact (@split_subfault_receivers_inverted example.geometry
           example.exact_arange example.params
           (example.inputs [example.source]
                           [example.receiver; examples.inverted_receiver])
           Hs Hd Hnot examples_inverted).
Defined.

Lemma split_subfault_receivers_tiling_example :
  (1 <= Params.strike_num_receivers example.params)%Z
  /\ (1 <= Params.dip_num_receivers example.params)%Z
  /\ ~ (Params.strike_num_receivers example.params = 1%Z
        /\ Params.dip_num_receivers example.params = 1%Z)
  /\ Forall (enough_entries (fvf := example.geometry)
                            (f64 := example.exact_arange) example.params)
            (Input_object.receiver_object
               (example.inputs [example.source] [example.receiver]))
  /\ exists grids : list (list (list Faults_object.t)),
      run_dc3d.split_subfault_receivers
        (fvf := example.geometry) (f64 := example.exact_arange)
        example.params
        (example.inputs [example.source] [example.receiver])
      = Ok (with_receivers
              (example.inputs [example.source] [example.receiver])
              (concat (map (@concat _) grids)))
      /\ Forall2
           (fun fault rows =>
              Forall2
                (fun j row =>
                   length row
                   = Z.to_nat (Params.strike_num_receivers example.params)
                   /\ Forall (depth_slice
                                (example.inputs [example.source]
                                                [example.receiver])
                                fault
                                (Params.dip_num_receivers example.params) j)
                             row
                   /\ chained row)
                (range (Params.dip_num_receivers example.params)) rows)
           (Input_object.receiver_object
              (example.inputs [example.source] [example.receiver]))
           grids.
Proof.
  destruct example_counts as (Hs & Hd & Hnot).
  split; [exact Hs|]. split; [exact Hd|]. split; [exact Hnot|].
  split; [exact example_receiver_enough|].
  exact (@split_subfault_receivers_tiling example.geometry
           example.exact_arange example.params
           (example.inputs [example.source] [example.receiver])
           Hs Hd Hnot example_receiver_enough).
Defined.

Lemma split_subfault_receivers_no_rows_example :
  (Params.dip_num_receivers examples.params_no_dip <= 0)%Z
  /\ run_dc3d.split_subfault_receivers
       (fvf := example.geometry) (f64 := example.exact_arange)
       examples.params_no_dip
       (example.inputs [example.source] [example.receiver])
     = if Z.eqb (Params.dip_num_receivers examples.params_no_dip) 0
          && existsb (fun fault =>
                        if Req_dec_T (Faults_object.top fault)
                                     (Faults_object.bottom fault)
                        then false else true)
                     (Input_object.receiver_object
                        (example.inputs [example.source] [example.receiver]))
       then Raise ZeroDivisionError
       else Ok (with_receivers
                  (example.inputs [example.source] [example.receiver]) []).
Proof.
  split; [cbn; lia|].
  apply (@split_subfault_receivers_no_rows example.geometry
           example.exact_arange examples.params_no_dip
           (example.inputs [example.source] [example.receiver])).
  cbn. lia.
Defined.

Lemma compute_ll_strain_tensors_example :
  Forall potency_ok
         (Input_object.source_object
            (example.inputs [example.source; example.point_source] []))
  /\ (length examples.strain_lon <= length examples.strain_lat)%nat
  /\ exists tensors,
      run_dc3d.compute_ll_strain
        (fvf := example.geometry) (okada := example.solver) example.params
        (example.inputs [example.source; example.point_source] [])
        (StrainPoints examples.strain_lon examples.strain_lat)
      = Ok (Some tensors)
      /\ length tensors = length examples.strain_lon
      /\ Forall (fun T => shaped 3 3 T /\ symmetric3 T) tensors
      /\ (Input_object.source_object
            (example.inputs [example.source; example.point_source] []) = [] ->
          Forall (eq [[0; 0; 0]; [0; 0; 0]; [0; 0; 0]]) tensors).
Proof.
  split; [exact example_sources_ok|]. split; [cbn; lia|].
  apply (@compute_ll_strain_tensors example.geometry example.solver
           example.params
           (example.inputs [example.source; example.point_source] [])
           examples.strain_lon examples.strain_lat).
  - exact example_sources_ok.
  - cbn. lia.
Defined.

Lemma compute_ll_strain_short_lat_example :
  (length (tl examples.strain_lat) < length examples.strain_lon)%nat
  /\ run_dc3d.compute_ll_strain
       (fvf := example.geometry) (okada := example.solver) example.params
       (example.inputs [example.source] [])
       (StrainPoints examples.strain_lon (tl examples.strain_lat))
     = Raise IndexError.
Proof.
  split; [cbn; lia|].
  apply (@compute_ll_strain_short_lat example.geometry example.solver
           example.params (example.inputs [example.source] [])
           examples.strain_lon (tl examples.strain_lat)).
  cbn. lia.
Defined.

Lemma example_grid :
  Input_object.xinc (example.inputs [example.source; example.point_source] [])
  <> 0
  /\ Input_object.yinc
       (example.inputs [example.source; example.point_source] []) <> 0
  /\ 0 <= (20 - -20) / 1.
Proof. cbn. split; [lra|]. split; lra. Qed.

Lemma compute_grid_def_grid_example :
  Input_object.xinc (example.inputs [example.source; example.point_source] [])
  <> 0
  /\ Input_object.yinc
       (example.inputs [example.source; example.point_source] []) <> 0
  /\ 0 <= (20 - -20) / 1
  /\ Forall potency_ok
            (Input_object.source_object
               (example.inputs [example.source; example.point_source] []))
  /\ exists x y x2d y2d u v w,
      run_dc3d.compute_grid_def
        (fvf := example.geometry) (okada := example.solver) example.params
        (example.inputs [example.source; example.point_source] [])
      = pyx.Ok (x, y, x2d, y2d, u, v, w)
      /\ length x = Z.to_nat (int_of_float ((20 - -20) / 1))
      /\ length y = Z.to_nat (int_of_float ((20 - -20) / 1))
      /\ shaped (length y) (length x) u
      /\ forall ky kx, (ky < length y)%nat -> (kx < length x)%nat ->
           (item u ky kx, item v ky kx, item w ky kx)
           = grid_displacement
               (fvf := example.geometry) (okada := example.solver)
               example.params
               (example.inputs [example.source; example.point_source] [])
               (nth kx x 0) (nth ky y 0).
Proof.
  destruct example_grid as (Hx & Hy & Hq).
  split; [exact Hx|]. split; [exact Hy|]. split; [exact Hq|].
  split; [exact example_sources_ok|].
  destruct (@compute_grid_def_grid example.geometry example.solver
              example.params
              (example.inputs [example.source; example.point_source] [])
              Hx Hy Hq Hq example_sources_ok)
    as (x & y & x2d & y2d & u & v & w & Hrun & Hlx & Hly & _ & _ & _ & _
        & Hu & _ & _ & Hnodes).
  exists x, y, x2d, y2d, u, v, w.
  split; [exact Hrun|]. split; [exact Hlx|]. split; [exact Hly|].
  rewrite Hlx, Hly. split; [exact Hu|].
  intros ky kx Hky Hkx. apply (Hnodes ky kx Hky Hkx).
Defined.

Lemma do_stress_computation_receivers_example :
  (1 <= Params.strike_num_receivers example.params)%Z
  /\ (1 <= Params.dip_num_receivers example.params)%Z
  /\ Input_object.receiver_object
       (example.inputs [example.source] [example.receiver]) <> []
  /\ exists e,
      run_dc3d.do_stress_computation
        (fvf := example.geometry) (okada := example.solver)
        (f64 := example.exact_arange) example.params
        (example.inputs [example.source] [example.receiver])
        [example.station] NoStrainPoints
      = pyx.Raise e.
Proof.
  destruct example_counts as (Hs & Hd & _).
  split; [exact Hs|]. split; [exact Hd|]. split; [discriminate|].
  apply (@do_stress_computation_receivers example.geometry example.solver
           example.exact_arange example.params
           (example.inputs [example.source] [example.receiver])
           [example.station] NoStrainPoints Hs Hd).
  discriminate.
Defined.

Lemma do_stress_computation_no_receiver_example :
  Input_object.receiver_object
    (example.inputs [example.source; example.point_source] []) = []
  /\ Input_object.xinc
       (example.inputs [example.source; example.point_source] []) <> 0
  /\ Input_object.yinc
       (example.inputs [example.source; example.point_source] []) <> 0
  /\ 0 <= (20 - -20) / 1
  /\ Forall potency_ok
            (Input_object.source_object
               (example.inputs [example.source; example.point_source] []))
  /\ ([example.station] = []
      \/ Input_object.source_object
           (example.inputs [example.source; example.point_source] []) <> [])
  /\ strain_points_ok (StrainPoints examples.strain_lon examples.strain_lat)
  /\ exists out,
      run_dc3d.do_stress_computation
        (fvf := example.geometry) (okada := example.solver)
        (f64 := example.exact_arange) example.params
        (example.inputs [example.source; example.point_source] [])
        [example.station] (StrainPoints examples.strain_lon examples.strain_lat)
      = pyx.Ok out
      /\ Out_object.receiver_object out = []
      /\ Out_object.receiver_coulomb out = []
      /\ length (Out_object.model_disp_points out) = 1%nat
      /\ exists tensors, Out_object.strains out = Some tensors
                         /\ length tensors = 2%nat.
Proof.
  destruct example_grid as (Hx & Hy & Hq).
  assert (Hpoints :
            [example.station] = []
            \/ Input_object.source_object
                 (example.inputs [example.source; example.point_source] [])
               <> []) by (right; discriminate).
  assert (Hstrain : strain_points_ok (StrainPoints examples.strain_lon examples.strain_lat))
    by (cbn; lia).
  split; [reflexivity|].
  split; [exact Hx|]. split; [exact Hy|]. split; [exact Hq|].
  split; [exact example_sources_ok|].
  split; [exact Hpoints|]. split; [exact Hstrain|].
  destruct (@do_stress_computation_no_receiver example.geometry example.solver
              example.exact_arange example.params
              (example.inputs [example.source; example.point_source] [])
              [example.station] (StrainPoints examples.strain_lon examples.strain_lat)
              eq_refl Hx Hy Hq Hq example_sources_ok Hpoints Hstrain)
    as (out & Hrun & Hrec & _ & _ & Hcoulomb & _ & _ & _ & _ & _ & _ & _ & _
        & Hmodel & Hstrains).
  exists out. split; [exact Hrun|]. split; [exact Hrec|].
  split; [exact Hcoulomb|]. split; [exact Hmodel|]. exact Hstrains.
Defined.

Lemma filter_by_depth_split_example :
  0 <= 5 /\ 5 <= 10
  /\ (In examples.deep_patch
         (filter_by_depth [examples.patch; examples.deep_patch] 0 5)
      /\ In examples.deep_patch
            (filter_by_depth [examples.patch; examples.deep_patch] 5 10))
  /\ (List.length (filter_by_depth [examples.patch; examples.deep_patch] 0 5)
      + List.length
          (filter_by_depth [examples.patch; examples.deep_patch] 5 10)
      = List.length
          (filter_by_depth [examples.patch; examples.deep_patch] 0 10)
        + List.length
            (filter_by_depth [examples.patch; examples.deep_patch] 5 5))%nat.
Proof.
  assert (H05 : 0 <= 5) by lra. assert (H510 : 5 <= 10) by lra.
  split; [exact H05|]. split; [exact H510|].
  destruct (filter_by_depth_split [examples.patch; examples.deep_patch]
                                  0 5 10 H05 H510) as (_ & Hboth & Hcount).
  split; [|exact Hcount].
  apply Hboth; [right; left; reflexivity | reflexivity].
Defined.

Lemma get_total_moment_depth_dependent_uniform_example :
  examples.depths <> []
  /\ (List.length examples.depths <= List.length examples.mus)%nat
  /\ Forall (eq 30) examples.mus
  /\ get_total_moment_depth_dependent
       (moment := examples.moment)
       [examples.patch; examples.deep_patch] examples.depths examples.mus
     = Ok (get_total_moment (moment := examples.moment)
             [examples.patch; examples.deep_patch] 30).
Proof.
  split; [discriminate|]. split; [cbn; lia|].
  split; [repeat constructor|].
  apply (@get_total_moment_depth_dependent_uniform examples.moment
           [examples.patch; examples.deep_patch] examples.depths examples.mus 30).
  - discriminate.
  - cbn. lia.
  - repeat constructor.
Defined.
